(** * Hive: budget ledger, agent loop and orchestrator scheduler

    A shallow embedding of the budget-constrained scheduler of the
    repository:

    - [orchestrator/budget.ts]       -> Module [Budget]
    - [agents/agent.ts]              -> Section [AgentLoop]
    - [orchestrator/orchestrator.ts] -> Section [Orchestrator]

    Modelling conventions.

    - A JavaScript [number] that holds money is an exact rational ([Q]):
      rounding of IEEE doubles is not modelled.  The one place where the
      source can leave the finite numbers, the division in
      [recordSpend], is modelled with [jsnum], which has the two
      infinities and NaN.
    - A [Map<string, _>] is a [gmap string _]; a [Set<number>] whose order
      is never observed is a [gset Z]; a [Set<number>] whose insertion
      order we want to observe is a duplicate-free list.
    - The text-generation backend, the tools, [uuid()] and the creation of
      the tool registry are external: they are functions on an abstract
      world [W], threaded through the code in program order.
    - An exception is the [message] of the thrown [Error].
    - A lookup in an object literal ([MODEL_PRICING[m]],
      [AGENT_PRESETS[key]]) also answers for the names inherited from
      [Object.prototype]; a string property that such a lookup can leave
      [undefined] is an [option string].
    - Of the events emitted, the model keeps those of the [BudgetManager]
      (as the list a call emits), the [cost_update] of an agent (as the
      listener the orchestrator registers) and [agent_started] (as a
      log); listeners registered from outside the core are not part of
      it.  The maps [activeAgents] and [activeTasks] are bookkeeping for
      cancellation and queries and are left out; a cancellation shows as
      [abort_requested]. *)

From Stdlib Require Import QArith Qminmax ZArith Lia Lqa Permutation Ascii String.
From stdpp Require Import gmap strings list pretty.

#[local] Set Warnings "-clear-no-such-hyp".
Local Open Scope Q_scope.

(** ** Numbers *)

(** Result of a JavaScript division of two finite numbers. *)
Inductive jsnum : Type :=
  | Fin (q : Q)
  | PosInf
  | NegInf
  | NaN.

(** [x / y] on finite operands: division by zero gives an infinity with
    the sign of [x], and [0 / 0] is NaN. *)
Definition js_div (x y : Q) : jsnum :=
  if Qeq_bool y 0 then
    match x ?= 0 with
    | Gt => PosInf
    | Lt => NegInf
    | Eq => NaN
    end
  else Fin (x / y).

(** [x * k] for a finite positive constant [k]. *)
Definition js_scale (x : jsnum) (k : Q) : jsnum :=
  match x with
  | Fin q => Fin (q * k)
  | other => other
  end.

(** [x >= k] for a finite [k]; every comparison with NaN is false. *)
Definition js_ge (x : jsnum) (k : Q) : bool :=
  match x with
  | Fin q => Qle_bool k q
  | PosInf => true
  | NegInf => false
  | NaN => false
  end.

(** [x >= y] and [x <= y] on finite numbers, as booleans. *)
Definition Qge_bool (x y : Q) : bool := Qle_bool y x.
Definition Qlt_bool (x y : Q) : bool := negb (Qle_bool y x).

(** ** Strings and object literals *)

(** A string-valued property that can be [undefined]: [None] is
    [undefined]. *)
Definition js_text (v : option string) : string :=
  match v with
  | Some s => s
  | None => "undefined"
  end.

(** The names that every object literal inherits from
    [Object.prototype]: [TABLE[name]] is defined (and truthy) for them
    although the literal has no such entry.  All of them are functions
    except [__proto__], which is the prototype object itself. *)
Definition object_prototype_keys : list string :=
  [ "constructor"; "hasOwnProperty"; "isPrototypeOf"; "propertyIsEnumerable";
    "toLocaleString"; "toString"; "valueOf"; "__proto__";
    "__defineGetter__"; "__defineSetter__";
    "__lookupGetter__"; "__lookupSetter__" ].

Definition inherited_key (m : string) : bool :=
  existsb (String.eqb m) object_prototype_keys.

(** ** orchestrator/budget.ts *)

Record AgentBudget : Type := mkAgentBudget {
  agentId : string;
  allocated : Q;
  spent : Q;
}.

Inductive BudgetEvent : Type :=
  | EvSpend (id : string) (amount total remaining : Q)
  | EvWarning (id : string) (percentUsed : jsnum)
  | EvExhausted (id : string).

Definition is_warning (e : BudgetEvent) : bool :=
  match e with
  | EvWarning _ _ => true
  | _ => false
  end.

Record BudgetManager : Type := mkBudgetManager {
  totalBudget : Q;
  totalSpent : Q;
  agentBudgets : gmap string AgentBudget;
  reserve : Q;
}.

Module Budget.

(** [constructor(totalBudget, reservePercent = 0.1)] *)
Definition new (total : Q) (reservePercent : Q) : BudgetManager :=
  {| totalBudget := total;
     totalSpent := 0;
     agentBudgets := ∅;
     reserve := total * reservePercent |}.

Definition default_reservePercent : Q := 1 # 10.

(** [get remaining()] *)
Definition remaining (b : BudgetManager) : Q :=
  Qmax 0 (totalBudget b - totalSpent b).

(** [allocate(agentId, requested)]: the returned amount and the
    manager after the call. *)
Definition allocate (id : string) (requested : Q) (b : BudgetManager)
  : Q * BudgetManager :=
  let available := totalBudget b - totalSpent b - reserve b in
  let allocated := Qmin requested (Qmax 0 available) in
  (allocated,
   {| totalBudget := totalBudget b;
      totalSpent := totalSpent b;
      agentBudgets :=
        <[id := {| agentId := id; allocated := allocated; spent := 0 |}]>
          (agentBudgets b);
      reserve := reserve b |}).

(** [recordSpend(agentId, amount)]: the returned boolean, the events
    emitted in order, and the manager after the call. *)
Definition recordSpend (id : string) (amount : Q) (b : BudgetManager)
  : bool * list BudgetEvent * BudgetManager :=
  let totalSpent' := totalSpent b + amount in
  let agentBudgets' :=
    match agentBudgets b !! id with
    | Some ab =>
        <[id := {| agentId := agentId ab;
                   allocated := allocated ab;
                   spent := spent ab + amount |}]> (agentBudgets b)
    | None => agentBudgets b
    end in
  let b' := {| totalBudget := totalBudget b;
               totalSpent := totalSpent';
               agentBudgets := agentBudgets';
               reserve := reserve b |} in
  let remaining := totalBudget b - totalSpent' in
  let ev_spend := [EvSpend id amount totalSpent' remaining] in
  let percentUsed := js_scale (js_div totalSpent' (totalBudget b)) 100 in
  let ev_warning :=
    if js_ge percentUsed 90 then [EvWarning id percentUsed]
    else if js_ge percentUsed 80 then [EvWarning id percentUsed]
    else [] in
  if Qge_bool totalSpent' (totalBudget b)
  then (false, ev_spend ++ ev_warning ++ [EvExhausted id], b')
  else (true, ev_spend ++ ev_warning, b').

(** [canSpend(agentId)] *)
Definition canSpend (id : string) (b : BudgetManager) : bool :=
  match agentBudgets b !! id with
  | None => false
  | Some ab =>
      Qlt_bool (spent ab) (allocated ab)
      && Qlt_bool (totalSpent b) (totalBudget b)
  end.

(** [release(agentId)]: the returned unspent amount and the manager
    after the call. *)
Definition release (id : string) (b : BudgetManager) : Q * BudgetManager :=
  match agentBudgets b !! id with
  | None => (0, b)
  | Some ab =>
      (allocated ab - spent ab,
       {| totalBudget := totalBudget b;
          totalSpent := totalSpent b;
          agentBudgets := delete id (agentBudgets b);
          reserve := reserve b |})
  end.

(** Number of warning events among the events of one call. *)
Definition warnings (evs : list BudgetEvent) : nat :=
  length (List.filter is_warning evs).

(** The manager after a list of [allocate] calls, in order. *)
Definition allocate_all (reqs : list (string * Q)) (b : BudgetManager)
  : BudgetManager :=
  fold_left (λ acc r, snd (allocate (fst r) (snd r) acc)) reqs b.

(** Sum of the allocations of the live sub-ledgers. *)
Definition live_allocated (b : BudgetManager) : Q :=
  map_fold (λ _ ab acc, allocated ab + acc) 0 (agentBudgets b).

End Budget.

(** ** providers/provider.ts *)

Record ToolDefinition : Type := mkToolDefinition {
  td_name : string;
  td_description : string;
}.

(** [arguments] is a JSON object; it is only passed on, so its text is
    enough. *)
Record ToolCall : Type := mkToolCall {
  tc_id : string;
  tc_name : string;
  tc_arguments : string;
}.

Record ToolResult : Type := mkToolResult {
  toolCallId : string;
  tr_content : string;
}.

Record ImageAttachment : Type := mkImageAttachment {
  img_type : string;
  img_mediaType : string;
  img_data : string;
}.

Inductive Role : Type := user | assistant | tool.

Record Message : Type := mkMessage {
  role : Role;
  content : string;
  images : option (list ImageAttachment);
  toolCalls : option (list ToolCall);
  toolResults : option (list ToolResult);
}.

Record Usage : Type := mkUsage {
  inputTokens : Z;
  outputTokens : Z;
  cost : Q;
}.

Inductive StopReason : Type := end_turn | tool_use | max_tokens | budget_stop.

Record LLMResponse : Type := mkLLMResponse {
  resp_content : string;
  resp_toolCalls : list ToolCall;
  usage : Usage;
  stopReason : StopReason;
}.

(** ** agents/agent.ts: data *)

Inductive AgentStatus : Type :=
  | completed
  | budget_exhausted
  | max_turns
  | error.

Definition status_text (s : AgentStatus) : string :=
  match s with
  | completed => "completed"
  | budget_exhausted => "budget_exhausted"
  | max_turns => "max_turns"
  | error => "error"
  end.

Record AgentResult : Type := mkAgentResult {
  res_id : string;
  res_name : option string;
  output : string;
  res_totalCost : Q;
  res_totalInputTokens : Z;
  res_totalOutputTokens : Z;
  res_turns : nat;
  status : AgentStatus;
}.

(** The mutable fields of an [Agent].  [chatCalls] is a ghost counter of
    the calls made to [provider.chat]; the source has no such field. *)
Record AgentState : Type := mkAgentState {
  messages : list Message;
  totalCost : Q;
  totalInputTokens : Z;
  totalOutputTokens : Z;
  turns : nat;
  aborted : bool;
  chatCalls : nat;
}.

(** A fresh agent, as the field initialisers leave it. *)
Definition initial_state : AgentState :=
  {| messages := [];
     totalCost := 0;
     totalInputTokens := 0%Z;
     totalOutputTokens := 0%Z;
     turns := 0;
     aborted := false;
     chatCalls := 0 |}.

(** A string is truthy in JavaScript iff it is not empty. *)
Definition truthy (s : string) : bool :=
  match s with
  | EmptyString => false
  | String _ _ => true
  end.

(** [messages.filter(m => m.role === "assistant" && m.content).pop()?.content] *)
Definition last_assistant_text (ms : list Message) : option string :=
  content <$>
    last (List.filter
            (λ m, match role m with
                  | assistant => truthy (content m)
                  | _ => false
                  end) ms).

(** ** External collaborators *)

(** What [await provider.chat(...)] does: it resolves to a response or
    rejects with an error. *)
Inductive ChatOutcome : Type :=
  | ChatReturns (r : LLMResponse)
  | ChatThrows (message : string).

(** [LLMProvider.chat(messages, tools, model, systemPrompt?)]; the system
    prompt is [None] when the caller passes [undefined]. *)
Definition Provider (W : Type) : Type :=
  list Message → list ToolDefinition → string → option string → W
  → ChatOutcome * W.

Inductive ToolOutcome : Type :=
  | ToolReturns (text : string)
  | ToolThrows (message : string).

(** tools/registry.ts: [ToolHandler] *)
Record ToolHandler (W : Type) : Type := mkToolHandler {
  definition : ToolDefinition;
  execute : string → W → ToolOutcome * W;
}.
Arguments mkToolHandler {W} _ _.
Arguments definition {W} _.
Arguments execute {W} _ _ _.

Definition dquote : string := String "034"%char EmptyString.

Module ToolRegistry.
Section Registry.
Context {W : Type}.

(** The [Map<string, ToolHandler>], in insertion order. *)
Definition t : Type := list (ToolHandler W).

Definition get (name : string) (reg : t) : option (ToolHandler W) :=
  List.find (λ h, String.eqb (td_name (definition h)) name) reg.

Fixpoint register (h : ToolHandler W) (reg : t) : t :=
  match reg with
  | [] => [h]
  | h' :: rest =>
      if String.eqb (td_name (definition h')) (td_name (definition h))
      then h :: rest
      else h' :: register h rest
  end.

(** [execute(name, args)]: never rejects. *)
Definition execute_tool (name args : string) (reg : t) (w : W) : string * W :=
  match get name reg with
  | None => ("Error: Unknown tool " +:+ dquote +:+ name +:+ dquote, w)
  | Some h =>
      match execute h args w with
      | (ToolReturns text, w') => (text, w')
      | (ToolThrows m, w') => ("Error executing " +:+ name +:+ ": " +:+ m, w')
      end
  end.

Definition getDefinitions (reg : t) : list ToolDefinition :=
  map definition reg.

End Registry.
End ToolRegistry.

(** ** agents/agent.ts: the execution loop *)

Record AgentConfig (W : Type) : Type := mkAgentConfig {
  cfg_id : option string;
  name : option string;
  model : string;
  systemPrompt : option string;
  provider : Provider W;
  tools : @ToolRegistry.t W;
  budget : Q;
  maxTurns : option nat;
}.
Arguments mkAgentConfig {W} _ _ _ _ _ _ _ _.
Arguments cfg_id {W} _.
Arguments name {W} _.
Arguments model {W} _.
Arguments systemPrompt {W} _.
Arguments provider {W} _.
Arguments tools {W} _.
Arguments budget {W} _.
Arguments maxTurns {W} _.

Section AgentLoop.
Context {W : Type}.

(** [uuid()] *)
Variable uuid : W → string * W.

(** Whether [abort()] has been called on the agent while it was
    suspended in the [await] that has just returned. *)
Variable abort_requested : W → bool.

(** [this.id = config.id ?? uuid()] in the constructor. *)
Definition new_agent_id (cfg : AgentConfig W) (w : W) : string * W :=
  match cfg_id cfg with
  | Some i => (i, w)
  | None => uuid w
  end.

(** What [finish] puts in [output] when it is called without one: the
    last non-empty assistant text, else a synthesized sentence. *)
Definition fallback_output (cfg : AgentConfig W) (st : AgentState)
    (s : AgentStatus) : string :=
  match last_assistant_text (messages st) with
  | Some c => c
  | None =>
      "Agent " +:+ js_text (name cfg) +:+ " finished with status: "
      +:+ status_text s
  end.

(** [finish(status, output?)] *)
Definition finish (id : string) (cfg : AgentConfig W) (st : AgentState)
    (s : AgentStatus) (out : option string) : AgentResult :=
  let finalOutput :=
    match out with
    | Some o => o
    | None => fallback_output cfg st s
    end in
  {| res_id := id;
     res_name := name cfg;
     output := finalOutput;
     res_totalCost := totalCost st;
     res_totalInputTokens := totalInputTokens st;
     res_totalOutputTokens := totalOutputTokens st;
     res_turns := turns st;
     status := s |}.

Definition push_message (m : Message) (st : AgentState) : AgentState :=
  {| messages := messages st ++ [m];
     totalCost := totalCost st;
     totalInputTokens := totalInputTokens st;
     totalOutputTokens := totalOutputTokens st;
     turns := turns st;
     aborted := aborted st;
     chatCalls := chatCalls st |}.

(** The agent after an [await]: [abort()] may have been called
    meanwhile. *)
Definition resume (w : W) (st : AgentState) : AgentState :=
  {| messages := messages st;
     totalCost := totalCost st;
     totalInputTokens := totalInputTokens st;
     totalOutputTokens := totalOutputTokens st;
     turns := turns st;
     aborted := aborted st || abort_requested w;
     chatCalls := chatCalls st |}.

(** The ghost count of one more call to the backend. *)
Definition count_call (st : AgentState) : AgentState :=
  {| messages := messages st;
     totalCost := totalCost st;
     totalInputTokens := totalInputTokens st;
     totalOutputTokens := totalOutputTokens st;
     turns := turns st;
     aborted := aborted st;
     chatCalls := S (chatCalls st) |}.

(** "Track costs": the four updates after a response. *)
Definition track (u : Usage) (st : AgentState) : AgentState :=
  {| messages := messages st;
     totalCost := totalCost st + cost u;
     totalInputTokens := (totalInputTokens st + inputTokens u)%Z;
     totalOutputTokens := (totalOutputTokens st + outputTokens u)%Z;
     turns := S (turns st);
     aborted := aborted st;
     chatCalls := chatCalls st |}.

(** [for (const toolCall of response.toolCalls) { ... }]: one result per
    call, in the order received. *)
Fixpoint run_tools (reg : @ToolRegistry.t W) (calls : list ToolCall) (w : W)
  : list ToolResult * W :=
  match calls with
  | [] => ([], w)
  | c :: rest =>
      let '(text, w1) :=
        ToolRegistry.execute_tool (tc_name c) (tc_arguments c) reg w in
      let '(results, w2) := run_tools reg rest w1 in
      ({| toolCallId := tc_id c; tr_content := text |} :: results, w2)
  end.

(** The [while] loop of [run] inside its [try].  [fuel] is the variant
    [maxTurns - turns]: the test [turns < maxTurns] is [fuel ≠ 0].  The
    listener of [cost_update] acts on a state [L] of the caller. *)
Fixpoint loop {L : Type} (id : string) (cfg : AgentConfig W)
    (on_cost_update : Q → Q → L → L)
    (fuel : nat) (st : AgentState) (w : W) (l : L) {struct fuel}
  : AgentResult * AgentState * W * L :=
  match fuel with
  | O =>
      (finish id cfg st (if aborted st then error else max_turns) None,
       st, w, l)
  | S fuel' =>
      if aborted st then (finish id cfg st error None, st, w, l)
      else if Qge_bool (totalCost st) (budget cfg) then
        (finish id cfg st budget_exhausted None, st, w, l)
      else
        match provider cfg (messages st)
                (ToolRegistry.getDefinitions (tools cfg))
                (model cfg) (systemPrompt cfg) w with
        | (ChatThrows m, w1) =>
            let st1 := resume w1 (count_call st) in
            (finish id cfg st1 error (Some ("Error: " +:+ m)), st1, w1, l)
        | (ChatReturns response, w1) =>
            let st1 := track (usage response) (resume w1 (count_call st)) in
            let l1 := on_cost_update (totalCost st1) (budget cfg) l in
            match resp_toolCalls response with
            | [] =>
                let st2 :=
                  push_message
                    {| role := assistant;
                       content := resp_content response;
                       images := None;
                       toolCalls := None;
                       toolResults := None |} st1 in
                (finish id cfg st2 completed (Some (resp_content response)),
                 st2, w1, l1)
            | calls =>
                let st2 :=
                  push_message
                    {| role := assistant;
                       content := resp_content response;
                       images := None;
                       toolCalls := Some calls;
                       toolResults := None |} st1 in
                let '(results, w2) := run_tools (tools cfg) calls w1 in
                let st3 :=
                  push_message
                    {| role := tool;
                       content := "";
                       images := None;
                       toolCalls := None;
                       toolResults := Some results |} (resume w2 st2) in
                loop id cfg on_cost_update fuel' st3 w2 l1
            end
        end
  end.

Definition default_maxTurns : nat := 100.

Definition effective_maxTurns (cfg : AgentConfig W) : nat :=
  match maxTurns cfg with
  | Some n => n
  | None => default_maxTurns
  end.

(** [run(task, images?)] on an agent in state [st]. *)
Definition run {L : Type} (id : string) (cfg : AgentConfig W)
    (on_cost_update : Q → Q → L → L)
    (task : string) (imgs : option (list ImageAttachment))
    (st : AgentState) (w : W) (l : L)
  : AgentResult * AgentState * W * L :=
  let initialMessage :=
    {| role := user;
       content := task;
       images := match imgs with
                 | Some (i :: rest) => Some (i :: rest)
                 | _ => None
                 end;
       toolCalls := None;
       toolResults := None |} in
  let st0 := push_message initialMessage st in
  loop id cfg on_cost_update (effective_maxTurns cfg - turns st0) st0 w l.

End AgentLoop.

(** ** config/models.ts *)

Record ModelPricing : Type := mkModelPricing {
  inputPer1M : Q;
  outputPer1M : Q;
  contextWindow : Z;
  pricing_provider : string;
}.

Definition MODEL_PRICING : list (string * ModelPricing) :=
  [ ("claude-opus-4-6", mkModelPricing 15 75 200000 "anthropic");
    ("claude-sonnet-4-5-20250929", mkModelPricing 3 15 200000 "anthropic");
    ("claude-haiku-4-5-20251001", mkModelPricing (8 # 10) 4 200000 "anthropic");
    ("gpt-4o", mkModelPricing (25 # 10) 10 128000 "openai");
    ("gpt-4o-mini", mkModelPricing (15 # 100) (6 # 10) 128000 "openai");
    ("o1", mkModelPricing 15 60 200000 "openai");
    ("o3-mini", mkModelPricing (11 # 10) (44 # 10) 200000 "openai") ].

Definition pricing_of (m : string) : option ModelPricing :=
  snd <$> List.find (λ e, String.eqb (fst e) m) MODEL_PRICING.

(** [MODEL_PRICING[model]?.provider ?? "anthropic"] *)
Definition getProvider (m : string) : string :=
  match pricing_of m with
  | Some p => pricing_provider p
  | None => "anthropic"
  end.

(** ** agents/presets.ts *)

Record PresetConfig : Type := mkPresetConfig {
  preset_name : string;
  preset_systemPrompt : string;
}.

(** The system prompts are only handed to the backend; each is cut after
    its first sentence here. *)
Definition AGENT_PRESETS : list (string * PresetConfig) :=
  [ ("planner", mkPresetConfig "Planner" "You are a task planning agent.");
    ("coder", mkPresetConfig "Coder"
       "You are an autonomous coding agent with full system access.");
    ("researcher", mkPresetConfig "Researcher" "You are a research agent.");
    ("reviewer", mkPresetConfig "Reviewer"
       "You are a code review and testing agent.") ].

(** The entry that the literal itself has under [key]. *)
Definition own_preset (key : string) : option PresetConfig :=
  snd <$> List.find (λ e, String.eqb (fst e) key) AGENT_PRESETS.

(** What [runAgent] reads of [AGENT_PRESETS[preset]]: its [name] and its
    [systemPrompt], each [None] when it is [undefined]. *)
Record PresetValue : Type := mkPresetValue {
  value_name : option string;
  value_systemPrompt : option string;
}.

(** [AGENT_PRESETS[preset]], [None] for [undefined].  Besides its own
    four entries the literal answers for the inherited names: each is a
    function, whose [name] is the key (["Object"] for [constructor]) and
    which has no [systemPrompt]; [__proto__] is an object with
    neither. *)
Definition preset_of (key : string) : option PresetValue :=
  match own_preset key with
  | Some pc =>
      Some {| value_name := Some (preset_name pc);
              value_systemPrompt := Some (preset_systemPrompt pc) |}
  | None =>
      if String.eqb key "__proto__" then
        Some {| value_name := None; value_systemPrompt := None |}
      else if String.eqb key "constructor" then
        Some {| value_name := Some "Object"; value_systemPrompt := None |}
      else if inherited_key key then
        Some {| value_name := Some key; value_systemPrompt := None |}
      else None
  end.

(** ** orchestrator/orchestrator.ts: data *)

Module TaskConfig.
Record t : Type := mk {
  task : string;
  budget : Q;
  model : option string;
  repo : option string;
}.
End TaskConfig.

Module TaskResult.
Inductive Status : Type := completed | budget_exhausted | error.
Record t : Type := mk {
  taskId : string;
  task : string;
  output : string;
  totalCost : Q;
  agentResults : list AgentResult;
  status : Status;
}.
End TaskResult.

(** A subtask as [JSON.parse] delivers it: [agentType] and [complexity]
    are whatever strings the planner wrote. *)
Module SubTask.
Record t : Type := mk {
  id : Z;
  description : string;
  agentType : string;
  complexity : string;
  dependsOn : list Z;
}.
End SubTask.

(** ** orchestrator/orchestrator.ts: topologicalSort *)

Definition find_subtask (subtasks : list SubTask.t) (depId : Z)
  : option SubTask.t :=
  List.find (λ t, Z.eqb (SubTask.id t) depId) subtasks.

(** The shared [visited] set and [sorted] array of one sort. *)
Definition SortState : Type := gset Z * list SubTask.t.

(** [for (const depId of task.dependsOn) { ... if (dep) visit(dep); }] *)
Fixpoint visit_deps (visit_rec : SubTask.t → SortState → option SortState)
    (subtasks : list SubTask.t) (deps : list Z) (acc : SortState)
  : option SortState :=
  match deps with
  | [] => Some acc
  | depId :: rest =>
      match find_subtask subtasks depId with
      | Some dep =>
          match visit_rec dep acc with
          | Some acc' => visit_deps visit_rec subtasks rest acc'
          | None => None
          end
      | None => visit_deps visit_rec subtasks rest acc
      end
  end.

(** The closure [visit]; [fuel] bounds the depth of the recursion and
    [None] means that it was too small. *)
Fixpoint visit (fuel : nat) (subtasks : list SubTask.t) (task : SubTask.t)
    (acc : SortState) {struct fuel} : option SortState :=
  match fuel with
  | O => None
  | S fuel' =>
      if decide (SubTask.id task ∈ acc.1) then Some acc
      else
        match visit_deps (visit fuel' subtasks) subtasks
                (SubTask.dependsOn task) ({[SubTask.id task]} ∪ acc.1, acc.2) with
        | Some acc' => Some (acc'.1, acc'.2 ++ [task])
        | None => None
        end
  end.

(** [for (const task of subtasks) visit(task);] *)
Fixpoint visit_all (fuel : nat) (subtasks todo : list SubTask.t)
    (acc : SortState) : option SortState :=
  match todo with
  | [] => Some acc
  | task :: rest =>
      match visit fuel subtasks task acc with
      | Some acc' => visit_all fuel subtasks rest acc'
      | None => None
      end
  end.

Definition topologicalSort_fuel (fuel : nat) (subtasks : list SubTask.t)
  : option (list SubTask.t) :=
  snd <$> visit_all fuel subtasks subtasks (∅, []).

(** [topologicalSort(subtasks)]: the recursion is never deeper than the
    number of subtasks plus one (lemma [topologicalSort_fuel_enough]). *)
Definition topologicalSort (subtasks : list SubTask.t) : list SubTask.t :=
  default [] (topologicalSort_fuel (S (length subtasks)) subtasks).

(** ** orchestrator/orchestrator.ts: the orchestrator *)

(** The arguments of one [agent_started] event, with two ghost fields:
    the preset key and the budget ceiling the agent was built with. *)
Record AgentStarted : Type := mkAgentStarted {
  started_agentId : string;
  started_name : option string;
  started_subtask : string;
  started_preset : string;
  started_budget : Q;
}.

(** How a call of [runTask] ends: the promise resolves or rejects. *)
Inductive Outcome : Type :=
  | Returned (r : TaskResult.t)
  | Thrown (message : string).

Definition newline : string := String "010"%char EmptyString.

(** [`[${r.name}] ${r.status}: ${r.output.slice(0, 500)}`] *)
Definition result_line (r : AgentResult) : string :=
  "[" +:+ js_text (res_name r) +:+ "] " +:+ status_text (status r) +:+ ": "
  +:+ String.substring 0 500 (output r).

(** [budgetMultiplier] *)
Definition budgetMultiplier (complexity : string) : Q :=
  if String.eqb complexity "complex" then 35 # 100
  else if String.eqb complexity "medium" then 2 # 10
  else 1 # 10.

(** [`agent-${subtask.id}`] *)
Definition ledger_key (i : Z) : string := "agent-" +:+ pretty i.

(** [completed.has(d)] and [completed.add(d)] on a set kept in insertion
    order. *)
Definition set_has (d : Z) (s : list Z) : bool :=
  existsb (Z.eqb d) s.
Definition set_add (d : Z) (s : list Z) : list Z :=
  if set_has d s then s else s ++ [d].

Section Orchestrator.
Context {W : Type}.

Variable uuid : W → string * W.
Variable abort_requested : W → bool.

(** [createToolRegistry(workspaceDir)]: the dynamic imports can reject. *)
Variable createToolRegistry : string → W → (@ToolRegistry.t W + string) * W.

(** The parsing step of [planTask]: [result.output.match(/\[[\s\S]*\]/)]
    followed by [JSON.parse] and [Array.isArray]; [None] when there is no
    match, when [JSON.parse] throws or when the value is not an array. *)
Variable extractPlan : string → option (list SubTask.t).

(** [settings.defaultModel] and [settings.workspaceDir] *)
Variable defaultModel : string.
Variable workspaceDir : string.

Record Orchestrator : Type := mkOrchestrator {
  providers : gmap string (Provider W);
  toolRegistry : option (@ToolRegistry.t W);
}.

(** What the body of [runTask] reads and writes: the outside world, the
    task's [BudgetManager], the [agentResults] array, the [completed]
    set, and the [agent_started] events emitted so far. *)
Record OState : Type := mkOState {
  world : W;
  mgr : BudgetManager;
  agentResults : list AgentResult;
  completedIds : list Z;
  started : list AgentStarted;
}.

(** Computations that read and write an [OState] and may throw. *)
Definition M (A : Type) : Type := OState → (A + string) * OState.

Definition ret {A : Type} (a : A) : M A := λ st, (inl a, st).

Definition throw {A : Type} (message : string) : M A :=
  λ st, (inr message, st).

Definition bind {A B : Type} (c : M A) (k : A → M B) : M B :=
  λ st,
    match c st with
    | (inl a, st') => k a st'
    | (inr e, st') => (inr e, st')
    end.

Local Notation "x <- c ;; k" := (bind c (λ x, k))
  (at level 100, c at next level, right associativity).

Definition get_state : M OState := λ st, (inl st, st).

(** [budget.allocate(id, requested)] on the task's manager. *)
Definition allocateM (id : string) (requested : Q) : M Q :=
  λ st,
    let '(a, b') := Budget.allocate id requested (mgr st) in
    (inl a,
     {| world := world st; mgr := b'; agentResults := agentResults st;
        completedIds := completedIds st; started := started st |}).

(** [agentResults.push(result)] *)
Definition push_result (r : AgentResult) : M unit :=
  λ st,
    (inl tt,
     {| world := world st; mgr := mgr st;
        agentResults := agentResults st ++ [r];
        completedIds := completedIds st; started := started st |}).

(** [completed.add(id)] *)
Definition mark_completed (i : Z) : M unit :=
  λ st,
    (inl tt,
     {| world := world st; mgr := mgr st; agentResults := agentResults st;
        completedIds := set_add i (completedIds st); started := started st |}).

(** The private method [getProvider(model)]. *)
Definition lookup_provider (o : Orchestrator) (m : string) : M (Provider W) :=
  let providerName := getProvider m in
  match providers o !! providerName with
  | Some p => ret p
  | None =>
      throw ("No " +:+ providerName +:+ " provider configured. Set "
             +:+ (if String.eqb providerName "anthropic"
                  then "ANTHROPIC_API_KEY" else "OPENAI_API_KEY"))
  end.

(** [getToolRegistry()]: created on first use, then cached. *)
Definition getToolRegistry (o : Orchestrator) (w : W)
  : (@ToolRegistry.t W + string) * Orchestrator * W :=
  match toolRegistry o with
  | Some reg => (inl reg, o, w)
  | None =>
      match createToolRegistry workspaceDir w with
      | (inl reg, w') =>
          (inl reg, {| providers := providers o; toolRegistry := Some reg |}, w')
      | (inr e, w') => (inr e, o, w')
      end
  end.

(** The listener that [planTask] puts on the planner's [cost_update]. *)
Definition planner_listener (c : Q) (_ : Q) (b : BudgetManager)
  : BudgetManager :=
  (Budget.recordSpend "planner" c b).2.

(** [planTask(task, model, tools, budget, budgetManager)] *)
Definition planTask (o : Orchestrator) (task m : string)
    (reg : @ToolRegistry.t W) (b : Q) : M (list SubTask.t) :=
  if Qle_bool b 0 then ret []
  else
    p <- lookup_provider o m ;;
    λ st,
      let cfg :=
        {| cfg_id := None;
           name := Some "Planner";
           model := m;
           systemPrompt := preset_systemPrompt <$> own_preset "planner";
           provider := p;
           tools := reg;
           budget := b;
           maxTurns := None |} in
      let '(aid, w1) := new_agent_id uuid cfg (world st) in
      let '(result, _, w2, b') :=
        run abort_requested aid cfg planner_listener
          ("Plan this task. If it's simple enough for one agent, return an empty array []. "
           +:+ "Otherwise decompose it into subtasks." +:+ newline +:+ newline
           +:+ "Task: " +:+ task)
          None initial_state w1 (mgr st) in
      let st' :=
        {| world := w2; mgr := b'; agentResults := agentResults st;
           completedIds := completedIds st; started := started st |} in
      match extractPlan (output result) with
      | Some (t :: rest) => (inl (t :: rest), st')
      | _ => (inl [], st')
      end.

(** The listener that [runAgent] puts on the agent's [cost_update]. *)
Definition agent_listener (aid : string) (c : Q) (_ : Q) (b : BudgetManager)
  : BudgetManager :=
  (Budget.recordSpend aid c b).2.

(** [runAgent(taskId, preset, task, model, tools, budget, budgetManager)].
    Reading [presetConfig.name] is a TypeError when [AGENT_PRESETS[preset]]
    is [undefined]. *)
Definition runAgent (o : Orchestrator) (taskId preset task m : string)
    (reg : @ToolRegistry.t W) (b : Q) : M AgentResult :=
  p <- lookup_provider o m ;;
  match preset_of preset with
  | None => throw "Cannot read properties of undefined (reading 'name')"
  | Some pc =>
      λ st,
        let cfg :=
          {| cfg_id := None;
             name := value_name pc;
             model := m;
             systemPrompt := value_systemPrompt pc;
             provider := p;
             tools := reg;
             budget := b;
             maxTurns := None |} in
        let '(aid, w1) := new_agent_id uuid cfg (world st) in
        let ev :=
          {| started_agentId := aid;
             started_name := value_name pc;
             started_subtask := task;
             started_preset := preset;
             started_budget := b |} in
        let '(result, _, w2, b') :=
          run abort_requested aid cfg (agent_listener aid) task None
            initial_state w1 (mgr st) in
        let '(_, b'') := Budget.release aid b' in
        (inl result,
         {| world := w2; mgr := b''; agentResults := agentResults st;
            completedIds := completedIds st; started := started st ++ [ev] |})
  end.

(** The body of [for (const subtask of this.topologicalSort(subtasks))]:
    [break] ends the loop, [continue] goes on with the rest. *)
Fixpoint schedule (o : Orchestrator) (config : TaskConfig.t)
    (taskId m : string) (reg : @ToolRegistry.t W) (todo : list SubTask.t)
  : M unit :=
  match todo with
  | [] => ret tt
  | subtask :: rest =>
      st <- get_state ;;
      if Qle_bool (Budget.remaining (mgr st)) 0 then ret tt
      else if negb (forallb (λ d, set_has d (completedIds st))
                      (SubTask.dependsOn subtask))
      then schedule o config taskId m reg rest
      else
        agentBudget <-
          allocateM (ledger_key (SubTask.id subtask))
            (TaskConfig.budget config
             * budgetMultiplier (SubTask.complexity subtask)) ;;
        if Qle_bool agentBudget 0 then ret tt
        else
          result <-
            runAgent o taskId (SubTask.agentType subtask)
              (SubTask.description subtask) m reg agentBudget ;;
          _ <- push_result result ;;
          _ <- mark_completed (SubTask.id subtask) ;;
          schedule o config taskId m reg rest
  end.

(** The simple path: one coder agent on the original task. *)
Definition simple_path (o : Orchestrator) (config : TaskConfig.t)
    (taskId m : string) (reg : @ToolRegistry.t W) : M unit :=
  st <- get_state ;;
  agentBudget <- allocateM "single-coder" (Budget.remaining (mgr st)) ;;
  result <-
    runAgent o taskId "coder" (TaskConfig.task config) m reg agentBudget ;;
  push_result result.

(** The complex path: sort, then schedule. *)
Definition complex_path (o : Orchestrator) (config : TaskConfig.t)
    (taskId m : string) (reg : @ToolRegistry.t W)
    (subtasks : list SubTask.t) : M unit :=
  schedule o config taskId m reg (topologicalSort subtasks).

(** "Step 1: Plan the task (use 10% of budget)". *)
Definition plan_phase (o : Orchestrator) (config : TaskConfig.t)
    (m : string) (reg : @ToolRegistry.t W) : M (list SubTask.t) :=
  planBudget <- allocateM "planner" (TaskConfig.budget config * (1 # 10)) ;;
  planTask o (TaskConfig.task config) m reg planBudget.

(** The statements of the [try] block up to the aggregation. *)
Definition try_body (o : Orchestrator) (config : TaskConfig.t)
    (taskId m : string) (reg : @ToolRegistry.t W) : M unit :=
  subtasks <- plan_phase o config m reg ;;
  match subtasks with
  | [] => simple_path o config taskId m reg
  | _ => complex_path o config taskId m reg subtasks
  end.

(** The [TaskResult] built at the end of the [try] block. *)
Definition aggregate (taskId : string) (config : TaskConfig.t) (st : OState)
  : TaskResult.t :=
  {| TaskResult.taskId := taskId;
     TaskResult.task := TaskConfig.task config;
     TaskResult.output :=
       String.concat (newline +:+ newline) (map result_line (agentResults st));
     TaskResult.totalCost := totalSpent (mgr st);
     TaskResult.agentResults := agentResults st;
     TaskResult.status :=
       if Qle_bool (Budget.remaining (mgr st)) 0
       then TaskResult.budget_exhausted else TaskResult.completed |}.

(** The [TaskResult] built in the [catch] block. *)
Definition error_result (taskId : string) (config : TaskConfig.t)
    (message : string) (st : OState) : TaskResult.t :=
  {| TaskResult.taskId := taskId;
     TaskResult.task := TaskConfig.task config;
     TaskResult.output := "Error: " +:+ message;
     TaskResult.totalCost := totalSpent (mgr st);
     TaskResult.agentResults := agentResults st;
     TaskResult.status := TaskResult.error |}.

(** The state in which the [try] block of [runTask] starts. *)
Definition start_state (config : TaskConfig.t) (w : W) : OState :=
  {| world := w;
     mgr := Budget.new (TaskConfig.budget config) Budget.default_reservePercent;
     agentResults := [];
     completedIds := [];
     started := [] |}.

(** [runTask(config)]: how the call ends, and the state it leaves. *)
Definition runTask (o : Orchestrator) (config : TaskConfig.t) (w : W)
  : Outcome * OState :=
  let '(taskId, w1) := uuid w in
  let m := default defaultModel (TaskConfig.model config) in
  match getToolRegistry o w1 with
  | (inr e, _, w2) => (Thrown e, start_state config w2)
  | (inl reg, o', w2) =>
      match try_body o' config taskId m reg (start_state config w2) with
      | (inl _, st) => (Returned (aggregate taskId config st), st)
      | (inr e, st) => (Returned (error_result taskId config e st), st)
      end
  end.

End Orchestrator.

(** What a step of the orchestrator leaves alone: the results, the
    completed set, the events, and the two constants of the manager. *)
Definition same_frame {W : Type} (st st' : @OState W) : Prop :=
  agentResults st' = agentResults st
  ∧ completedIds st' = completedIds st
  ∧ started st' = started st
  ∧ totalBudget (mgr st') = totalBudget (mgr st)
  ∧ reserve (mgr st') = reserve (mgr st).

(** The manager still has the total [t] and the reserve [r]. *)
Definition has_config (t r : Q) (b : BudgetManager) : Prop :=
  totalBudget b = t ∧ reserve b = r.

(** ** Reading of the specification: warning bands *)

(** [percentUsed] for a given cumulative spend, as [recordSpend] computes
    it. *)
Definition percent_of (spent total : Q) : jsnum :=
  js_scale (js_div spent total) 100.

(** Following the spec's words: usage crosses the band [k] on a call when
    it was below [k] percent before the call and is at least [k] percent
    after it. *)
Definition spec_crosses (k : Q) (b : BudgetManager) (amount : Q) : bool :=
  negb (js_ge (percent_of (totalSpent b) (totalBudget b)) k)
  && js_ge (percent_of (totalSpent b + amount) (totalBudget b)) k.

(** Following the spec's words: a warning is due on a call iff that call
    crosses the 80% band or the 90% band. *)
Definition spec_warning_due (b : BudgetManager) (amount : Q) : bool :=
  spec_crosses 80 b amount || spec_crosses 90 b amount.

(** ** Vocabulary for the sort *)

(** The ids of a list of subtasks, as a set. *)
Definition ids_of (l : list SubTask.t) : gset Z :=
  list_to_set (SubTask.id <$> l).

(** [acc'] is [acc] after some visits: [sorted] has grown at its end by
    subtasks of the input with pairwise distinct ids that were not yet
    visited, and [visited] has grown by exactly their ids. *)
Definition extends (subtasks : list SubTask.t) (acc acc' : SortState) : Prop :=
  ∃ added : list SubTask.t,
    acc'.2 = acc.2 ++ added
    ∧ acc'.1 = acc.1 ∪ ids_of added
    ∧ (∀ t, t ∈ added → t ∈ subtasks ∧ SubTask.id t ∉ acc.1)
    ∧ NoDup (SubTask.id <$> added).

(** The number of ids of the input that are not yet visited. *)
Definition unvisited (subtasks : list SubTask.t) (acc : SortState) : nat :=
  size (ids_of subtasks ∖ acc.1).

(** ** Scenarios *)

(** A ledger at 85% of a budget of 10. *)
Definition ledger_at_85 : BudgetManager :=
  {| totalBudget := 10; totalSpent := 85 # 10; agentBudgets := ∅;
     reserve := 1 |}.

(** Two agents that each ask for 9 out of a fresh budget of 10. *)
Definition two_requests : list (string * Q) := [("a", 9); ("b", 9)].

(** A backend stub that always requests one tool call. *)
Definition stub_tool_call : ToolCall :=
  {| tc_id := "call-1"; tc_name := "bash"; tc_arguments := "{}" |}.

Definition always_tool_stub : Provider unit :=
  λ _ _ _ _ w,
    (ChatReturns
       {| resp_content := "working";
          resp_toolCalls := [stub_tool_call];
          usage := {| inputTokens := 10; outputTokens := 5; cost := 1 # 100 |};
          stopReason := tool_use |}, w).

(** A backend stub that answers with an empty text and no tool call. *)
Definition silent_stub : Provider unit :=
  λ _ _ _ _ w,
    (ChatReturns
       {| resp_content := "";
          resp_toolCalls := [];
          usage := {| inputTokens := 10; outputTokens := 0; cost := 1 # 100 |};
          stopReason := end_turn |}, w).

Definition stub_config (p : Provider unit) (b : Q) (mt : option nat)
  : AgentConfig unit :=
  {| cfg_id := Some "agent-under-test";
     name := Some "Coder";
     model := "gpt-4o";
     systemPrompt := Some "";
     provider := p;
     tools := [];
     budget := b;
     maxTurns := mt |}.

Definition never_aborted : unit → bool := λ _, false.

(** A listener that counts the [cost_update] events. *)
Definition counting_listener : Q → Q → nat → nat := λ _ _ n, S n.

(** [run] of a fresh agent built from [stub_config]. *)
Definition stub_run (p : Provider unit) (b : Q) (mt : option nat)
  : AgentResult * AgentState * unit * nat :=
  run never_aborted "agent-under-test" (stub_config p b mt)
    counting_listener "do it" None initial_state tt 0%nat.

(** A cyclic plan that also names an id that is not there: 1 and 2 depend
    on each other, 2 also on the absent 7, and 3 on itself. *)
Definition cyclic_plan : list SubTask.t :=
  [ SubTask.mk 1 "first" "coder" "simple" [2%Z];
    SubTask.mk 2 "second" "researcher" "medium" [1%Z; 7%Z];
    SubTask.mk 3 "third" "reviewer" "complex" [3%Z] ].


(** *** A scripted environment for [runTask]

    The world is a counter of the ids handed out by [uuid()]. *)

Definition test_uuid : nat → string * nat :=
  λ n, ("00000000-0000-4000-8000-00000000000" +:+ pretty n, S n).

Definition test_abort : nat → bool := λ _, false.

Definition test_createToolRegistry
  : string → nat → (@ToolRegistry.t nat + string) * nat :=
  λ _ w, (inl [], w).

(** A backend that answers the planner with [plan_text] at a cost of
    [planner_cost], and every other agent with ["done"] at a cost of
    [agent_cost]; it never asks for a tool. *)
Definition scripted_provider (plan_text : string)
    (planner_cost agent_cost : Q) : Provider nat :=
  λ _ _ _ sys w,
    if bool_decide (sys = Some "You are a task planning agent.") then
      (ChatReturns
         {| resp_content := plan_text;
            resp_toolCalls := [];
            usage := {| inputTokens := 100; outputTokens := 20;
                        cost := planner_cost |};
            stopReason := end_turn |}, w)
    else
      (ChatReturns
         {| resp_content := "done";
            resp_toolCalls := [];
            usage := {| inputTokens := 200; outputTokens := 50;
                        cost := agent_cost |};
            stopReason := end_turn |}, w).

(** The parse of the planner's text: ["PLAN"] stands for the JSON text of
    [plan]. *)
Definition scripted_extractPlan (plan : list SubTask.t)
  : string → option (list SubTask.t) :=
  λ out,
    if String.eqb out "PLAN" then Some plan
    else if String.eqb out "[]" then Some []
    else None.

Definition test_orchestrator (plan_text : string)
    (planner_cost agent_cost : Q) : @Orchestrator nat :=
  {| providers :=
       {[ "anthropic" := scripted_provider plan_text planner_cost agent_cost ]};
     toolRegistry := None |}.

Definition test_config (total : Q) : TaskConfig.t :=
  {| TaskConfig.task := "build it";
     TaskConfig.budget := total;
     TaskConfig.model := None;
     TaskConfig.repo := None |}.

Definition test_model : string := "claude-sonnet-4-5-20250929".

(** [runTask] in the scripted environment. *)
Definition test_runTask (plan_text : string) (plan : list SubTask.t)
    (planner_cost agent_cost total : Q) : Outcome * @OState nat :=
  runTask test_uuid test_abort test_createToolRegistry
    (scripted_extractPlan plan) test_model "./workspace"
    (test_orchestrator plan_text planner_cost agent_cost)
    (test_config total) 0%nat.

(** Budget 5; the planner spends 0.10 and answers with an empty array. *)
Definition simple_scenario : Outcome * @OState nat :=
  test_runTask "[]" [] (1 # 10) (6 # 10) 5.


(** Budget 10; the second subtask names an agent type for which
    [AGENT_PRESETS] has no value. *)
Definition broken_plan : list SubTask.t :=
  [ SubTask.mk 1 "build" "coder" "simple" [];
    SubTask.mk 2 "draw" "designer" "simple" [1%Z] ].
Definition broken_scenario : Outcome * @OState nat :=
  test_runTask "PLAN" broken_plan (1 # 10) (2 # 10) 10.

(** Budget 10; one simple subtask for a coder. *)
Definition single_plan : list SubTask.t :=
  [ SubTask.mk 1 "build" "coder" "simple" [] ].
Definition single_scenario : Outcome * @OState nat :=
  test_runTask "PLAN" single_plan (1 # 10) (2 # 10) 10.

(** ** Vocabulary for the ledger *)

(** The manager after a list of [recordSpend] calls, in order; each call
    is an agent id and an amount. *)
Definition recordSpend_all (calls : list (string * Q)) (b : BudgetManager)
  : BudgetManager :=
  fold_left (λ acc c, (Budget.recordSpend c.1 c.2 acc).2) calls b.

Definition Qsum (l : list Q) : Q := fold_right Qplus 0 l.

(** Every sub-ledger sits under the key that its [agentId] field names. *)
Definition keys_match (b : BudgetManager) : Prop :=
  ∀ (k : string) (ab : AgentBudget),
    agentBudgets b !! k = Some ab → agentId ab = k.

(** A ledger with one sub-ledger, half spent. *)
Definition ledger_with_agent : BudgetManager :=
  {| totalBudget := 10; totalSpent := 2;
     agentBudgets :=
       {[ "agent-1" := {| agentId := "agent-1"; allocated := 4; spent := 2 |} ]};
     reserve := 1 |}.

(** A ledger for a task that was given no money. *)
Definition ledger_without_money : BudgetManager :=
  Budget.new 0 Budget.default_reservePercent.



(** ** More of tools/registry.ts *)

(** [list()]: the keys of the map, in insertion order. *)
Definition registry_list {W : Type} (reg : @ToolRegistry.t W) : list string :=
  map (λ h, td_name (definition h)) reg.

(** A tool that echoes its arguments, and one that always throws. *)
Definition echo_tool : ToolHandler unit :=
  mkToolHandler {| td_name := "echo"; td_description := "echo" |}
    (λ args w, (ToolReturns args, w)).
Definition failing_tool : ToolHandler unit :=
  mkToolHandler {| td_name := "echo"; td_description := "broken echo" |}
    (λ _ w, (ToolThrows "boom", w)).

(** A backend that asks for no tool. *)
Definition answering_stub : Provider unit :=
  λ _ _ _ _ w,
    (ChatReturns
       {| resp_content := "all done";
          resp_toolCalls := [];
          usage := {| inputTokens := 10; outputTokens := 5; cost := 1 # 100 |};
          stopReason := end_turn |}, w).



(** The first message of a run: the task, with the images when there are
    some. *)
Definition initial_message (task : string)
    (imgs : option (list ImageAttachment)) : Message :=
  {| role := user;
     content := task;
     images := match imgs with
               | Some (i :: rest) => Some (i :: rest)
               | _ => None
               end;
     toolCalls := None;
     toolResults := None |}.

(** [run] of a fresh agent built from [stub_config] whose [cost_update]
    goes to a [BudgetManager], as [runAgent] wires it. *)
Definition stub_run_recorded (p : Provider unit) (b : Q) (mt : option nat)
  : AgentResult * AgentState * unit * BudgetManager :=
  run never_aborted "agent-under-test" (stub_config p b mt)
    (agent_listener "agent-under-test") "do it" None initial_state tt
    (Budget.new 10 Budget.default_reservePercent).

Definition always_aborted : unit → bool := λ _, true.

(** A world that logs what has been run: the backend leaves ["chat"]
    in it, the tool leaves the arguments it was called with.  The
    backend asks for two tool calls; [abort()] is called as soon as
    anything has been run. *)
Definition logging_tool : ToolHandler (list string) :=
  mkToolHandler {| td_name := "bash"; td_description := "run a command" |}
    (λ args w, (ToolReturns ("ran " +:+ args), w ++ [args])).

Definition two_tools_stub : Provider (list string) :=
  λ _ _ _ _ w,
    (ChatReturns
       {| resp_content := "working";
          resp_toolCalls :=
            [ {| tc_id := "call-1"; tc_name := "bash"; tc_arguments := "ls" |};
              {| tc_id := "call-2"; tc_name := "bash"; tc_arguments := "pwd" |} ];
          usage := {| inputTokens := 10; outputTokens := 5; cost := 1 # 100 |};
          stopReason := tool_use |}, w ++ ["chat"]).

Definition logging_config : AgentConfig (list string) :=
  {| cfg_id := Some "agent-under-test";
     name := Some "Coder";
     model := "gpt-4o";
     systemPrompt := Some "";
     provider := two_tools_stub;
     tools := [logging_tool];
     budget := 1;
     maxTurns := None |}.

Definition abort_once_busy : list string → bool :=
  λ w, match w with [] => false | _ => true end.





(** ** More of config/models.ts and providers/costs.ts *)

(** The two finite branches of [calculateCost]: the rates of the table,
    or the fallback rates where the table has no entry. *)
Definition cost_of_tokens (m : string) (inputTokens outputTokens : Q) : Q :=
  match pricing_of m with
  | None => (inputTokens * 10) / 1000000 + (outputTokens * 30) / 1000000
  | Some p =>
      (inputTokens * inputPer1M p) / 1000000
      + (outputTokens * outputPer1M p) / 1000000
  end.

(** [calculateCost(model, inputTokens, outputTokens)].  For an inherited
    name [pricing] is a function or an object, its rates are [undefined],
    and the result is NaN. *)
Definition calculateCost (m : string) (inputTokens outputTokens : Q) : jsnum :=
  if inherited_key m then NaN
  else Fin (cost_of_tokens m inputTokens outputTokens).

(** The [estimatedCost] that [suggestModel] computes for a model. *)
Definition estimatedCost (p : ModelPricing) (estimatedTokens : Q) : Q :=
  (estimatedTokens * inputPer1M p) / 1000000
  + (estimatedTokens * outputPer1M p) / 1000000.

(** [candidates.sort((a, b) => a.estimatedCost - b.estimatedCost)]: the
    sort of an array is stable, so it is the insertion of each element
    before the first one of the sorted rest that costs as much or
    more. *)
Fixpoint insert_by_cost (c : string * Q) (l : list (string * Q))
  : list (string * Q) :=
  match l with
  | [] => [c]
  | d :: rest =>
      if Qle_bool c.2 d.2 then c :: d :: rest
      else d :: insert_by_cost c rest
  end.

Definition sort_by_cost (l : list (string * Q)) : list (string * Q) :=
  fold_right insert_by_cost [] l.

(** The candidates of [suggestModel] before the sort. *)
Definition candidates (prov : string) (estimatedTokens maxCost : Q)
  : list (string * Q) :=
  List.filter (λ c, Qle_bool c.2 maxCost)
    (map (λ e, (e.1, estimatedCost e.2 estimatedTokens))
       (List.filter (λ e, String.eqb (pricing_provider e.2) prov)
          MODEL_PRICING)).

(** [suggestModel(provider, estimatedTokens, maxCost)], [None] for
    [null]. *)
Definition suggestModel (prov : string) (estimatedTokens maxCost : Q)
  : option string :=
  match sort_by_cost (candidates prov estimatedTokens maxCost) with
  | c :: _ => Some c.1
  | [] => None
  end.

(** One candidate costs at most as much as another. *)
Definition cost_le (c d : string * Q) : Prop := (c.2 <= d.2)%Q.

(** ** Vocabulary for the scheduling loop *)

(** The [completed] set after the subtasks [ran] have been marked, in
    order. *)
Definition mark_all (ran : list SubTask.t) (done : list Z) : list Z :=
  fold_left (λ s t, set_add (SubTask.id t) s) ran done.

(** An orchestrator without any configured backend. *)
Definition unconfigured_orchestrator : @Orchestrator nat :=
  {| providers := ∅; toolRegistry := None |}.

Definition unconfigured_scenario : Outcome * @OState nat :=
  runTask test_uuid test_abort test_createToolRegistry
    (scripted_extractPlan []) test_model "./workspace"
    unconfigured_orchestrator (test_config 5) 0%nat.

(** Subtask 2 waits for an id that no subtask has, subtask 3 for itself;
    subtask 1 appears twice. *)
Definition stuck_plan : list SubTask.t :=
  [ SubTask.mk 1 "build" "coder" "simple" [];
    SubTask.mk 2 "review" "reviewer" "simple" [9%Z];
    SubTask.mk 3 "loop" "coder" "simple" [3%Z];
    SubTask.mk 1 "build again" "coder" "simple" [] ].
Definition stuck_scenario : Outcome * @OState nat :=
  test_runTask "PLAN" stuck_plan (1 # 10) (2 # 10) 10.



(** No configured backend ever reports a negative cost. *)
Definition nonneg_costs {W : Type} (o : @Orchestrator W) : Prop :=
  ∀ (n : string) (p : Provider W),
    providers o !! n = Some p →
    ∀ ms defs m sys w response w',
      p ms defs m sys w = (ChatReturns response, w') →
      (0 <= cost (usage response))%Q.

(** The sum of the costs that the agents report. *)
Definition agents_cost (rs : list AgentResult) : Q :=
  Qsum (res_totalCost <$> rs).

(** An accounted step: the results only grow, and the recorded spend
    grows by at least the cost of the new results. *)
Definition accounted {W : Type} (st st' : @OState W) : Prop :=
  ∃ rs, agentResults st' = agentResults st ++ rs
        ∧ (totalSpent (mgr st) + agents_cost rs <= totalSpent (mgr st'))%Q.



(** ** orchestrator/orchestrator.ts: cancellation and queries *)

(** The value of an [activeTasks] entry. *)
Record ActiveTask : Type := mkActiveTask {
  active_config : TaskConfig.t;
  active_budget : BudgetManager;
}.

(** The two maps of the orchestrator that [runTask] and [runAgent] keep
    up to date, each in insertion order: the agents that are running
    (with their mutable fields) and the tasks that are running. *)
Record Active : Type := mkActive {
  activeAgents : list (string * AgentState);
  activeTasks : list (string * ActiveTask);
}.

(** [Agent.abort()] *)
Definition abort (st : AgentState) : AgentState :=
  {| messages := messages st;
     totalCost := totalCost st;
     totalInputTokens := totalInputTokens st;
     totalOutputTokens := totalOutputTokens st;
     turns := turns st;
     aborted := true;
     chatCalls := chatCalls st |}.

Definition find_task (taskId : string) (a : Active) : option ActiveTask :=
  snd <$> List.find (λ e, String.eqb e.1 taskId) (activeTasks a).

(** [cancelTask(taskId)]: the returned boolean and the maps after the
    call. *)
Definition cancelTask (taskId : string) (a : Active) : bool * Active :=
  match find_task taskId a with
  | None => (false, a)
  | Some _ =>
      (true,
       {| activeAgents := map (λ e, (e.1, abort e.2)) (activeAgents a);
          activeTasks :=
            List.filter (λ e, negb (String.eqb e.1 taskId)) (activeTasks a) |})
  end.

(** [getActiveTaskIds()] *)
Definition getActiveTaskIds (a : Active) : list string :=
  map fst (activeTasks a).

(** The declared result of [getTaskBudget]. *)
Record TaskBudget : Type := mkTaskBudget {
  tb_spent : Q;
  tb_remaining : Q;
  tb_total : Q;
}.

(** [getTaskBudget(taskId)], [None] for [null]. *)
Definition getTaskBudget (taskId : string) (a : Active) : option TaskBudget :=
  match find_task taskId a with
  | None => None
  | Some t =>
      Some {| tb_spent := totalSpent (active_budget t);
              tb_remaining := Budget.remaining (active_budget t);
              tb_total := totalBudget (active_budget t) |}
  end.



(** Budget 10; the one subtask names no preset of the table but a name
    that every object literal inherits. *)
Definition inherited_plan : list SubTask.t :=
  [ SubTask.mk 1 "build" "constructor" "simple" [] ].
Definition inherited_scenario : Outcome * @OState nat :=
  test_runTask "PLAN" inherited_plan (1 # 10) (2 # 10) 10.

(** * Properties *)

(** ** BudgetManager *)

Lemma Qle_bool_false (x y : Q) : Qle_bool x y = false ↔ y < x.
Proof.
  split; intros H.
  - apply Qnot_le_lt. intros Hle. apply Qle_bool_iff in Hle. congruence.
  - destruct (Qle_bool x y) eqn:E; [|reflexivity].
    apply Qle_bool_iff in E. exfalso. exact (Qlt_not_le _ _ H E).
Qed.

(** C1. [allocate(id, r)] returns [min(r, max(0, total - spent - reserve))]
    and registers for [id] a sub-ledger with that allocation and zero
    spend, leaving every other sub-ledger and the totals as they were; the
    returned value is at most [max(0, total - spent - reserve)] and at
    most [r]. *)
Theorem allocate_spec (id : string) (r : Q) (b : BudgetManager) :
  let headroom := Qmax 0 (totalBudget b - totalSpent b - reserve b) in
  let a := (Budget.allocate id r b).1 in
  let b' := (Budget.allocate id r b).2 in
  a = Qmin r headroom
  ∧ agentBudgets b' !! id
    = Some {| agentId := id; allocated := Qmin r headroom; spent := 0 |}
  ∧ (∀ j : string, j ≠ id → agentBudgets b' !! j = agentBudgets b !! j)
  ∧ totalBudget b' = totalBudget b
  ∧ totalSpent b' = totalSpent b
  ∧ reserve b' = reserve b
  ∧ a <= headroom
  ∧ a <= r.
Proof.
  cbn. repeat split.
  - apply lookup_insert_eq.
  - intros j Hj. by apply lookup_insert_ne.
  - apply Q.le_min_r.
  - apply Q.le_min_l.
Qed.

(** The events of one [recordSpend] hold at most one warning, and it is
    there exactly when [percentUsed >= 80] after the call. *)
Lemma recordSpend_warnings (id : string) (amount : Q) (b : BudgetManager) :
  Budget.warnings (Budget.recordSpend id amount b).1.2
  = if js_ge (percent_of (totalSpent b + amount) (totalBudget b)) 80
    then 1%nat else 0%nat.
Proof.
  unfold Budget.recordSpend, Budget.warnings, percent_of.
  set (p := js_scale _ _).
  assert (H9080 : js_ge p 90 = true → js_ge p 80 = true).
  { destruct p; cbn; try done.
    rewrite !Qle_bool_iff. intros H. eapply Qle_trans; [|exact H]. done. }
  destruct (Qge_bool _ _); cbn;
    destruct (js_ge p 90) eqn:E90; [rewrite H9080| |rewrite H9080|]; try done;
    destruct (js_ge p 80); done.
Qed.

(** With a positive total, [percentUsed >= 80] says that the spend has
    reached four fifths of the total. *)
Lemma percent_ge_80 (s t : Q) :
  0 < t → js_ge (percent_of s t) 80 = Qle_bool (t * (8 # 10)) s.
Proof.
  intros Ht. unfold percent_of, js_div.
  destruct (Qeq_bool t 0) eqn:E0.
  { apply Qeq_bool_iff in E0. rewrite E0 in Ht. by apply Qlt_irrefl in Ht. }
  cbn.
  assert (Hne : ¬ t == 0) by (intros H; rewrite H in Ht; by apply Qlt_irrefl in Ht).
  assert (H80 : (80 : Q) == (8 # 10) * 100) by reflexivity.
  destruct (Qle_bool (t * (8 # 10)) s) eqn:E.
  - apply Qle_bool_iff in E. apply Qle_bool_iff.
    rewrite Qmult_comm in E. apply Qle_shift_div_l in E; [|done].
    rewrite H80. by apply Qmult_le_compat_r.
  - apply Qle_bool_false in E. apply Qle_bool_false.
    rewrite Qmult_comm in E. apply Qlt_shift_div_r in E; [|done].
    rewrite H80. by apply Qmult_lt_compat_r.
Qed.

(** C4, as the code has it.  With a positive total budget, a call of
    [recordSpend] emits exactly one warning when the cumulative spend
    after the call is at least 80% of the total, and none otherwise:
    the warning comes on every call at or above the threshold, whether or
    not that call crossed a band. *)
Theorem recordSpend_warning_iff_above_80
    (id : string) (amount : Q) (b : BudgetManager) :
  0 < totalBudget b →
  Budget.warnings (Budget.recordSpend id amount b).1.2
  = if Qle_bool (totalBudget b * (8 # 10)) (totalSpent b + amount)
    then 1%nat else 0%nat.
Proof.
  intros Ht. rewrite recordSpend_warnings. by rewrite percent_ge_80.
Qed.

Lemma recordSpend_warning_iff_above_80_witness :
  0 < totalBudget ledger_at_85
  ∧ Budget.warnings (Budget.recordSpend "a" (1 # 10) ledger_at_85).1.2 = 1%nat.
Proof.
  split; [reflexivity|].
  exact (recordSpend_warning_iff_above_80 "a" (1 # 10) ledger_at_85 eq_refl).
Defined.

(** C4, as the claim states it, fails: a call that takes usage from 85%
    to 86% crosses no band and still emits a warning. *)
Lemma recordSpend_warning_not_only_on_crossing :
  ¬ (∀ (id : string) (amount : Q) (b : BudgetManager),
       (0 < Budget.warnings (Budget.recordSpend id amount b).1.2)%nat
       ↔ spec_warning_due b amount = true).
Proof.
  intros H.
  destruct (H "a" (1 # 10) ledger_at_85) as [H1 _].
  assert (Hw : spec_warning_due ledger_at_85 (1 # 10) = true).
  { apply H1. vm_compute. lia. }
  vm_compute in Hw. discriminate.
Qed.

Lemma release_totals (id : string) (b : BudgetManager) :
  totalBudget (Budget.release id b).2 = totalBudget b
  ∧ totalSpent (Budget.release id b).2 = totalSpent b
  ∧ reserve (Budget.release id b).2 = reserve b.
Proof.
  unfold Budget.release. by destruct (agentBudgets b !! id).
Qed.

(** C9. What [allocate] returns is a function of the request, [total],
    [spent] and [reserve] alone: the live sub-ledgers play no part.  So
    allocations can add up to more than the headroom (two requests of 9
    against a fresh budget of 10 leave 18 allocated over a headroom of 9),
    and a [release] changes nothing in what a later [allocate] returns. *)
Theorem allocate_ignores_sub_ledgers :
  (∀ (id : string) (r total spent reserve : Q)
     (ledgers1 ledgers2 : gmap string AgentBudget),
     (Budget.allocate id r (mkBudgetManager total spent ledgers1 reserve)).1
     = (Budget.allocate id r (mkBudgetManager total spent ledgers2 reserve)).1)
  ∧ (let b := Budget.new 10 Budget.default_reservePercent in
     let b' := Budget.allocate_all two_requests b in
     totalSpent b' = totalSpent b
     ∧ totalBudget b' - totalSpent b' - reserve b' < Budget.live_allocated b')
  ∧ (∀ (id id' : string) (r : Q) (b : BudgetManager),
       (Budget.allocate id' r (Budget.release id b).2).1
       = (Budget.allocate id' r b).1).
Proof.
  split; [done|]. split.
  - split; [reflexivity|]. vm_compute. reflexivity.
  - intros id id' r b. unfold Budget.allocate. cbn.
    destruct (release_totals id b) as (-> & -> & ->). done.
Qed.

(** ** Agent loop *)

Section AgentLoopFacts.
Context {W L : Type}.
Variable abort_requested : W → bool.
Variable id : string.
Variable cfg : AgentConfig W.
Variable on_cost_update : Q → Q → L → L.

Lemma fallback_output_nonempty (st : AgentState) (s : AgentStatus) :
  fallback_output cfg st s ≠ "".
Proof.
  unfold fallback_output, last_assistant_text.
  destruct (last _) as [m|] eqn:E; cbn; [|discriminate].
  apply last_Some in E as [l' E].
  assert (Hin : In m (List.filter
    (λ m, match role m with assistant => truthy (content m) | _ => false end)
    (messages st))).
  { rewrite E. apply in_or_app. right. by left. }
  apply filter_In in Hin as [_ Hm].
  destruct (role m); try discriminate.
  intros Hc. rewrite Hc in Hm. discriminate.
Qed.

(** What the loop guarantees about the output, for each way to end. *)
Lemma loop_output (fuel : nat) :
  ∀ (st : AgentState) (w : W) (l : L) r st' w' l',
    loop abort_requested id cfg on_cost_update fuel st w l = (r, st', w', l') →
    (status r = completed →
       ∃ m, last (messages st') = Some m ∧ role m = assistant
            ∧ output r = content m)
    ∧ (status r ≠ completed →
       output r ≠ ""
       ∧ (output r = fallback_output cfg st' (status r)
          ∨ ∃ m, status r = error ∧ output r = "Error: " +:+ m)).
Proof.
  induction fuel as [|fuel IH]; intros st w l r st' w' l'; cbn [loop].
  - intros [= <- <- <- <-]. cbn. split.
    + by destruct (aborted st).
    + intros _. split; [apply fallback_output_nonempty | by left].
  - destruct (aborted st).
    { intros [= <- <- <- <-]. cbn. split; [done|].
      intros _. split; [apply fallback_output_nonempty | by left]. }
    destruct (Qge_bool _ _).
    { intros [= <- <- <- <-]. cbn. split; [done|].
      intros _. split; [apply fallback_output_nonempty | by left]. }
    destruct (provider cfg _ _ _ _ w) as [[response|m] w1].
    + destruct (resp_toolCalls response) as [|c calls].
      * intros [= <- <- <- <-]. cbn. split; [|done].
        intros _. eexists. rewrite last_snoc. done.
      * destruct (run_tools _ _ w1) as [results w2]. by apply IH.
    + intros [= <- <- <- <-]. cbn. split; [done|].
      intros _. split; [discriminate | right; by eexists].
Qed.

(** With a ceiling of 0 a fresh loop stops at its first budget check. *)
Lemma loop_zero_budget (fuel : nat) (st : AgentState) (w : W) (l : L) :
  aborted st = false →
  Qge_bool (totalCost st) (budget cfg) = true →
  loop abort_requested id cfg on_cost_update (S fuel) st w l
  = (finish id cfg st budget_exhausted None, st, w, l).
Proof.
  intros Ha Hb. cbn [loop]. by rewrite Ha, Hb.
Qed.

End AgentLoopFacts.

(** C3. With a budget ceiling of 0 (and a turn limit above 0, as the
    default 100 is), [run] on a fresh agent ends with status
    [budget_exhausted] before any call to the backend: no call is made,
    [turns] is 0, and neither the world nor the listener has been
    touched.  This holds for every backend, so also for a stub that
    always requests a tool call. *)
Theorem run_zero_budget {W L : Type} (abort_requested : W → bool)
    (id : string) (cfg : AgentConfig W) (on_cost_update : Q → Q → L → L)
    (task : string) (imgs : option (list ImageAttachment)) (w : W) (l : L) :
  budget cfg == 0 →
  (0 < effective_maxTurns cfg)%nat →
  let '(result, st, w', l') :=
    run abort_requested id cfg on_cost_update task imgs initial_state w l in
  status result = budget_exhausted
  ∧ chatCalls st = 0%nat
  ∧ res_turns result = 0%nat
  ∧ turns st = 0%nat
  ∧ w' = w
  ∧ l' = l.
Proof.
  intros Hb Hm. unfold run. cbn [turns push_message initial_state].
  destruct (effective_maxTurns cfg - 0)%nat as [|fuel] eqn:E; [lia|].
  rewrite loop_zero_budget.
  - done.
  - done.
  - unfold Qge_bool. cbn. apply Qle_bool_iff. rewrite Hb. apply Qle_refl.
Qed.

Lemma run_zero_budget_witness :
  let '(result, st, w', l') := stub_run always_tool_stub 0 None in
  status result = budget_exhausted
  ∧ chatCalls st = 0%nat
  ∧ res_turns result = 0%nat
  ∧ turns st = 0%nat
  ∧ w' = tt
  ∧ l' = 0%nat.
Proof.
  apply (run_zero_budget never_aborted "agent-under-test"
           (stub_config always_tool_stub 0 None) counting_listener
           "do it" None tt 0%nat).
  - reflexivity.
  - vm_compute. lia.
Defined.

(** Two runs of the stubs, as a check of the embedding: three turns of
    tool calls under [maxTurns = 3], and one turn of a backend that asks
    for no tool. *)
Example stub_three_turns :
  let '(result, st, _, updates) := stub_run always_tool_stub 1 (Some 3%nat) in
  status result = max_turns
  ∧ res_turns result = 3%nat
  ∧ chatCalls st = 3%nat
  ∧ updates = 3%nat
  ∧ output result = "working"
  ∧ length (messages st) = 7%nat.
Proof. vm_compute. done. Qed.

Example stub_one_turn :
  let '(result, st, _, _) := stub_run silent_stub 1 None in
  status result = completed
  ∧ res_turns result = 1%nat
  ∧ res_totalCost result == 1 # 100.
Proof. vm_compute. done. Qed.

(** C8, as the code has it.  When [run] ends with any status other than
    [completed], the output is not empty: it is the last non-empty
    assistant text, else the synthesized sentence, or (for an exception)
    ["Error: "] followed by the message.  When it ends [completed], the
    output is the text of the final response, as it is. *)
Theorem run_output {W L : Type} (abort_requested : W → bool)
    (id : string) (cfg : AgentConfig W) (on_cost_update : Q → Q → L → L)
    (task : string) (imgs : option (list ImageAttachment))
    (st0 : AgentState) (w : W) (l : L) :
  let '(result, st, _, _) :=
    run abort_requested id cfg on_cost_update task imgs st0 w l in
  (status result ≠ completed →
     output result ≠ ""
     ∧ (output result = fallback_output cfg st (status result)
        ∨ ∃ m, status result = error ∧ output result = "Error: " +:+ m))
  ∧ (status result = completed →
     ∃ m, last (messages st) = Some m ∧ role m = assistant
          ∧ output result = content m).
Proof.
  unfold run.
  destruct (loop _ _ _ _ _ _ _ _) as [[[r st'] w'] l'] eqn:E.
  apply loop_output in E as [Hc Hn]. split; assumption.
Qed.

Lemma run_output_witness :
  let '(result, _, _, _) := stub_run always_tool_stub 1 (Some 3%nat) in
  status result ≠ completed ∧ output result ≠ "".
Proof.
  generalize (run_output never_aborted "agent-under-test"
                (stub_config always_tool_stub 1 (Some 3%nat))
                counting_listener "do it" None initial_state tt 0%nat).
  vm_compute.
  intros [H _].
  split; [discriminate | apply H; discriminate].
Defined.

(** C8, as the claim states it, fails: a backend that answers with an
    empty text and no tool call ends the run [completed] with an empty
    output. *)
Lemma completed_output_can_be_empty :
  let '(result, _, _, _) := stub_run silent_stub 1 None in
  status result = completed ∧ output result = "".
Proof. vm_compute. done. Qed.

(** ** Topological sort *)

Local Close Scope Q_scope.

Lemma elem_of_ids_of (i : Z) (l : list SubTask.t) :
  i ∈ ids_of l ↔ ∃ t, t ∈ l ∧ SubTask.id t = i.
Proof.
  unfold ids_of. rewrite elem_of_list_to_set, list_elem_of_fmap.
  naive_solver.
Qed.

Lemma ids_of_app (l k : list SubTask.t) : ids_of (l ++ k) = ids_of l ∪ ids_of k.
Proof.
  apply set_eq. intros i. rewrite elem_of_union, !elem_of_ids_of.
  setoid_rewrite elem_of_app. naive_solver.
Qed.

Lemma size_ids_of (l : list SubTask.t) : size (ids_of l) ≤ length l.
Proof.
  induction l as [|t l IH]; [done|].
  unfold ids_of in *. cbn [fmap list_fmap list_to_set length].
  rewrite size_union_alt, size_singleton.
  assert (size (list_to_set (SubTask.id <$> l) ∖ {[SubTask.id t]} : gset Z)
          ≤ size (list_to_set (SubTask.id <$> l) : gset Z)).
  { apply subseteq_size. set_solver. }
  lia.
Qed.

Lemma find_subtask_elem (subtasks : list SubTask.t) (d : Z) (dep : SubTask.t) :
  find_subtask subtasks d = Some dep → dep ∈ subtasks.
Proof.
  intros H. apply find_some in H as [H _]. by apply list_elem_of_In.
Qed.

Section SortFacts.
Variable subtasks : list SubTask.t.

Lemma extends_refl (acc : SortState) : extends subtasks acc acc.
Proof.
  exists []. rewrite app_nil_r. repeat split.
  - unfold ids_of. cbn. set_solver.
  - by apply elem_of_nil in H.
  - by apply elem_of_nil in H.
  - constructor.
Qed.

Lemma extends_trans (a b c : SortState) :
  extends subtasks a b → extends subtasks b c → extends subtasks a c.
Proof.
  intros (l1 & Hs1 & Hv1 & Hin1 & Hnd1) (l2 & Hs2 & Hv2 & Hin2 & Hnd2).
  exists (l1 ++ l2). repeat split.
  - by rewrite Hs2, Hs1, app_assoc.
  - by rewrite Hv2, Hv1, ids_of_app, union_assoc_L.
  - apply elem_of_app in H as [H|H]; [by apply Hin1 | by apply Hin2].
  - apply elem_of_app in H as [H|H]; [by apply Hin1|].
    apply Hin2 in H as [_ H]. rewrite Hv1 in H. set_solver.
  - rewrite fmap_app. apply NoDup_app. repeat split; [done| |done].
    intros i Hi1 Hi2.
    apply list_elem_of_fmap in Hi2 as (t & -> & Ht).
    apply Hin2 in Ht as [_ Ht]. apply Ht. rewrite Hv1.
    apply elem_of_union_r, elem_of_ids_of.
    apply list_elem_of_fmap in Hi1 as (t' & Heq & Ht'). by exists t'.
Qed.

Lemma extends_unvisited (a b : SortState) :
  extends subtasks a b → unvisited subtasks b ≤ unvisited subtasks a.
Proof.
  intros (l & _ & Hv & _). unfold unvisited. apply subseteq_size.
  rewrite Hv. set_solver.
Qed.

(** The loop over the dependencies, given that each inner [visit] has
    enough fuel. *)
Lemma visit_deps_total
    (visit_rec : SubTask.t → SortState → option SortState) (bound : nat) :
  (∀ task acc, task ∈ subtasks → unvisited subtasks acc < bound →
     ∃ acc', visit_rec task acc = Some acc' ∧ extends subtasks acc acc') →
  ∀ deps acc, unvisited subtasks acc < bound →
    ∃ acc', visit_deps visit_rec subtasks deps acc = Some acc'
            ∧ extends subtasks acc acc'.
Proof.
  intros Hrec deps. induction deps as [|d deps IH]; intros acc Hm; cbn.
  - exists acc. split; [done | apply extends_refl].
  - destruct (find_subtask subtasks d) as [dep|] eqn:Ef; [|by apply IH].
    apply find_subtask_elem in Ef.
    destruct (Hrec dep acc Ef Hm) as (acc1 & -> & He1).
    destruct (IH acc1) as (acc2 & -> & He2).
    { pose proof (extends_unvisited _ _ He1). lia. }
    exists acc2. split; [done | by eapply extends_trans].
Qed.

(** [visit] returns whenever its fuel exceeds the number of unvisited
    ids, and then the visited subtask is marked. *)
Lemma visit_total (fuel : nat) :
  ∀ task acc, task ∈ subtasks → unvisited subtasks acc < fuel →
    ∃ acc', visit fuel subtasks task acc = Some acc'
            ∧ extends subtasks acc acc'
            ∧ SubTask.id task ∈ acc'.1.
Proof.
  induction fuel as [|fuel IH]; intros task acc Hin Hm; [lia|].
  cbn [visit]. destruct (decide (SubTask.id task ∈ acc.1)) as [Hv|Hv].
  { exists acc. split; [done|]. split; [apply extends_refl | done]. }
  set (acc1 := ({[SubTask.id task]} ∪ acc.1, acc.2) : SortState).
  assert (Hm1 : unvisited subtasks acc1 < fuel).
  { assert (unvisited subtasks acc1 < unvisited subtasks acc); [|lia].
    unfold unvisited, acc1. cbn. apply subset_size.
    split; [set_solver|]. intros Hsub.
    assert (Hid : SubTask.id task ∈ ids_of subtasks ∖ acc.1).
    { apply elem_of_difference. split; [|done].
      apply elem_of_ids_of. by exists task. }
    apply Hsub in Hid. set_solver. }
  destruct (visit_deps_total (visit fuel subtasks) fuel) with
    (deps := SubTask.dependsOn task) (acc := acc1)
    as (acc2 & -> & (l & Hs & Hvis & Hl & Hnd)); [|done|].
  { intros t a Ht Ha. destruct (IH t a Ht Ha) as (a' & ? & ? & _). eauto. }
  exists (acc2.1, acc2.2 ++ [task]). split; [done|]. cbn. split.
  - exists (l ++ [task]). cbn. repeat split.
    + by rewrite Hs, app_assoc.
    + rewrite Hvis, ids_of_app. unfold acc1, ids_of. cbn. set_solver.
    + apply elem_of_app in H as [H|H]; [by apply Hl|].
      by apply list_elem_of_singleton in H as ->.
    + apply elem_of_app in H as [H|H].
      * apply Hl in H as [_ H]. unfold acc1 in H. cbn in H. set_solver.
      * by apply list_elem_of_singleton in H as ->.
    + rewrite fmap_app. apply NoDup_app. repeat split; [done| |].
      * intros i Hi Hi'. cbn in Hi'. apply list_elem_of_singleton in Hi' as ->.
        apply list_elem_of_fmap in Hi as (t & Heq & Ht).
        apply Hl in Ht as [_ Ht]. apply Ht. unfold acc1. cbn.
        rewrite Heq. set_solver.
      * cbn. apply NoDup_singleton.
  - rewrite Hvis. unfold acc1. cbn. set_solver.
Qed.

(** The outer loop: every subtask it is given ends up visited. *)
Lemma visit_all_total (fuel : nat) :
  ∀ todo acc, (∀ t, t ∈ todo → t ∈ subtasks) →
    unvisited subtasks acc < fuel →
    ∃ acc', visit_all fuel subtasks todo acc = Some acc'
            ∧ extends subtasks acc acc'
            ∧ (∀ t, t ∈ todo → SubTask.id t ∈ acc'.1).
Proof.
  intros todo. induction todo as [|task todo IH]; intros acc Hsub Hm; cbn.
  - exists acc. split; [done|]. split; [apply extends_refl|].
    intros t Ht. by apply elem_of_nil in Ht.
  - destruct (visit_total fuel task acc) as (acc1 & -> & He1 & Hid1);
      [apply Hsub; left | done |].
    destruct (IH acc1) as (acc2 & -> & He2 & Hid2).
    { intros t Ht. apply Hsub. by right. }
    { pose proof (extends_unvisited _ _ He1). lia. }
    exists acc2. split; [done|]. split; [by eapply extends_trans|].
    intros t Ht. apply elem_of_cons in Ht as [->|Ht]; [|by apply Hid2].
    destruct He2 as (l & _ & -> & _). set_solver.
Qed.

End SortFacts.

Lemma visit_deps_mono
    (f g : SubTask.t → SortState → option SortState)
    (subtasks : list SubTask.t) :
  (∀ t a r, f t a = Some r → g t a = Some r) →
  ∀ deps acc r,
    visit_deps f subtasks deps acc = Some r →
    visit_deps g subtasks deps acc = Some r.
Proof.
  intros Hfg deps. induction deps as [|d deps IH]; intros acc r; cbn; [done|].
  destruct (find_subtask subtasks d) as [dep|]; [|apply IH].
  destruct (f dep acc) as [acc1|] eqn:E; [|done].
  rewrite (Hfg _ _ _ E). apply IH.
Qed.

(** More fuel does not change what [visit] returns. *)
Lemma visit_mono (subtasks : list SubTask.t) (fuel : nat) :
  ∀ task acc r,
    visit fuel subtasks task acc = Some r →
    visit (S fuel) subtasks task acc = Some r.
Proof.
  induction fuel as [|fuel IH]; intros task acc r; [done|].
  intros H. cbn [visit] in H. change (visit (S (S fuel)) subtasks task acc)
    with (if decide (SubTask.id task ∈ acc.1) then Some acc
          else match visit_deps (visit (S fuel) subtasks) subtasks
                       (SubTask.dependsOn task)
                       ({[SubTask.id task]} ∪ acc.1, acc.2) with
               | Some acc' => Some (acc'.1, acc'.2 ++ [task])
               | None => None
               end).
  destruct (decide (SubTask.id task ∈ acc.1)); [done|].
  destruct (visit_deps (visit fuel subtasks) _ _ _) as [acc2|] eqn:E; [|done].
  by rewrite (visit_deps_mono _ _ _ IH _ _ _ E).
Qed.

Lemma visit_all_mono (subtasks : list SubTask.t) (fuel fuel' : nat) :
  fuel ≤ fuel' →
  ∀ todo acc r,
    visit_all fuel subtasks todo acc = Some r →
    visit_all fuel' subtasks todo acc = Some r.
Proof.
  intros Hle. induction Hle as [|fuel' Hle IH]; [done|].
  assert (Hstep : ∀ todo acc r,
            visit_all fuel' subtasks todo acc = Some r →
            visit_all (S fuel') subtasks todo acc = Some r).
  { intros todo. induction todo as [|t todo IHt]; intros acc r;
      cbn [visit_all]; [done|].
    destruct (visit fuel' subtasks t acc) as [acc1|] eqn:E; [|done].
    rewrite (visit_mono _ _ _ _ _ E). apply IHt. }
  intros todo acc r H. by apply Hstep, IH.
Qed.

(** The whole sort returns with fuel [length subtasks + 1], for every
    input. *)
Lemma topologicalSort_returns (subtasks : list SubTask.t) :
  ∃ acc, visit_all (S (length subtasks)) subtasks subtasks (∅, []) = Some acc
         ∧ extends subtasks (∅, []) acc
         ∧ (∀ t, t ∈ subtasks → SubTask.id t ∈ acc.1).
Proof.
  apply visit_all_total; [done|].
  unfold unvisited. cbn.
  assert (size (ids_of subtasks ∖ ∅) ≤ size (ids_of subtasks))
    by (apply subseteq_size; set_solver).
  pose proof (size_ids_of subtasks). lia.
Qed.

Lemma topologicalSort_fuel_enough (subtasks : list SubTask.t) (fuel : nat) :
  length subtasks < fuel →
  topologicalSort_fuel fuel subtasks = Some (topologicalSort subtasks).
Proof.
  intros Hf. destruct (topologicalSort_returns subtasks) as (acc & E & _).
  unfold topologicalSort, topologicalSort_fuel. rewrite E. cbn.
  rewrite (visit_all_mono subtasks (S (length subtasks)) fuel) with (r := acc);
    [done | lia | done].
Qed.

(** Distinct ids make [id] injective on the list. *)
Lemma id_injective (subtasks : list SubTask.t) (x y : SubTask.t) :
  NoDup (SubTask.id <$> subtasks) →
  x ∈ subtasks → y ∈ subtasks → SubTask.id x = SubTask.id y → x = y.
Proof.
  induction subtasks as [|t l IH]; intros Hnd Hx Hy Hid.
  - by apply elem_of_nil in Hx.
  - cbn in Hnd. apply NoDup_cons in Hnd as [Hnotin Hnd].
    apply elem_of_cons in Hx as [->|Hx]; apply elem_of_cons in Hy as [->|Hy].
    + done.
    + exfalso. apply Hnotin. rewrite Hid. by apply list_elem_of_fmap_2.
    + exfalso. apply Hnotin. rewrite <- Hid. by apply list_elem_of_fmap_2.
    + by apply IH.
Qed.

(** C10. For subtasks with pairwise distinct ids, [topologicalSort]
    returns (any fuel above the number of subtasks is enough for the
    recursion, and gives the same list) and its result is a permutation of
    the input, whatever the [dependsOn] lists hold: cycles and ids that
    are not in the list included. *)
Theorem topologicalSort_permutation (subtasks : list SubTask.t) :
  NoDup (SubTask.id <$> subtasks) →
  (∀ fuel, length subtasks < fuel →
     topologicalSort_fuel fuel subtasks = Some (topologicalSort subtasks))
  ∧ topologicalSort subtasks ≡ₚ subtasks.
Proof.
  intros Hnd. split; [apply topologicalSort_fuel_enough|].
  destruct (topologicalSort_returns subtasks)
    as (acc & E & (added & Hs & Hv & Hin & Hnd') & Hall).
  unfold topologicalSort, topologicalSort_fuel. rewrite E. cbn.
  cbn in Hs, Hv. rewrite Hs.
  apply NoDup_Permutation.
  - by apply NoDup_fmap_1 in Hnd'.
  - by apply NoDup_fmap_1 in Hnd.
  - intros x. split; [intros Hx; by apply Hin|].
    intros Hx. pose proof (Hall x Hx) as Hid. rewrite Hv in Hid.
    apply elem_of_union in Hid as [Hid|Hid]; [set_solver|].
    apply elem_of_ids_of in Hid as (y & Hy & Hyx).
    assert (y = x) as <-; [|done].
    apply (id_injective subtasks); [done | by apply Hin | done | done].
Qed.

Lemma topologicalSort_permutation_witness :
  NoDup (SubTask.id <$> cyclic_plan)
  ∧ topologicalSort cyclic_plan ≡ₚ cyclic_plan.
Proof.
  assert (Hnd : NoDup (SubTask.id <$> cyclic_plan)) by compute_done.
  split; [exact Hnd|].
  exact (proj2 (topologicalSort_permutation cyclic_plan Hnd)).
Defined.

(** The sort on the cyclic plan, as a check of the embedding: 2 is pushed
    before 1 because the visit of 1 descends into 2 first. *)
Example topologicalSort_cyclic :
  SubTask.id <$> topologicalSort cyclic_plan = [2%Z; 1%Z; 3%Z].
Proof. vm_compute. reflexivity. Qed.


(** ** Orchestrator *)

Lemma recordSpend_config (id : string) (amount : Q) (b : BudgetManager) :
  totalBudget (Budget.recordSpend id amount b).2 = totalBudget b
  ∧ reserve (Budget.recordSpend id amount b).2 = reserve b.
Proof.
  unfold Budget.recordSpend. by destruct (Qge_bool _ _).
Qed.

(** A property of the listener's state that every [cost_update] keeps
    also holds when the loop ends. *)
Lemma loop_listener_invariant {W L : Type} (abort_requested : W → bool)
    (id : string) (cfg : AgentConfig W) (on_cost_update : Q → Q → L → L)
    (P : L → Prop) :
  (∀ c b l, P l → P (on_cost_update c b l)) →
  ∀ fuel st w l, P l →
    P (loop abort_requested id cfg on_cost_update fuel st w l).2.
Proof.
  intros Hstep fuel. induction fuel as [|fuel IH]; intros st w l Hl;
    cbn [loop]; [done|].
  destruct (aborted st); [done|].
  destruct (Qge_bool _ _); [done|].
  destruct (provider cfg _ _ _ _ w) as [[response|m] w1]; [|done].
  destruct (resp_toolCalls response) as [|c calls]; [by apply Hstep|].
  destruct (run_tools _ _ w1) as [results w2]. by apply IH, Hstep.
Qed.

Lemma run_listener_invariant {W L : Type} (abort_requested : W → bool)
    (id : string) (cfg : AgentConfig W) (on_cost_update : Q → Q → L → L)
    (P : L → Prop) :
  (∀ c b l, P l → P (on_cost_update c b l)) →
  ∀ task imgs st w l, P l →
    P (run abort_requested id cfg on_cost_update task imgs st w l).2.
Proof.
  intros Hstep task imgs st w l Hl. unfold run.
  by apply loop_listener_invariant.
Qed.

Lemma listener_keeps_config (id : string) (t r : Q) :
  ∀ (c b : Q) (l : BudgetManager),
    has_config t r l → has_config t r (Budget.recordSpend id c l).2.
Proof.
  intros c b l [Ht Hr]. destruct (recordSpend_config id c l) as [H1 H2].
  split; congruence.
Qed.

Section OrchestratorFacts.
Context {W : Type}.
Variable uuid : W → string * W.
Variable abort_requested : W → bool.
Variable createToolRegistry : string → W → (@ToolRegistry.t W + string) * W.
Variable extractPlan : string → option (list SubTask.t).
Variable defaultModel : string.
Variable workspaceDir : string.

Lemma allocateM_frame (id : string) (r : Q) (st : @OState W) :
  ∃ st', allocateM id r st = (inl (Budget.allocate id r (mgr st)).1, st')
         ∧ same_frame st st'
         ∧ totalSpent (mgr st') = totalSpent (mgr st)
         ∧ world st' = world st.
Proof.
  unfold allocateM. cbn. eexists. split; [done|]. by repeat split.
Qed.

Lemma planTask_frame (o : Orchestrator) (task m : string)
    (reg : @ToolRegistry.t W) (b : Q) (st : OState) x st' :
  planTask uuid abort_requested extractPlan o task m reg b st = (x, st') →
  same_frame st st'.
Proof.
  unfold planTask. destruct (Qle_bool b 0).
  { intros [= <- <-]. by repeat split. }
  unfold bind, lookup_provider.
  destruct (providers o !! getProvider m) as [p|]; unfold ret, throw.
  2: { intros [= <- <-]. by repeat split. }
  unfold new_agent_id. cbn [cfg_id].
  destruct (uuid (world st)) as [aid w1].
  match goal with
  | |- context [run ?a ?i ?c ?f ?t ?im ?s ?w ?l] =>
      pose proof (run_listener_invariant a i c f
        (has_config (totalBudget (mgr st)) (reserve (mgr st)))
        (listener_keeps_config "planner" _ _) t im s w l
        (conj eq_refl eq_refl)) as Hinv;
      destruct (run a i c f t im s w l) as [[[result st1] w2] b']
  end.
  destruct Hinv as [Ht Hr]. cbn in Ht, Hr.
  destruct (extractPlan (output result)) as [[|t rest]|];
    intros [= <- <-]; by repeat split.
Qed.

Lemma plan_phase_frame (o : Orchestrator) (config : TaskConfig.t) (m : string)
    (reg : @ToolRegistry.t W) (st : OState) x st' :
  plan_phase uuid abort_requested extractPlan o config m reg st = (x, st') →
  same_frame st st'.
Proof.
  unfold plan_phase, bind.
  destruct (allocateM_frame "planner" (TaskConfig.budget config * (1 # 10)) st)
    as (st1 & -> & (H1 & H2 & H3 & H4 & H5) & _).
  intros H. apply planTask_frame in H as (G1 & G2 & G3 & G4 & G5).
  repeat split; congruence.
Qed.

(** The two ways [runAgent] can end.  It throws, before anything has
    happened, exactly when the provider or the preset is missing;
    otherwise one agent has been started and has returned. *)
Lemma runAgent_outcome (o : Orchestrator) (taskId preset task m : string)
    (reg : @ToolRegistry.t W) (b : Q) (st : OState) :
  (∃ e, runAgent uuid abort_requested o taskId preset task m reg b st
        = (inr e, st)
        ∧ (providers o !! getProvider m = None ∨ preset_of preset = None))
  ∨ (∃ r st' pc,
       runAgent uuid abort_requested o taskId preset task m reg b st
       = (inl r, st')
       ∧ is_Some (providers o !! getProvider m)
       ∧ preset_of preset = Some pc
       ∧ agentResults st' = agentResults st
       ∧ completedIds st' = completedIds st
       ∧ started st'
         = started st
           ++ [ {| started_agentId := (uuid (world st)).1;
                   started_name := value_name pc;
                   started_subtask := task;
                   started_preset := preset;
                   started_budget := b |} ]
       ∧ totalBudget (mgr st') = totalBudget (mgr st)
       ∧ reserve (mgr st') = reserve (mgr st)).
Proof.
  unfold runAgent, bind, lookup_provider.
  destruct (providers o !! getProvider m) as [p|]; unfold ret, throw.
  2: { left. eexists. split; [done | by left]. }
  destruct (preset_of preset) as [pc|].
  2: { left. eexists. split; [done | by right]. }
  right. unfold new_agent_id. cbn [cfg_id].
  destruct (uuid (world st)) as [aid w1]. cbn [fst].
  match goal with
  | |- context [run ?a ?i ?c ?f ?t ?im ?s ?w ?l] =>
      pose proof (run_listener_invariant a i c f
        (has_config (totalBudget (mgr st)) (reserve (mgr st)))
        (listener_keeps_config aid _ _) t im s w l
        (conj eq_refl eq_refl)) as Hinv;
      destruct (run a i c f t im s w l) as [[[result st1] w2] b']
  end.
  destruct Hinv as [Ht Hr]. cbn in Ht, Hr.
  pose proof (release_totals aid b') as (Rt & _ & Rr).
  destruct (Budget.release aid b') as [unspent b'']. cbn in Rt, Rr.
  exists result. eexists. exists pc. split; [done|]. cbn.
  repeat split; [by eexists | congruence | congruence].
Qed.

(** C2. Once the tool registry has been obtained (the one step of
    [runTask] that precedes its [try]), [runTask] returns a [TaskResult]
    and does not throw; and when a statement of the [try] block throws
    an exception with message [e], the result has status [error], its
    output is ["Error: "] followed by [e], and its [agentResults] are
    the results collected up to the throw. *)
Theorem runTask_catches (o o' : Orchestrator) (config : TaskConfig.t)
    (w w1 w2 : W) (taskId : string) (reg : @ToolRegistry.t W) :
  uuid w = (taskId, w1) →
  getToolRegistry createToolRegistry workspaceDir o w1 = (inl reg, o', w2) →
  let m := default defaultModel (TaskConfig.model config) in
  let body :=
    try_body uuid abort_requested extractPlan o' config taskId m reg
      (start_state config w2) in
  let outcome :=
    runTask uuid abort_requested createToolRegistry extractPlan
      defaultModel workspaceDir o config w in
  (∃ r, outcome.1 = Returned r)
  ∧ (∀ e st, body = (inr e, st) →
       outcome
       = (Returned
            {| TaskResult.taskId := taskId;
               TaskResult.task := TaskConfig.task config;
               TaskResult.output := "Error: " +:+ e;
               TaskResult.totalCost := totalSpent (mgr st);
               TaskResult.agentResults := agentResults st;
               TaskResult.status := TaskResult.error |}, st)).
Proof.
  intros Hid Hreg. cbn zeta. unfold runTask. rewrite Hid, Hreg.
  destruct (try_body _ _ _ _ _ _ _ _ _) as [[[]|e'] st'].
  - split; [by eexists|]. intros e st [=].
  - split; [by eexists|]. intros e st [= -> ->]. done.
Qed.

(** One iteration of the scheduling loop, spelled out. *)
Lemma schedule_step (o : Orchestrator) (config : TaskConfig.t)
    (taskId m : string) (reg : @ToolRegistry.t W)
    (subtask : SubTask.t) (rest : list SubTask.t) (st : OState) :
  schedule uuid abort_requested o config taskId m reg (subtask :: rest) st
  = if Qle_bool (Budget.remaining (mgr st)) 0 then (inl tt, st)
    else if negb (forallb (λ d, set_has d (completedIds st))
                    (SubTask.dependsOn subtask))
    then schedule uuid abort_requested o config taskId m reg rest st
    else
      let alloc :=
        Budget.allocate (ledger_key (SubTask.id subtask))
          (TaskConfig.budget config
           * budgetMultiplier (SubTask.complexity subtask))%Q (mgr st) in
      let st1 :=
        {| world := world st; mgr := alloc.2;
           agentResults := agentResults st;
           completedIds := completedIds st; started := started st |} in
      if Qle_bool alloc.1 0 then (inl tt, st1)
      else
        match runAgent uuid abort_requested o taskId
                (SubTask.agentType subtask) (SubTask.description subtask)
                m reg alloc.1 st1 with
        | (inl r, st2) =>
            schedule uuid abort_requested o config taskId m reg rest
              {| world := world st2; mgr := mgr st2;
                 agentResults := agentResults st2 ++ [r];
                 completedIds := set_add (SubTask.id subtask) (completedIds st2);
                 started := started st2 |}
        | (inr e, st2) => (inr e, st2)
        end.
Proof.
  cbn [schedule]. unfold bind at 1. unfold get_state.
  destruct (Qle_bool (Budget.remaining (mgr st)) 0); [done|].
  destruct (negb _); [done|].
  unfold bind at 1. unfold allocateM at 1. cbn zeta.
  destruct (Budget.allocate _ _ (mgr st)) as [a b'] eqn:E. cbn [fst snd].
  destruct (Qle_bool a 0); [done|].
  unfold bind at 1.
  destruct (runAgent _ _ _ _ _ _ _ _ _ _) as [[r|e] st2]; [|done].
  unfold bind, push_result, mark_completed. done.
Qed.






(** The state in which the [try] block starts has nothing in it yet, and
    planning keeps it so. *)
Lemma after_planning (o : Orchestrator) (config : TaskConfig.t) (m : string)
    (reg : @ToolRegistry.t W) (w : W) x st1 :
  plan_phase uuid abort_requested extractPlan o config m reg
    (start_state config w) = (x, st1) →
  agentResults st1 = []
  ∧ completedIds st1 = []
  ∧ started st1 = []
  ∧ totalBudget (mgr st1) = TaskConfig.budget config
  ∧ reserve (mgr st1) = (TaskConfig.budget config * (1 # 10))%Q.
Proof.
  intros H. by apply plan_phase_frame in H as (H1 & H2 & H3 & H4 & H5).
Qed.

(** [runTask], once the task id and the tool registry are there. *)
Lemma runTask_unfold (o o' : Orchestrator) (config : TaskConfig.t)
    (w w1 w2 : W) (taskId : string) (reg : @ToolRegistry.t W) :
  uuid w = (taskId, w1) →
  getToolRegistry createToolRegistry workspaceDir o w1 = (inl reg, o', w2) →
  (runTask uuid abort_requested createToolRegistry extractPlan
     defaultModel workspaceDir o config w).2
  = (try_body uuid abort_requested extractPlan o' config taskId
       (default defaultModel (TaskConfig.model config)) reg
       (start_state config w2)).2.
Proof.
  intros Hid Hreg. unfold runTask. rewrite Hid, Hreg.
  by destruct (try_body _ _ _ _ _ _ _ _ _) as [[[]|e] st].
Qed.


(** What the coder gets on the simple path, in terms of the planner's
    allocation and spend. *)
Lemma coder_budget_formula (T s : Q) :
  (0 <= T)%Q →
  (Qmin (Qmax 0 (T - s)) (Qmax 0 (T - s - T * (1 # 10)))
   == Qmax 0 (T - Qmin (T * (1 # 10)) (Qmax 0 (T - 0 - T * (1 # 10))) - s))%Q.
Proof.
  intros HT.
  destruct (Q.max_spec 0 (T - s)) as [[? E1]|[? E1]];
  destruct (Q.max_spec 0 (T - s - T * (1 # 10))) as [[? E2]|[? E2]];
  destruct (Q.max_spec 0 (T - 0 - T * (1 # 10))) as [[? E3]|[? E3]];
  destruct (Q.min_spec (T * (1 # 10)) (Qmax 0 (T - 0 - T * (1 # 10))))
    as [[? E4]|[? E4]];
  destruct (Q.min_spec (Qmax 0 (T - s)) (Qmax 0 (T - s - T * (1 # 10))))
    as [[? E5]|[? E5]];
  destruct (Q.max_spec 0
    (T - Qmin (T * (1 # 10)) (Qmax 0 (T - 0 - T * (1 # 10))) - s))
    as [[? E6]|[? E6]];
  lra.
Qed.

Lemma no_planner_spend_formula (T s : Q) :
  (0 <= T)%Q →
  (s == 0)%Q →
  (Qmax 0 (T - Qmin (T * (1 # 10)) (Qmax 0 (T - 0 - T * (1 # 10))) - s)
   == T - Qmin (T * (1 # 10)) (Qmax 0 (T - 0 - T * (1 # 10))))%Q.
Proof.
  intros HT Hs.
  destruct (Q.max_spec 0 (T - 0 - T * (1 # 10))) as [[? E3]|[? E3]];
  destruct (Q.min_spec (T * (1 # 10)) (Qmax 0 (T - 0 - T * (1 # 10))))
    as [[? E4]|[? E4]];
  destruct (Q.max_spec 0
    (T - Qmin (T * (1 # 10)) (Qmax 0 (T - 0 - T * (1 # 10))) - s))
    as [[? E6]|[? E6]];
  lra.
Qed.

(** The simple path with a configured backend: one coder agent is
    started with what [allocate] grants out of [remaining], it returns,
    and its result is pushed. *)
Lemma simple_path_outcome (o : Orchestrator) (config : TaskConfig.t)
    (taskId m : string) (reg : @ToolRegistry.t W) (st1 : OState) :
  is_Some (providers o !! getProvider m) →
  ∃ r st',
    simple_path uuid abort_requested o config taskId m reg st1 = (inl tt, st')
    ∧ agentResults st' = agentResults st1 ++ [r]
    ∧ started st'
      = started st1
        ++ [ {| started_agentId := (uuid (world st1)).1;
                started_name := Some "Coder";
                started_subtask := TaskConfig.task config;
                started_preset := "coder";
                started_budget :=
                  (Budget.allocate "single-coder"
                     (Budget.remaining (mgr st1)) (mgr st1)).1 |} ].
Proof.
  intros Hprov. unfold simple_path. unfold bind at 1. unfold get_state.
  unfold bind at 1.
  destruct (allocateM_frame "single-coder" (Budget.remaining (mgr st1)) st1)
    as (st2 & -> & (Hr2 & _ & Hs2 & _ & _) & _ & Hw2).
  unfold bind at 1.
  destruct (runAgent_outcome o taskId "coder" (TaskConfig.task config) m reg
              (Budget.allocate "single-coder" (Budget.remaining (mgr st1))
                 (mgr st1)).1 st2)
    as [(e & _ & [Hnone|Hnone])
       |(r & st3 & pc & -> & _ & Hpc & Hr3 & _ & Hs3 & _)].
  { rewrite Hnone in Hprov. by destruct Hprov. }
  { vm_compute in Hnone. discriminate. }
  vm_compute in Hpc. injection Hpc as <-.
  unfold push_result. exists r. eexists. split; [done|].
  cbn [started agentResults]. rewrite Hr3, Hr2, Hs3, Hs2, Hw2. done.
Qed.

(** C5, as the code has it.  When planning yields no subtask and the
    backend of the model is configured, exactly one agent is started: a
    coder-preset agent on the original task text, and it is the only one
    to leave a result.  For a total budget that is not negative, the
    budget it is built with is
    [max(0, totalBudget - plannerAllocation - spent)], where [spent] is
    the spend recorded during planning: it is
    [totalBudget - plannerAllocation] when planning recorded no spend. *)
Theorem simple_path_budget (o o' : Orchestrator) (config : TaskConfig.t)
    (w w1 w2 : W) (taskId : string) (reg : @ToolRegistry.t W)
    (st1 : OState) :
  let m := default defaultModel (TaskConfig.model config) in
  let total := TaskConfig.budget config in
  let plannerAllocation :=
    (Budget.allocate "planner" (total * (1 # 10))
       (Budget.new total Budget.default_reservePercent)).1 in
  uuid w = (taskId, w1) →
  getToolRegistry createToolRegistry workspaceDir o w1 = (inl reg, o', w2) →
  plan_phase uuid abort_requested extractPlan o' config m reg
    (start_state config w2) = (inl [], st1) →
  is_Some (providers o' !! getProvider m) →
  (0 <= total)%Q →
  let st :=
    (runTask uuid abort_requested createToolRegistry extractPlan
       defaultModel workspaceDir o config w).2 in
  ∃ ev : AgentStarted,
    started st = [ev]
    ∧ started_preset ev = "coder"
    ∧ started_name ev = Some "Coder"
    ∧ started_subtask ev = TaskConfig.task config
    ∧ length (agentResults st) = 1%nat
    ∧ (started_budget ev
       == Qmax 0 (total - plannerAllocation - totalSpent (mgr st1)))%Q
    ∧ (totalSpent (mgr st1) == 0 →
       started_budget ev == total - plannerAllocation)%Q.
Proof.
  intros m total plannerAllocation Hid Hreg Hplan Hprov Htotal st.
  destruct (simple_path_outcome o' config taskId m reg st1 Hprov)
    as (r & st' & Hsimple & Hr' & Hs').
  assert (Hst : st = st').
  { unfold st. rewrite (runTask_unfold o o' config w w1 w2 taskId reg Hid Hreg).
    unfold try_body, bind. fold m. by rewrite Hplan, Hsimple. }
  clearbody st. subst st.
  apply after_planning in Hplan as (Hr & _ & Hs & Ht & Hres).
  rewrite Hs in Hs'. rewrite Hr in Hr'. cbn [app] in Hs', Hr'.
  eexists. split; [exact Hs'|].
  cbn [started_preset started_name started_subtask started_budget].
  assert (Hb :
    ((Budget.allocate "single-coder" (Budget.remaining (mgr st1)) (mgr st1)).1
     == Qmax 0 (total - plannerAllocation - totalSpent (mgr st1)))%Q).
  { unfold plannerAllocation, Budget.allocate, Budget.remaining. cbn.
    rewrite Ht, Hres. apply coder_budget_formula. exact Htotal. }
  split; [done|]. split; [done|]. split; [done|].
  split; [by rewrite Hr'|]. split; [exact Hb|].
  intros Hzero. rewrite Hb.
  unfold plannerAllocation, Budget.allocate. cbn.
  by apply no_planner_spend_formula.
Qed.

End OrchestratorFacts.

(** ** The scripted scenarios *)

Lemma runTask_catches_witness :
  ∃ r, broken_scenario.1 = Returned r
       ∧ TaskResult.status r = TaskResult.error
       ∧ TaskResult.output r
         = "Error: Cannot read properties of undefined (reading 'name')"
       ∧ res_name <$> TaskResult.agentResults r = [Some "Coder"].
Proof.
  generalize
    (runTask_catches test_uuid test_abort test_createToolRegistry
       (scripted_extractPlan broken_plan) test_model "./workspace"
       (test_orchestrator "PLAN" (1 # 10) (2 # 10))
       {| providers := providers (test_orchestrator "PLAN" (1 # 10) (2 # 10));
          toolRegistry := Some [] |}
       (test_config 10) 0%nat 1%nat 1%nat
       "00000000-0000-4000-8000-000000000000" []).
  unfold broken_scenario, test_runTask.
  vm_compute.
  intros H. destruct (H eq_refl eq_refl) as [_ H2].
  specialize (H2 _ _ eq_refl).
  eexists. split; [exact (f_equal fst H2)|]. cbn. done.
Defined.


Lemma simple_path_budget_witness :
  ∃ ev : AgentStarted,
    started simple_scenario.2 = [ev]
    ∧ started_preset ev = "coder"
    ∧ started_subtask ev = "build it"
    ∧ (started_budget ev == 44 # 10)%Q.
Proof.
  set (o := test_orchestrator "[]" (1 # 10) (6 # 10)).
  set (o' := {| providers := providers o; toolRegistry := Some [] |}).
  assert (Hplan :
    plan_phase test_uuid test_abort (scripted_extractPlan []) o'
      (test_config 5) (default test_model (TaskConfig.model (test_config 5)))
      [] (start_state (test_config 5) 1%nat)
    = (inl [],
       (plan_phase test_uuid test_abort (scripted_extractPlan []) o'
          (test_config 5) test_model [] (start_state (test_config 5) 1%nat)).2))
    by (vm_compute; reflexivity).
  assert (Hprov : is_Some (providers o' !! getProvider
            (default test_model (TaskConfig.model (test_config 5)))))
    by (vm_compute; eauto).
  assert (Htotal : (0 <= TaskConfig.budget (test_config 5))%Q)
    by (vm_compute; discriminate).
  destruct (simple_path_budget test_uuid test_abort test_createToolRegistry
              (scripted_extractPlan []) test_model "./workspace"
              o o' (test_config 5) 0%nat 1%nat 1%nat
              "00000000-0000-4000-8000-000000000000" [] _
              eq_refl eq_refl Hplan Hprov Htotal)
    as (ev & Hs & Hp & _ & Ht & _ & Hb & _).
  exists ev. split; [exact Hs|]. split; [exact Hp|]. split; [exact Ht|].
  rewrite Hb. vm_compute. reflexivity.
Defined.

(** C5, as the claim states it, fails: with a budget of 5 and a planner
    that spends 0.10 before it answers with an empty array, the one coder
    agent is built with a budget of 4.40, not with
    [totalBudget - plannerAllocation = 4.50]. *)
Lemma coder_budget_counts_planner_spend :
  let plannerAllocation :=
    (Budget.allocate "planner" (5 * (1 # 10))
       (Budget.new 5 Budget.default_reservePercent)).1 in
  ∃ ev : AgentStarted,
    started simple_scenario.2 = [ev]
    ∧ started_preset ev = "coder"
    ∧ started_subtask ev = "build it"
    ∧ (started_budget ev == 44 # 10)%Q
    ∧ ¬ (started_budget ev == 5 - plannerAllocation)%Q.
Proof.
  cbn zeta. eexists. split; [vm_compute; reflexivity|].
  split; [reflexivity|]. split; [reflexivity|].
  split; [reflexivity|]. vm_compute. discriminate.
Qed.

(** Releasing under one key leaves the sub-ledger of another key in
    place. *)
Lemma release_other_key (id key : string) (b : BudgetManager) :
  id ≠ key →
  agentBudgets (Budget.release id b).2 !! key = agentBudgets b !! key.
Proof.
  intros Hne. unfold Budget.release.
  destruct (agentBudgets b !! id); [|done]. cbn. by apply lookup_delete_ne.
Qed.

(** C6 on a run with one subtask: the agent returned and the task
    completed, yet the sub-ledger allocated under ["agent-1"] is still
    registered, with its full allocation and no spend: [runAgent]
    released, and recorded the spend, under the agent's own uuid. *)
Theorem subtask_ledger_not_released :
  (∃ r, single_scenario.1 = Returned r
        ∧ TaskResult.status r = TaskResult.completed
        ∧ status <$> TaskResult.agentResults r = [completed])
  ∧ completedIds single_scenario.2 = [1%Z]
  ∧ started_agentId <$> started single_scenario.2
    = ["00000000-0000-4000-8000-000000000002"]
  ∧ (∃ ab, agentBudgets (mgr single_scenario.2) !! "agent-1" = Some ab
           ∧ (allocated ab == 1)%Q ∧ (spent ab == 0)%Q)
  ∧ (totalSpent (mgr single_scenario.2) == 3 # 10)%Q.
Proof.
  split; [eexists; split; [vm_compute; reflexivity | by vm_compute]|].
  split; [by vm_compute|]. split; [by vm_compute|].
  split; [|by vm_compute].
  eexists. split; [vm_compute; reflexivity|]. by vm_compute.
Qed.

(** * Further properties of the code *)

Local Open Scope Q_scope.

(** ** BudgetManager: spending *)

Lemma recordSpend_totals (id : string) (amount : Q) (b : BudgetManager) :
  totalSpent (Budget.recordSpend id amount b).2 = totalSpent b + amount
  ∧ totalBudget (Budget.recordSpend id amount b).2 = totalBudget b
  ∧ reserve (Budget.recordSpend id amount b).2 = reserve b.
Proof.
  unfold Budget.recordSpend. by destruct (Qge_bool _ _).
Qed.

Lemma Qsum_nonneg (l : list Q) : Forall (λ a, 0 <= a) l → 0 <= Qsum l.
Proof.
  induction 1 as [|a l Ha _ IH]; [apply Qle_refl|].
  change (0 <= a + Qsum l). lra.
Qed.

(** X1. After any sequence of [recordSpend] calls, whatever the agent ids,
    the global spend is the spend before plus the sum of the recorded
    amounts, and the total and the reserve are as before; with amounts
    that are not negative the spend has not decreased. *)
Theorem recordSpend_all_sum (calls : list (string * Q)) (b : BudgetManager) :
  totalSpent (recordSpend_all calls b) == totalSpent b + Qsum (calls.*2)
  ∧ totalBudget (recordSpend_all calls b) = totalBudget b
  ∧ reserve (recordSpend_all calls b) = reserve b
  ∧ (Forall (λ a, 0 <= a) (calls.*2) →
     totalSpent b <= totalSpent (recordSpend_all calls b)).
Proof.
  assert (Hsum : ∀ calls b,
    totalSpent (recordSpend_all calls b) == totalSpent b + Qsum (calls.*2)
    ∧ totalBudget (recordSpend_all calls b) = totalBudget b
    ∧ reserve (recordSpend_all calls b) = reserve b).
  { clear. intros calls. induction calls as [|[id a] calls IH]; intros b.
    - cbn. repeat split. lra.
    - cbn [recordSpend_all fold_left fst snd].
      destruct (IH (Budget.recordSpend id a b).2) as (H1 & H2 & H3).
      destruct (recordSpend_totals id a b) as (G1 & G2 & G3).
      unfold recordSpend_all in H1, H2, H3.
      rewrite H2, H3, G2, G3. repeat split.
      rewrite H1, G1. change (Qsum (((id, a) :: calls).*2)) with (a + Qsum (calls.*2)).
      lra. }
  destruct (Hsum calls b) as (H1 & H2 & H3). repeat split; try done.
  intros Hpos. apply Qsum_nonneg in Hpos. rewrite H1. lra.
Qed.

Lemma recordSpend_all_sum_witness :
  Forall (λ a, 0 <= a) ([("a", 1 # 2); ("ghost", 3 # 2)].*2)
  ∧ totalSpent ledger_with_agent
    <= totalSpent
         (recordSpend_all [("a", 1 # 2); ("ghost", 3 # 2)] ledger_with_agent).
Proof.
  assert (H : Forall (λ a, 0 <= a) ([("a", 1 # 2); ("ghost", 3 # 2)].*2)).
  { repeat constructor; discriminate. }
  split; [exact H|].
  exact (proj2 (proj2 (proj2
    (recordSpend_all_sum [("a", 1 # 2); ("ghost", 3 # 2)] ledger_with_agent))) H).
Defined.

(** X2. [recordSpend] returns [false] exactly when the spend after the
    call has reached the total, which is exactly when it emits
    [exhausted] and exactly when [remaining] is 0 afterwards. *)
Theorem recordSpend_exhausted_iff (id : string) (amount : Q) (b : BudgetManager) :
  let ok := (Budget.recordSpend id amount b).1.1 in
  let evs := (Budget.recordSpend id amount b).1.2 in
  let b' := (Budget.recordSpend id amount b).2 in
  (ok = false ↔ totalBudget b <= totalSpent b + amount)
  ∧ (EvExhausted id ∈ evs ↔ ok = false)
  ∧ (Budget.remaining b' == 0 ↔ ok = false).
Proof.
  cbn zeta. unfold Budget.recordSpend, Budget.remaining.
  set (p := js_scale _ _).
  assert (Hw : ∀ e, e ∈ (if js_ge p 90 then [EvWarning id p]
                         else if js_ge p 80 then [EvWarning id p] else [])
                    → e = EvWarning id p).
  { intros e. destruct (js_ge p 90); [|destruct (js_ge p 80)];
      intros He; try (by apply list_elem_of_singleton in He);
      by apply elem_of_nil in He. }
  unfold Qge_bool.
  destruct (Qle_bool (totalBudget b) (totalSpent b + amount)) eqn:E; cbn.
  - apply Qle_bool_iff in E. split; [done|]. split.
    + split; [done|]. intros _. rewrite !elem_of_cons, elem_of_app.
      right. right. by apply list_elem_of_singleton.
    + split; [done|]. intros _.
      destruct (Q.max_spec 0 (totalBudget b - (totalSpent b + amount)))
        as [[? ->]|[? ->]]; lra.
  - apply Qle_bool_false in E. split; [split; [done | lra]|]. split.
    + split; [|done]. rewrite elem_of_cons. intros [H|H]; [done|].
      apply Hw in H. done.
    + split; [|done]. intros H. exfalso.
      destruct (Q.max_spec 0 (totalBudget b - (totalSpent b + amount)))
        as [[? Hm]|[? Hm]]; rewrite Hm in H; lra.
Qed.

(** ** BudgetManager: sub-ledgers *)

(** X3. [release] of an id without a sub-ledger returns 0 and leaves the
    manager as it is; [release] of a registered id returns
    [allocated - spent], removes that sub-ledger and no other; and a
    second [release] of the same id returns 0 and changes nothing. *)
Theorem release_spec (id : string) (b : BudgetManager) :
  match agentBudgets b !! id with
  | None => Budget.release id b = (0, b)
  | Some ab =>
      (Budget.release id b).1 = allocated ab - spent ab
      ∧ agentBudgets (Budget.release id b).2 !! id = None
      ∧ (∀ k, k ≠ id →
           agentBudgets (Budget.release id b).2 !! k = agentBudgets b !! k)
  end
  ∧ Budget.release id (Budget.release id b).2 = (0, (Budget.release id b).2).
Proof.
  destruct (agentBudgets b !! id) as [ab|] eqn:E.
  - assert (Hr : Budget.release id b
                 = (allocated ab - spent ab,
                    {| totalBudget := totalBudget b;
                       totalSpent := totalSpent b;
                       agentBudgets := delete id (agentBudgets b);
                       reserve := reserve b |}))
      by (unfold Budget.release; by rewrite E).
    rewrite Hr. cbn. split.
    + split; [done|]. split; [apply lookup_delete_eq|].
      intros k Hk. by apply lookup_delete_ne.
    + unfold Budget.release. cbn. by rewrite lookup_delete_eq.
  - assert (Hr : Budget.release id b = (0, b))
      by (unfold Budget.release; by rewrite E).
    rewrite Hr. cbn. split; [done | exact Hr].
Qed.

(** X4. Allocating under an id that has no sub-ledger and releasing it
    again, with no spend in between, gives back what was allocated and
    leaves the manager exactly as it was before the allocation. *)
Theorem allocate_release_round_trip (id : string) (r : Q) (b : BudgetManager) :
  agentBudgets b !! id = None →
  let '(a, b1) := Budget.allocate id r b in
  let '(unspent, b2) := Budget.release id b1 in
  unspent == a ∧ b2 = b.
Proof.
  intros Hfresh. unfold Budget.allocate, Budget.release. cbn.
  rewrite lookup_insert_eq. cbn. split; [lra|].
  destruct b as [t s m rv]. cbn in *. f_equal.
  rewrite delete_insert_eq. by apply delete_id.
Qed.

Lemma allocate_release_round_trip_witness :
  agentBudgets ledger_with_agent !! "agent-2" = None
  ∧ let '(a, b1) := Budget.allocate "agent-2" 3 ledger_with_agent in
    let '(unspent, b2) := Budget.release "agent-2" b1 in
    unspent == a ∧ b2 = ledger_with_agent.
Proof.
  assert (H : agentBudgets ledger_with_agent !! "agent-2" = None)
    by (vm_compute; reflexivity).
  split; [exact H|].
  exact (allocate_release_round_trip "agent-2" 3 ledger_with_agent H).
Defined.

(** X5. A fresh manager stores every sub-ledger under the key its
    [agentId] names, and [allocate], [recordSpend] and [release] keep it
    so. *)
Theorem keys_match_invariant :
  (∀ total percent, keys_match (Budget.new total percent))
  ∧ (∀ id r b, keys_match b → keys_match (Budget.allocate id r b).2)
  ∧ (∀ id a b, keys_match b → keys_match (Budget.recordSpend id a b).2)
  ∧ (∀ id b, keys_match b → keys_match (Budget.release id b).2).
Proof.
  unfold keys_match. repeat split.
  - intros total percent k ab. cbn. by rewrite lookup_empty.
  - intros id r b H k ab. cbn. destruct (decide (id = k)) as [->|Hne].
    + rewrite lookup_insert_eq. by intros [= <-].
    + rewrite lookup_insert_ne by done. apply H.
  - intros id a b H k ab. unfold Budget.recordSpend.
    destruct (Qge_bool _ _); cbn;
      (destruct (agentBudgets b !! id) as [ab0|] eqn:E; [|apply H]);
      (destruct (decide (id = k)) as [->|Hne];
        [rewrite lookup_insert_eq; intros [= <-]; cbn; by apply H
        |rewrite lookup_insert_ne by done; apply H]).
  - intros id b H k ab. unfold Budget.release.
    destruct (agentBudgets b !! id) as [ab0|] eqn:E; cbn; [|apply H].
    destruct (decide (id = k)) as [->|Hne].
    + by rewrite lookup_delete_eq.
    + rewrite lookup_delete_ne by done. apply H.
Qed.

Lemma keys_match_invariant_witness :
  keys_match ledger_with_agent
  ∧ keys_match (Budget.recordSpend "agent-1" 1 ledger_with_agent).2.
Proof.
  assert (H : keys_match ledger_with_agent).
  { intros k ab. unfold ledger_with_agent. cbn.
    destruct (decide ("agent-1" = k)) as [<-|Hne].
    - rewrite lookup_singleton_eq. by intros [= <-].
    - by rewrite lookup_singleton_ne. }
  split; [exact H|].
  exact (proj1 (proj2 (proj2 keys_match_invariant)) "agent-1" 1
           ledger_with_agent H).
Defined.

(** X6. [canSpend] is false for an id that was released; it is false
    after an agent has recorded a spend of at least what was left of its
    allocation; and where it is true, something remains of the global
    budget. *)
Theorem canSpend_spec (id : string) (b : BudgetManager) :
  Budget.canSpend id (Budget.release id b).2 = false
  ∧ (∀ ab a, agentBudgets b !! id = Some ab →
       allocated ab - spent ab <= a →
       Budget.canSpend id (Budget.recordSpend id a b).2 = false)
  ∧ (Budget.canSpend id b = true → 0 < Budget.remaining b).
Proof.
  repeat split.
  - unfold Budget.canSpend, Budget.release.
    destruct (agentBudgets b !! id) as [ab|] eqn:E; cbn.
    + by rewrite lookup_delete_eq.
    + by rewrite E.
  - intros ab a Hab Ha. unfold Budget.canSpend, Budget.recordSpend.
    destruct (Qge_bool _ _); cbn; rewrite Hab, lookup_insert_eq; cbn;
      apply andb_false_intro1; unfold Qlt_bool;
      apply negb_false_iff, Qle_bool_iff; lra.
  - unfold Budget.canSpend, Budget.remaining.
    destruct (agentBudgets b !! id) as [ab|]; [|done].
    intros [_ H]%andb_true_iff. unfold Qlt_bool in H.
    apply negb_true_iff, Qle_bool_false in H.
    destruct (Q.max_spec 0 (totalBudget b - totalSpent b)) as [[? ->]|[? ->]];
      lra.
Qed.

Lemma canSpend_spec_witness :
  Budget.canSpend "agent-1" ledger_with_agent = true
  ∧ 0 < Budget.remaining ledger_with_agent
  ∧ Budget.canSpend "agent-1"
      (Budget.recordSpend "agent-1" 2 ledger_with_agent).2 = false.
Proof.
  assert (H : Budget.canSpend "agent-1" ledger_with_agent = true)
    by (vm_compute; reflexivity).
  destruct (canSpend_spec "agent-1" ledger_with_agent) as (_ & Hspend & Hrem).
  split; [exact H|]. split; [exact (Hrem H)|].
  apply (Hspend {| agentId := "agent-1"; allocated := 4; spent := 2 |} 2).
  - vm_compute. reflexivity.
  - vm_compute. discriminate.
Defined.

(** X7. With a total budget of 0 the percentage is a division by zero:
    a call that leaves a positive spend emits one warning (the percentage
    is [+Infinity]) and returns [false]; one that leaves the spend at 0
    emits no warning (the percentage is NaN) and still returns [false];
    one that leaves it negative emits no warning and returns [true]. *)
Theorem recordSpend_zero_total (id : string) (amount : Q) (b : BudgetManager) :
  totalBudget b == 0 →
  let ok := (Budget.recordSpend id amount b).1.1 in
  let evs := (Budget.recordSpend id amount b).1.2 in
  (0 < totalSpent b + amount →
     ok = false ∧ EvWarning id PosInf ∈ evs ∧ Budget.warnings evs = 1%nat)
  ∧ (totalSpent b + amount == 0 →
     ok = false ∧ Budget.warnings evs = 0%nat)
  ∧ (totalSpent b + amount < 0 →
     ok = true ∧ Budget.warnings evs = 0%nat).
Proof.
  intros Ht. cbn zeta.
  assert (Hp : percent_of (totalSpent b + amount) (totalBudget b)
               = match totalSpent b + amount ?= 0 with
                 | Gt => PosInf | Lt => NegInf | Eq => NaN
                 end).
  { unfold percent_of, js_div.
    apply Qeq_bool_iff in Ht. rewrite Ht. by destruct (_ ?= _). }
  pose proof (recordSpend_warnings id amount b) as Hw. rewrite Hp in Hw.
  assert (Hok : (Budget.recordSpend id amount b).1.1
                = negb (Qle_bool (totalBudget b) (totalSpent b + amount))).
  { unfold Budget.recordSpend, Qge_bool. by destruct (Qle_bool _ _). }
  assert (Hev : percent_of (totalSpent b + amount) (totalBudget b) = PosInf →
                EvWarning id PosInf ∈ (Budget.recordSpend id amount b).1.2).
  { intros Hinf. unfold Budget.recordSpend.
    change (js_scale (js_div (totalSpent b + amount) (totalBudget b)) 100)
      with (percent_of (totalSpent b + amount) (totalBudget b)).
    rewrite Hinf. cbn. destruct (Qge_bool _ _); cbn; set_solver. }
  rewrite Hp in Hev.
  destruct (Qcompare_spec (totalSpent b + amount) 0) as [Hc|Hc|Hc];
    repeat split; intros; try lra; try done;
    try (by apply Hev);
    rewrite Hok;
    first [ apply negb_false_iff, Qle_bool_iff; lra
          | apply negb_true_iff, Qle_bool_false; lra ].
Qed.

Lemma recordSpend_zero_total_witness :
  totalBudget ledger_without_money == 0
  ∧ (Budget.recordSpend "planner" (1 # 100) ledger_without_money).1.1 = false
  ∧ Budget.warnings
      (Budget.recordSpend "planner" (1 # 100) ledger_without_money).1.2
    = 1%nat.
Proof.
  assert (Ht : totalBudget ledger_without_money == 0) by reflexivity.
  destruct (recordSpend_zero_total "planner" (1 # 100) ledger_without_money Ht)
    as ((Hok & _ & Hw) & _); [reflexivity|].
  split; [exact Ht|]. split; [exact Hok | exact Hw].
Defined.

(** X8. What [allocate] grants is 0 or less exactly when the request is 0
    or less or nothing is left above the reserve: for a positive request
    this is the orchestrator's signal to stop scheduling. *)
Theorem allocate_nonpositive_iff (id : string) (r : Q) (b : BudgetManager) :
  (Budget.allocate id r b).1 <= 0
  ↔ r <= 0 ∨ totalBudget b - totalSpent b - reserve b <= 0.
Proof.
  unfold Budget.allocate. cbn.
  destruct (Q.max_spec 0 (totalBudget b - totalSpent b - reserve b))
    as [[? E1]|[? E1]];
  destruct (Q.min_spec r (Qmax 0 (totalBudget b - totalSpent b - reserve b)))
    as [[? E2]|[? E2]];
  (split; [intros H'|intros [H'|H']]; [|lra|lra]);
  (destruct (Qlt_le_dec 0 r); [right|left]; lra).
Qed.

(** ** ToolRegistry *)

Section RegistryFacts.
Context {W : Type}.
Implicit Types (reg : @ToolRegistry.t W) (h : ToolHandler W).

Lemma register_get_same h reg :
  ToolRegistry.get (td_name (definition h)) (ToolRegistry.register h reg)
  = Some h.
Proof.
  induction reg as [|h' reg IH]; cbn.
  - by rewrite String.eqb_refl.
  - destruct (String.eqb (td_name (definition h')) (td_name (definition h)))
      eqn:E; cbn.
    + by rewrite String.eqb_refl.
    + by rewrite E.
Qed.

Lemma register_get_other h reg (n : string) :
  n ≠ td_name (definition h) →
  ToolRegistry.get n (ToolRegistry.register h reg) = ToolRegistry.get n reg.
Proof.
  intros Hn. induction reg as [|h' reg IH]; cbn.
  - destruct (String.eqb_spec (td_name (definition h)) n); [congruence|done].
  - destruct (String.eqb_spec (td_name (definition h'))
                (td_name (definition h))) as [E|E]; cbn.
    + rewrite E.
      destruct (String.eqb_spec (td_name (definition h)) n); [congruence|done].
    + destruct (String.eqb_spec (td_name (definition h')) n); [done|apply IH].
Qed.

Lemma register_list h reg :
  registry_list (ToolRegistry.register h reg)
  = if decide (td_name (definition h) ∈ registry_list reg)
    then registry_list reg
    else registry_list reg ++ [td_name (definition h)].
Proof.
  induction reg as [|h' reg IH]; [done|].
  cbn [ToolRegistry.register].
  destruct (String.eqb_spec (td_name (definition h'))
              (td_name (definition h))) as [E|E].
  - cbn. rewrite E. rewrite decide_True by left. done.
  - change (registry_list (h' :: ToolRegistry.register h reg))
      with (td_name (definition h')
            :: registry_list (ToolRegistry.register h reg)).
    change (registry_list (h' :: reg))
      with (td_name (definition h') :: registry_list reg).
    rewrite IH.
    destruct (decide (td_name (definition h) ∈ registry_list reg)) as [Hin|Hin].
    + rewrite decide_True by (by right). done.
    + rewrite decide_False; [done|].
      intros [Heq|H']%elem_of_cons; [congruence|done].
Qed.

(** X9. Registering a handler and looking its name up gives that handler
    back; every other name resolves as before; and the registry lists a
    name once: re-registering a name replaces the handler in place, a new
    name goes to the end. *)
Theorem register_spec h reg :
  ToolRegistry.get (td_name (definition h)) (ToolRegistry.register h reg)
  = Some h
  ∧ (∀ n, n ≠ td_name (definition h) →
       ToolRegistry.get n (ToolRegistry.register h reg)
       = ToolRegistry.get n reg)
  ∧ registry_list (ToolRegistry.register h reg)
    = (if decide (td_name (definition h) ∈ registry_list reg)
       then registry_list reg
       else registry_list reg ++ [td_name (definition h)])
  ∧ (NoDup (registry_list reg) →
     NoDup (registry_list (ToolRegistry.register h reg))).
Proof.
  split; [apply register_get_same|].
  split; [intros n; apply register_get_other|].
  split; [apply register_list|].
  intros Hnd. rewrite register_list.
  destruct (decide _) as [Hin|Hin]; [done|].
  apply NoDup_app. split; [done|]. split; [|apply NoDup_singleton].
  intros x Hx Hx'. apply list_elem_of_singleton in Hx' as ->. done.
Qed.

Lemma run_tools_ids reg (calls : list ToolCall) (w : W) :
  toolCallId <$> (run_tools reg calls w).1 = tc_id <$> calls.
Proof.
  revert w. induction calls as [|c0 calls IH]; intros w; [done|].
  cbn [run_tools].
  destruct (ToolRegistry.execute_tool _ _ reg w) as [text w1].
  specialize (IH w1). destruct (run_tools reg calls w1) as [results w2].
  cbn in *. by rewrite IH.
Qed.

(** X10. A tool batch yields exactly one result per requested call, in
    the order of the calls and under the id of each call; a call that
    names no registered tool gets the "Unknown tool" text as its
    result. *)
Theorem run_tools_results reg (calls : list ToolCall) (w : W) :
  toolCallId <$> (run_tools reg calls w).1 = tc_id <$> calls
  ∧ ∀ (i : nat) (c : ToolCall) (r : ToolResult),
      calls !! i = Some c →
      (run_tools reg calls w).1 !! i = Some r →
      ToolRegistry.get (tc_name c) reg = None →
      tr_content r
      = "Error: Unknown tool " +:+ dquote +:+ tc_name c +:+ dquote.
Proof.
  split; [apply run_tools_ids|].
  revert w. induction calls as [|c0 calls IH]; intros w; [done|].
  cbn [run_tools].
  destruct (ToolRegistry.execute_tool _ _ reg w) as [text w1] eqn:E.
  destruct (run_tools reg calls w1) as [results w2] eqn:E2.
  specialize (IH w1). rewrite E2 in IH. rename IH into IH2.
  cbn in IH2. cbn.
  intros [|i] c r; cbn.
  - intros [= <-] [= <-] Hget. cbn.
    unfold ToolRegistry.execute_tool in E. rewrite Hget in E.
    by injection E as <- _.
  - apply IH2.
Qed.

End RegistryFacts.

Lemma register_spec_witness :
  NoDup (registry_list [echo_tool])
  ∧ NoDup (registry_list (ToolRegistry.register failing_tool [echo_tool]))
  ∧ registry_list (ToolRegistry.register failing_tool [echo_tool]) = ["echo"].
Proof.
  assert (H : NoDup (registry_list [echo_tool])) by compute_done.
  destruct (register_spec failing_tool [echo_tool]) as (_ & _ & Hl & Hnd).
  split; [exact H|]. split; [exact (Hnd H)|]. exact Hl.
Defined.

(** ** Agent loop: bounds *)

Section AgentLoopBounds.
Context {W L : Type}.
Variable abort_requested : W → bool.
Variable id : string.
Variable cfg : AgentConfig W.
Variable on_cost_update : Q → Q → L → L.

(** How the counters move in the loop. *)
Lemma loop_counters (fuel : nat) :
  ∀ (st : AgentState) (w : W) (l : L) r st' w' l',
    loop abort_requested id cfg on_cost_update fuel st w l = (r, st', w', l') →
    res_turns r = turns st'
    ∧ res_totalCost r = totalCost st'
    ∧ (turns st ≤ turns st')%nat
    ∧ (chatCalls st ≤ chatCalls st')%nat
    ∧ (turns st' ≤ turns st + fuel)%nat
    ∧ (chatCalls st' ≤ chatCalls st + fuel)%nat
    ∧ (turns st' - turns st ≤ chatCalls st' - chatCalls st)%nat
    ∧ (chatCalls st' - chatCalls st ≤ S (turns st' - turns st))%nat
    ∧ (status r = max_turns → turns st' = (turns st + fuel)%nat)
    ∧ (status r = budget_exhausted → budget cfg <= totalCost st')
    ∧ (status r = completed → (turns st < turns st')%nat).
Proof.
  induction fuel as [|fuel IH]; intros st w l r st' w' l'; cbn [loop].
  - intros [= <- <- <- <-]. destruct (aborted st); cbn;
      repeat split; intros; try lia; done.
  - destruct (aborted st).
    { intros [= <- <- <- <-]. cbn. repeat split; intros; try lia; done. }
    destruct (Qge_bool _ _) eqn:Eb.
    { intros [= <- <- <- <-]. cbn. repeat split; intros; try lia; try done.
      by apply Qle_bool_iff in Eb. }
    destruct (provider cfg _ _ _ _ w) as [[response|m] w1].
    + destruct (resp_toolCalls response) as [|c calls].
      * intros [= <- <- <- <-]. cbn. repeat split; intros; try lia; done.
      * destruct (run_tools _ _ w1) as [results w2]. intros H.
        apply IH in H. cbn in H.
        destruct H as (H1 & H2 & H3 & H3' & H4 & H5 & H6 & H7 & H8 & H9 & H10).
        repeat split; try done; try lia; intros Hs.
        rewrite (H8 Hs). lia.
    + intros [= <- <- <- <-]. cbn. repeat split; intros; try lia; done.
Qed.

(** A backend call is only started below the ceiling, so the total stays
    below the ceiling plus the dearest single call. *)
Lemma loop_cost_bound (cmax : Q) :
  (∀ ms defs m sys w response w',
     provider cfg ms defs m sys w = (ChatReturns response, w') →
     cost (usage response) <= cmax) →
  ∀ (fuel : nat) (st : AgentState) (w : W) (l : L) r st' w' l',
    loop abort_requested id cfg on_cost_update fuel st w l = (r, st', w', l') →
    totalCost st' <= Qmax (totalCost st) (budget cfg + cmax).
Proof.
  intros Hc fuel. induction fuel as [|fuel IH]; intros st w l r st' w' l';
    cbn [loop].
  - intros [= <- <- <- <-]. apply Q.le_max_l.
  - destruct (aborted st).
    { intros [= <- <- <- <-]. apply Q.le_max_l. }
    destruct (Qge_bool _ _) eqn:Eb.
    { intros [= <- <- <- <-]. apply Q.le_max_l. }
    unfold Qge_bool in Eb. apply Qle_bool_false in Eb.
    destruct (provider cfg _ _ _ _ w) as [[response|m] w1] eqn:Ep.
    + apply Hc in Ep.
      assert (Hnew : totalCost st + cost (usage response)
                     <= Qmax (totalCost st) (budget cfg + cmax)).
      { eapply Qle_trans; [|apply Q.le_max_r]. lra. }
      destruct (resp_toolCalls response) as [|c calls].
      * intros [= <- <- <- <-]. exact Hnew.
      * destruct (run_tools _ _ w1) as [results w2]. intros H.
        apply IH in H. cbn in H.
        eapply Qle_trans; [exact H|].
        apply Q.max_lub; [exact Hnew | apply Q.le_max_r].
    + intros [= <- <- <- <-]. apply Q.le_max_l.
Qed.

End AgentLoopBounds.

(** X11. A run of a fresh agent reports the turns it made; it makes at
    most [maxTurns] turns and at most [maxTurns] calls to the backend;
    every turn is one call that returned, and at most one call did not
    (the one that threw).  It ends [max_turns] only after exactly
    [maxTurns] turns, [budget_exhausted] only with a total cost that has
    reached the ceiling, and [completed] only after at least one turn. *)
Theorem run_counters {W L : Type} (abort_requested : W → bool)
    (id : string) (cfg : AgentConfig W) (on_cost_update : Q → Q → L → L)
    (task : string) (imgs : option (list ImageAttachment)) (w : W) (l : L) :
  let '(r, st, _, _) :=
    run abort_requested id cfg on_cost_update task imgs initial_state w l in
  res_turns r = turns st
  ∧ (turns st ≤ effective_maxTurns cfg)%nat
  ∧ (chatCalls st ≤ effective_maxTurns cfg)%nat
  ∧ (turns st ≤ chatCalls st ≤ S (turns st))%nat
  ∧ (status r = max_turns → turns st = effective_maxTurns cfg)
  ∧ (status r = budget_exhausted → budget cfg <= res_totalCost r)
  ∧ (status r = completed → (1 ≤ turns st)%nat).
Proof.
  unfold run.
  destruct (loop _ _ _ _ _ _ _ _) as [[[r st'] w'] l'] eqn:E.
  apply loop_counters in E. cbn in E.
  destruct E as (H1 & H2 & H3 & H3' & H4 & H5 & H6 & H7 & H8 & H9 & H10).
  repeat split; try done; try lia; intros Hs.
  - rewrite (H8 Hs). lia.
  - rewrite H2. by apply H9.
Qed.

(** X12. If no single response of the backend costs more than [cmax],
    the total cost of a run of a fresh agent is at most
    [max(0, budget + cmax)]: the ceiling can be overshot, but by less
    than one call. *)
Theorem run_cost_bound {W L : Type} (abort_requested : W → bool)
    (id : string) (cfg : AgentConfig W) (on_cost_update : Q → Q → L → L)
    (task : string) (imgs : option (list ImageAttachment)) (w : W) (l : L)
    (cmax : Q) :
  (∀ ms defs m sys w response w',
     provider cfg ms defs m sys w = (ChatReturns response, w') →
     cost (usage response) <= cmax) →
  res_totalCost
    (run abort_requested id cfg on_cost_update task imgs initial_state w l).1.1.1
  <= Qmax 0 (budget cfg + cmax).
Proof.
  intros Hc. unfold run.
  destruct (loop _ _ _ _ _ _ _ _) as [[[r st'] w'] l'] eqn:E.
  pose proof (loop_counters _ _ _ _ _ _ _ _ _ _ _ _ E) as (_ & H2 & _).
  apply (loop_cost_bound _ _ _ _ cmax Hc) in E. cbn in *. by rewrite H2.
Qed.

(** ** Agent loop: particular backends *)

Section AgentLoopRuns.
Context {W L : Type}.
Variable abort_requested : W → bool.
Variable id : string.
Variable cfg : AgentConfig W.
Variable on_cost_update : Q → Q → L → L.

(** X13. When the first response of the backend asks for no tool (and
    the ceiling and the turn limit are above 0), a fresh agent ends
    [completed] after exactly one turn and one call: its output is the
    text of that response, its cost is the cost of that call, and the
    [cost_update] listener has been told once. *)
Theorem run_completes_in_one_turn
    (task : string) (imgs : option (list ImageAttachment)) (w w1 : W) (l : L)
    (response : LLMResponse) :
  0 < budget cfg →
  (0 < effective_maxTurns cfg)%nat →
  provider cfg [initial_message task imgs]
    (ToolRegistry.getDefinitions (tools cfg)) (model cfg) (systemPrompt cfg) w
  = (ChatReturns response, w1) →
  resp_toolCalls response = [] →
  let '(r, st, w', l') :=
    run abort_requested id cfg on_cost_update task imgs initial_state w l in
  status r = completed
  ∧ output r = resp_content response
  ∧ res_turns r = 1%nat
  ∧ chatCalls st = 1%nat
  ∧ res_totalCost r == cost (usage response)
  ∧ length (messages st) = 2%nat
  ∧ w' = w1
  ∧ l' = on_cost_update (res_totalCost r) (budget cfg) l.
Proof.
  intros Hb Hm Hp Hno. unfold run. cbn [turns push_message initial_state].
  destruct (effective_maxTurns cfg - 0)%nat as [|fuel] eqn:E; [lia|].
  cbn [loop aborted messages totalCost app push_message initial_state].
  assert (Hcheck : Qge_bool 0 (budget cfg) = false).
  { unfold Qge_bool. by apply Qle_bool_false. }
  rewrite Hcheck. unfold initial_message in Hp. rewrite Hp, Hno. cbn.
  repeat split. lra.
Qed.

(** A loop that is entered with the abort flag set makes no call. *)
Lemma loop_aborted (fuel : nat) (st : AgentState) (w : W) (l : L) :
  aborted st = true →
  loop abort_requested id cfg on_cost_update fuel st w l
  = (finish id cfg st error None, st, w, l).
Proof.
  intros Ha. destruct fuel; cbn [loop]; by rewrite Ha.
Qed.

(** X16. Cancellation is only looked at between turns.  If [abort()] is
    called while a fresh agent (with a ceiling and a turn limit above 0)
    waits for its first call to the backend, that call is the only one
    it makes, and what it brought is still dealt with in full.  A
    rejected call ends the run [error] with the message of the error.  A
    response that asks for no tool ends the run [completed] with the
    text of the response.  A response that asks for tools has every one
    of them run, in order, from the world the call left; their results
    are the last message of the history, and only then does the run end,
    [error], with the text of the response as its output (or the
    synthesized sentence if that text is empty). *)
Theorem run_aborted_early
    (task : string) (imgs : option (list ImageAttachment)) (w w1 : W) (l : L)
    (outcome : ChatOutcome) :
  0 < budget cfg →
  (0 < effective_maxTurns cfg)%nat →
  provider cfg [initial_message task imgs]
    (ToolRegistry.getDefinitions (tools cfg)) (model cfg) (systemPrompt cfg) w
  = (outcome, w1) →
  abort_requested w1 = true →
  let '(r, st, w', l') :=
    run abort_requested id cfg on_cost_update task imgs initial_state w l in
  chatCalls st = 1%nat
  ∧ match outcome with
    | ChatThrows m =>
        status r = error
        ∧ output r = "Error: " +:+ m
        ∧ res_turns r = 0%nat
        ∧ messages st = [initial_message task imgs]
        ∧ w' = w1
        ∧ l' = l
    | ChatReturns response =>
        res_turns r = 1%nat
        ∧ res_totalCost r == cost (usage response)
        ∧ l' = on_cost_update (res_totalCost r) (budget cfg) l
        ∧ match resp_toolCalls response with
          | [] =>
              status r = completed
              ∧ output r = resp_content response
              ∧ messages st
                = [ initial_message task imgs;
                    {| role := assistant;
                       content := resp_content response;
                       images := None;
                       toolCalls := None;
                       toolResults := None |} ]
              ∧ w' = w1
          | calls =>
              let ran := run_tools (tools cfg) calls w1 in
              status r = error
              ∧ output r
                = (if truthy (resp_content response)
                   then resp_content response
                   else "Agent " +:+ js_text (name cfg)
                        +:+ " finished with status: error")
              ∧ messages st
                = [ initial_message task imgs;
                    {| role := assistant;
                       content := resp_content response;
                       images := None;
                       toolCalls := Some calls;
                       toolResults := None |};
                    {| role := tool;
                       content := "";
                       images := None;
                       toolCalls := None;
                       toolResults := Some ran.1 |} ]
              ∧ w' = ran.2
          end
    end.
Proof.
  intros Hb Hm Hp Hab. unfold run. cbn [turns push_message initial_state].
  destruct (effective_maxTurns cfg - 0)%nat as [|fuel] eqn:E; [lia|].
  cbn [loop aborted messages totalCost app push_message initial_state].
  assert (Hcheck : Qge_bool 0 (budget cfg) = false).
  { unfold Qge_bool. by apply Qle_bool_false. }
  rewrite Hcheck. unfold initial_message in Hp |- *. rewrite Hp.
  destruct outcome as [response|m].
  2: { cbn. by repeat split. }
  destruct (resp_toolCalls response) as [|c calls] eqn:Ec.
  { cbn. repeat split. lra. }
  cbn zeta.
  destruct (run_tools (tools cfg) (c :: calls) w1) as [results w2].
  rewrite loop_aborted by (cbn; by rewrite Hab).
  cbn [fst snd]. unfold finish, fallback_output, last_assistant_text.
  cbn [messages push_message resume track count_call app List.filter role
       content truthy chatCalls turns totalCost status output res_turns
       res_totalCost].
  destruct (truthy (resp_content response)) eqn:Et;
    cbn; rewrite ?Et; cbn; repeat split; lra.
Qed.

End AgentLoopRuns.

Section AgentLoopLimits.
Context {W L : Type}.
Variable abort_requested : W → bool.
Variable id : string.
Variable cfg : AgentConfig W.
Variable on_cost_update : Q → Q → L → L.

Lemma inject_nat_succ (n : nat) :
  inject_Z (Z.of_nat (S n)) == inject_Z (Z.of_nat n) + 1.
Proof.
  rewrite Nat2Z.inj_succ. unfold Z.succ. by rewrite inject_Z_plus.
Qed.

(** With a backend that always asks for a tool and enough money for
    [fuel] more calls, the loop runs out of turns. *)
Lemma loop_runs_out (c : Q) :
  (∀ w, abort_requested w = false) →
  (∀ ms defs m sys w,
     ∃ response w',
       provider cfg ms defs m sys w = (ChatReturns response, w')
       ∧ resp_toolCalls response ≠ []
       ∧ cost (usage response) <= c) →
  0 <= c →
  ∀ (fuel : nat) (st : AgentState) (w : W) (l : L),
    aborted st = false →
    totalCost st + inject_Z (Z.of_nat fuel) * c < budget cfg →
    ∃ r st' w' l',
      loop abort_requested id cfg on_cost_update fuel st w l = (r, st', w', l')
      ∧ status r = max_turns
      ∧ turns st' = (turns st + fuel)%nat
      ∧ chatCalls st' = (chatCalls st + fuel)%nat.
Proof.
  intros Hab Hp Hc fuel.
  induction fuel as [|fuel IH]; intros st w l Ha Hb; cbn [loop].
  - rewrite Ha. eexists _, _, _, _. split; [done|]. cbn.
    repeat split; lia.
  - rewrite Ha. rewrite inject_nat_succ in Hb.
    assert (Hpos : 0 <= inject_Z (Z.of_nat fuel)).
    { change 0 with (inject_Z 0). rewrite <- Zle_Qle. lia. }
    assert (Hprod : 0 <= inject_Z (Z.of_nat fuel) * c)
      by (by apply Qmult_le_0_compat).
    assert (Hcheck : Qge_bool (totalCost st) (budget cfg) = false).
    { unfold Qge_bool. apply Qle_bool_false. lra. }
    rewrite Hcheck.
    destruct (Hp (messages st) (ToolRegistry.getDefinitions (tools cfg))
                (model cfg) (systemPrompt cfg) w)
      as (response & w1 & -> & Hcalls & Hcost).
    destruct (resp_toolCalls response) as [|tc calls]; [done|].
    destruct (run_tools _ _ w1) as [results w2].
    match goal with
    | |- context [loop _ _ _ _ fuel ?s ?w' ?l'] =>
        destruct (IH s w' l') as (r & st' & w3 & l3 & -> & Hs & Ht & Hk)
    end.
    + cbn. by rewrite !Hab, Ha.
    + cbn. lra.
    + eexists _, _, _, _. split; [done|]. cbn in Ht, Hk.
      repeat split; [done | lia | lia].
Qed.

(** X14. With a backend that answers every call with at least one tool
    call at a cost of at most [c] each, no cancellation, and a ceiling
    above [maxTurns * c], a fresh agent ends [max_turns] after exactly
    [maxTurns] turns and as many calls. *)
Theorem run_reaches_max_turns
    (task : string) (imgs : option (list ImageAttachment)) (w : W) (l : L)
    (c : Q) :
  (∀ w, abort_requested w = false) →
  (∀ ms defs m sys w,
     ∃ response w',
       provider cfg ms defs m sys w = (ChatReturns response, w')
       ∧ resp_toolCalls response ≠ []
       ∧ cost (usage response) <= c) →
  0 <= c →
  inject_Z (Z.of_nat (effective_maxTurns cfg)) * c < budget cfg →
  let '(r, st, _, _) :=
    run abort_requested id cfg on_cost_update task imgs initial_state w l in
  status r = max_turns
  ∧ res_turns r = effective_maxTurns cfg
  ∧ chatCalls st = effective_maxTurns cfg.
Proof.
  intros Hab Hp Hc Hb. unfold run. cbn [turns push_message initial_state].
  rewrite Nat.sub_0_r.
  match goal with
  | |- context [loop _ _ _ _ _ ?s ?w' ?l'] =>
      destruct (loop_runs_out c Hab Hp Hc (effective_maxTurns cfg) s w' l')
        as (r & st' & w3 & l3 & E & Hs & Ht & Hk)
  end.
  - done.
  - cbn. lra.
  - rewrite E. cbn in Ht, Hk.
    pose proof (loop_counters _ _ _ _ _ _ _ _ _ _ _ _ E) as (H1 & _).
    repeat split; [done | by rewrite H1 | done].
Qed.

End AgentLoopLimits.

(** Every [cost_update] hands the running total to the listener, and
    [recordSpend] adds what it is handed. *)
Lemma loop_recorded_spend {W : Type} (abort_requested : W → bool)
    (id aid : string) (cfg : AgentConfig W) :
  (∀ ms defs m sys w response w',
     provider cfg ms defs m sys w = (ChatReturns response, w') →
     0 <= cost (usage response)) →
  ∀ (fuel : nat) (st : AgentState) (w : W) (b : BudgetManager) r st' w' b',
    0 <= totalCost st →
    loop abort_requested id cfg (agent_listener aid) fuel st w b
    = (r, st', w', b') →
    totalSpent b + (totalCost st' - totalCost st) <= totalSpent b'
    ∧ totalCost st <= totalCost st'.
Proof.
  intros Hc fuel. induction fuel as [|fuel IH];
    intros st w b r st' w' b' Hpos; cbn [loop].
  - intros [= <- <- <- <-]. lra.
  - destruct (aborted st); [intros [= <- <- <- <-]; lra|].
    destruct (Qge_bool _ _); [intros [= <- <- <- <-]; lra|].
    destruct (provider cfg _ _ _ _ w) as [[response|m] w1] eqn:Ep.
    2: { intros [= <- <- <- <-]. cbn. lra. }
    apply Hc in Ep.
    destruct (recordSpend_totals aid
                (totalCost st + cost (usage response)) b) as (Hs & _).
    destruct (resp_toolCalls response) as [|tc calls].
    + intros [= <- <- <- <-]. cbn. unfold agent_listener. cbn in Hs.
      rewrite Hs. lra.
    + destruct (run_tools _ _ w1) as [results w2]. intros H.
      apply IH in H; [|cbn; lra]. cbn in H. unfold agent_listener in H.
      cbn in Hs. rewrite Hs in H. lra.
Qed.

(** X15. The listener that [runAgent] and [planTask] put on an agent is
    handed the agent's running total after every call and records it as
    a new spend.  So, with costs that are not negative, what the manager
    has recorded for a run is at least the agent's own total cost (and
    more when the costs of earlier turns are counted again). *)
Theorem recorded_spend_covers_cost {W : Type} (abort_requested : W → bool)
    (id aid : string) (cfg : AgentConfig W)
    (task : string) (imgs : option (list ImageAttachment))
    (w : W) (b : BudgetManager) :
  (∀ ms defs m sys w response w',
     provider cfg ms defs m sys w = (ChatReturns response, w') →
     0 <= cost (usage response)) →
  let '(r, _, _, b') :=
    run abort_requested id cfg (agent_listener aid) task imgs
      initial_state w b in
  totalSpent b + res_totalCost r <= totalSpent b'.
Proof.
  intros Hc. unfold run.
  destruct (loop _ _ _ _ _ _ _ _) as [[[r st'] w'] b'] eqn:E.
  pose proof (loop_counters _ _ _ _ _ _ _ _ _ _ _ _ E) as (_ & H2 & _).
  apply (loop_recorded_spend _ _ _ _ Hc) in E; [|cbn; lra].
  cbn in E. rewrite H2. lra.
Qed.

(** ** The stubs again *)

Lemma run_tools_results_witness :
  ∃ r : ToolResult,
    (run_tools (@nil (ToolHandler unit)) [stub_tool_call] tt).1 !! 0%nat
    = Some r
    ∧ tr_content r = "Error: Unknown tool " +:+ dquote +:+ "bash" +:+ dquote.
Proof.
  eexists. split; [reflexivity|].
  exact (proj2 (run_tools_results (@nil (ToolHandler unit)) [stub_tool_call] tt)
           0%nat stub_tool_call _ eq_refl eq_refl eq_refl).
Defined.

Lemma always_tool_stub_cost :
  ∀ ms defs m sys w response w',
    provider (stub_config always_tool_stub (25 # 1000) None) ms defs m sys w
    = (ChatReturns response, w') →
    cost (usage response) <= 1 # 100.
Proof.
  intros ms defs m sys w response w' H. cbn in H. injection H as <- _.
  cbn. discriminate.
Qed.

Lemma run_cost_bound_witness :
  res_totalCost (stub_run always_tool_stub (25 # 1000) None).1.1.1
  <= Qmax 0 ((25 # 1000) + (1 # 100)).
Proof.
  exact (run_cost_bound never_aborted "agent-under-test"
           (stub_config always_tool_stub (25 # 1000) None) counting_listener
           "do it" None tt 0%nat (1 # 100) always_tool_stub_cost).
Defined.

(** The ceiling of 0.025 is overshot: three calls of 0.01 are made. *)
Example stub_overshoots :
  (25 # 1000) < res_totalCost (stub_run always_tool_stub (25 # 1000) None).1.1.1.
Proof. vm_compute. reflexivity. Qed.

Lemma run_completes_in_one_turn_witness :
  let '(r, st, w', l') := stub_run answering_stub 1 None in
  status r = completed
  ∧ output r = "all done"
  ∧ res_turns r = 1%nat
  ∧ chatCalls st = 1%nat
  ∧ res_totalCost r == 1 # 100
  ∧ length (messages st) = 2%nat
  ∧ w' = tt
  ∧ l' = 1%nat.
Proof.
  assert (Hb : 0 < budget (stub_config answering_stub 1 None)) by reflexivity.
  assert (Hm : (0 < effective_maxTurns (stub_config answering_stub 1 None))%nat)
    by (vm_compute; lia).
  exact (run_completes_in_one_turn never_aborted "agent-under-test"
           (stub_config answering_stub 1 None) counting_listener
           "do it" None tt tt 0%nat _ Hb Hm eq_refl eq_refl).
Defined.

Lemma always_tool_stub_asks :
  ∀ (b : Q) (mt : option nat) ms defs m sys w,
    ∃ response w',
      provider (stub_config always_tool_stub b mt) ms defs m sys w
      = (ChatReturns response, w')
      ∧ resp_toolCalls response ≠ []
      ∧ cost (usage response) <= 1 # 100.
Proof.
  intros b mt ms defs m sys w. eexists _, _. split; [reflexivity|].
  split; [discriminate|]. cbn. discriminate.
Qed.

Lemma run_reaches_max_turns_witness :
  let '(r, st, _, _) := stub_run always_tool_stub 1 (Some 3%nat) in
  status r = max_turns
  ∧ res_turns r = 3%nat
  ∧ chatCalls st = 3%nat.
Proof.
  assert (Hc : 0 <= 1 # 100) by discriminate.
  assert (Hb : inject_Z (Z.of_nat (effective_maxTurns
                 (stub_config always_tool_stub 1 (Some 3%nat)))) * (1 # 100)
               < budget (stub_config always_tool_stub 1 (Some 3%nat)))
    by reflexivity.
  exact (run_reaches_max_turns never_aborted "agent-under-test"
           (stub_config always_tool_stub 1 (Some 3%nat)) counting_listener
           "do it" None tt 0%nat (1 # 100) (λ _, eq_refl)
           (always_tool_stub_asks 1 (Some 3%nat)) Hc Hb).
Defined.

Lemma always_tool_stub_nonneg :
  ∀ ms defs m sys w response w',
    provider (stub_config always_tool_stub 1 (Some 3%nat)) ms defs m sys w
    = (ChatReturns response, w') →
    0 <= cost (usage response).
Proof.
  intros ms defs m sys w response w' H. cbn in H. injection H as <- _.
  cbn. discriminate.
Qed.

Lemma recorded_spend_covers_cost_witness :
  let '(r, _, _, b') := stub_run_recorded always_tool_stub 1 (Some 3%nat) in
  totalSpent (Budget.new 10 Budget.default_reservePercent) + res_totalCost r
  <= totalSpent b'.
Proof.
  exact (recorded_spend_covers_cost never_aborted "agent-under-test"
           "agent-under-test" (stub_config always_tool_stub 1 (Some 3%nat))
           "do it" None tt (Budget.new 10 Budget.default_reservePercent)
           always_tool_stub_nonneg).
Defined.

(** Three turns of 0.01 each: the agent has spent 0.03, the manager has
    recorded 0.01 + 0.02 + 0.03. *)
Example stub_recorded_twice :
  let '(r, _, _, b') := stub_run_recorded always_tool_stub 1 (Some 3%nat) in
  res_totalCost r == 3 # 100 ∧ totalSpent b' == 6 # 100.
Proof. vm_compute. done. Qed.

Lemma run_aborted_early_witness :
  let '(r, st, w', n) :=
    run abort_once_busy "agent-under-test" logging_config counting_listener
      "do it" None initial_state [] 0%nat in
  status r = error
  ∧ output r = "working"
  ∧ chatCalls st = 1%nat
  ∧ toolResults <$> last (messages st)
    = Some (Some [ {| toolCallId := "call-1"; tr_content := "ran ls" |};
                   {| toolCallId := "call-2"; tr_content := "ran pwd" |} ])
  ∧ w' = ["chat"; "ls"; "pwd"]
  ∧ n = 1%nat.
Proof.
  assert (Hturns : (0 < effective_maxTurns logging_config)%nat)
    by (unfold effective_maxTurns, default_maxTurns; cbn; lia).
  generalize
    (run_aborted_early abort_once_busy "agent-under-test" logging_config
       counting_listener "do it" None [] ["chat"] 0%nat
       (two_tools_stub [] [] "" None []).1
       eq_refl Hturns eq_refl eq_refl).
  clear Hturns. vm_compute.
  intros (Hcalls & _ & _ & _ & Hstatus & Hout & Hmsgs & Hw).
  repeat split; assumption || reflexivity.
Defined.

(** The aborted run of the stub: one call, one tool result, [error]. *)
Example stub_aborted :
  let '(r, st, _, _) :=
    run always_aborted "agent-under-test"
      (stub_config always_tool_stub 1 None) counting_listener
      "do it" None initial_state tt 0%nat in
  status r = error ∧ chatCalls st = 1%nat ∧ length (messages st) = 3%nat
  ∧ output r = "working".
Proof. vm_compute. done. Qed.

(** ** Pricing *)

Lemma pricing_of_In (m : string) (p : ModelPricing) :
  pricing_of m = Some p ↔ In (m, p) MODEL_PRICING.
Proof.
  split.
  - unfold pricing_of. destruct (List.find _ _) as [[m' p']|] eqn:E; [|done].
    cbn. intros [= <-]. apply find_some in E as [Hin Heq].
    cbn in Heq. apply String.eqb_eq in Heq. by subst.
  - intros Hin. cbn in Hin.
    repeat (destruct Hin as [[= <- <-]|Hin]; [reflexivity|]). done.
Qed.

Lemma prices_nonneg (m : string) (p : ModelPricing) :
  pricing_of m = Some p → 0 <= inputPer1M p ∧ 0 <= outputPer1M p.
Proof.
  intros H. apply pricing_of_In in H. cbn in H.
  repeat (destruct H as [[= <- <-]|H]; [split; discriminate|]). done.
Qed.

Lemma per_million (x : Q) : x / 1000000 == x * (1 # 1000000).
Proof. reflexivity. Qed.

(** X17. [getProvider] only ever answers ["anthropic"] or ["openai"], and
    it answers ["anthropic"] for every model that is not in the pricing
    table. *)
Theorem getProvider_range (m : string) :
  (getProvider m = "anthropic" ∨ getProvider m = "openai")
  ∧ (pricing_of m = None → getProvider m = "anthropic").
Proof.
  unfold getProvider. destruct (pricing_of m) as [p|] eqn:E.
  - split; [|done]. apply pricing_of_In in E. cbn in E.
    repeat (destruct E as [[= <- <-]|E]; [cbn; auto|]). done.
  - split; [by left | done].
Qed.

Lemma listed_not_inherited (m : string) (p : ModelPricing) :
  pricing_of m = Some p → inherited_key m = false.
Proof.
  intros H. apply pricing_of_In in H. cbn in H.
  repeat (destruct H as [[= <- <-]|H]; [reflexivity|]). done.
Qed.

(** X18. [calculateCost] is NaN for the names that the pricing table
    inherits as an object ("constructor", "toString", ...).  For every
    other model name, listed or not, it is a finite cost that is additive
    in the token counts, 0 for no tokens, and, for token counts that are
    not negative, not negative and not decreasing when a count grows. *)
Theorem calculateCost_linear (m : string) (i1 o1 i2 o2 : Q) :
  (inherited_key m = true → calculateCost m i1 o1 = NaN)
  ∧ (inherited_key m = false →
     calculateCost m i1 o1 = Fin (cost_of_tokens m i1 o1))
  ∧ cost_of_tokens m (i1 + i2) (o1 + o2)
    == cost_of_tokens m i1 o1 + cost_of_tokens m i2 o2
  ∧ cost_of_tokens m 0 0 == 0
  ∧ (0 <= i1 → 0 <= o1 → 0 <= cost_of_tokens m i1 o1)
  ∧ (0 <= i2 → 0 <= o2 →
     cost_of_tokens m i1 o1 <= cost_of_tokens m (i1 + i2) (o1 + o2)).
Proof.
  assert (Hadd : cost_of_tokens m (i1 + i2) (o1 + o2)
                 == cost_of_tokens m i1 o1 + cost_of_tokens m i2 o2).
  { unfold cost_of_tokens. destruct (pricing_of m); field. }
  assert (Hpos : ∀ i o, 0 <= i → 0 <= o → 0 <= cost_of_tokens m i o).
  { intros i o Hi Ho. unfold cost_of_tokens.
    destruct (pricing_of m) as [p|] eqn:E.
    - destruct (prices_nonneg m p E) as [Hin Hout].
      pose proof (Qmult_le_0_compat _ _ Hi Hin).
      pose proof (Qmult_le_0_compat _ _ Ho Hout).
      rewrite !per_million. lra.
    - rewrite !per_million. lra. }
  split; [unfold calculateCost; by intros ->|].
  split; [unfold calculateCost; by intros ->|].
  split; [exact Hadd|]. split.
  { unfold cost_of_tokens. destruct (pricing_of m); field. }
  split; [apply Hpos|].
  intros Hi Ho. rewrite Hadd. pose proof (Hpos i2 o2 Hi Ho). lra.
Qed.

Lemma calculateCost_linear_witness :
  0 <= 1000 ∧ 0 <= 500
  ∧ inherited_key "gpt-4o" = false
  ∧ calculateCost "gpt-4o" 2000 100 = Fin (cost_of_tokens "gpt-4o" 2000 100)
  ∧ cost_of_tokens "gpt-4o" 2000 100
    <= cost_of_tokens "gpt-4o" (2000 + 1000) (100 + 500)
  ∧ calculateCost "constructor" 2000 100 = NaN.
Proof.
  assert (Hi : 0 <= 1000) by discriminate.
  assert (Ho : 0 <= 500) by discriminate.
  assert (Hk : inherited_key "gpt-4o" = false) by reflexivity.
  destruct (calculateCost_linear "gpt-4o" 2000 100 1000 500)
    as (_ & Hfin & _ & _ & _ & Hmono).
  destruct (calculateCost_linear "constructor" 2000 100 1000 500)
    as (Hnan & _).
  split; [exact Hi|]. split; [exact Ho|]. split; [exact Hk|].
  split; [exact (Hfin Hk)|]. split; [exact (Hmono Hi Ho)|].
  exact (Hnan eq_refl).
Defined.

(** X19. The estimate for a model name that the table does not know
    ("estimate high to be safe") is at least the cost of every listed
    model other than claude-opus-4-6 and o1, for token counts that are
    not negative; for claude-opus-4-6 it is lower than the real cost as
    soon as a token is counted. *)
Theorem fallback_estimate (unknown : string) (i o : Q) :
  pricing_of unknown = None →
  inherited_key unknown = false →
  0 <= i → 0 <= o →
  ∃ u, calculateCost unknown i o = Fin u
       ∧ (∀ m p, pricing_of m = Some p →
            m ≠ "claude-opus-4-6" → m ≠ "o1" →
            ∃ c, calculateCost m i o = Fin c ∧ c <= u)
       ∧ (0 < i + o →
          ∃ c, calculateCost "claude-opus-4-6" i o = Fin c ∧ u < c).
Proof.
  intros Hu Hk Hi Ho. exists (cost_of_tokens unknown i o).
  split; [unfold calculateCost; by rewrite Hk|]. split.
  - intros m p Hp Hopus Ho1. exists (cost_of_tokens m i o).
    split; [unfold calculateCost; by rewrite (listed_not_inherited m p Hp)|].
    unfold cost_of_tokens. rewrite Hu, Hp.
    apply pricing_of_In in Hp. cbn in Hp.
    repeat (destruct Hp as [[= <- <-]|Hp];
            [try done; cbn; rewrite !per_million; lra|]). done.
  - intros Hpos. exists (cost_of_tokens "claude-opus-4-6" i o).
    split; [reflexivity|].
    unfold cost_of_tokens. rewrite Hu. cbn. rewrite !per_million. lra.
Qed.

Lemma fallback_estimate_witness :
  pricing_of "mystery-model" = None
  ∧ inherited_key "mystery-model" = false
  ∧ ∃ u, calculateCost "mystery-model" 1000 1000 = Fin u
         ∧ (∃ c, calculateCost "gpt-4o" 1000 1000 = Fin c ∧ c <= u)
         ∧ (∃ c, calculateCost "claude-opus-4-6" 1000 1000 = Fin c ∧ u < c).
Proof.
  assert (Hu : pricing_of "mystery-model" = None) by reflexivity.
  assert (Hk : inherited_key "mystery-model" = false) by reflexivity.
  assert (Hi : 0 <= 1000) by discriminate.
  destruct (fallback_estimate "mystery-model" 1000 1000 Hu Hk Hi Hi)
    as (u & Hfin & Hle & Hlt).
  split; [exact Hu|]. split; [exact Hk|]. exists u. split; [exact Hfin|].
  split.
  - apply (Hle "gpt-4o" (mkModelPricing (25 # 10) 10 128000 "openai"));
      [reflexivity | discriminate | discriminate].
  - apply Hlt. reflexivity.
Defined.

(** ** suggestModel *)

Lemma insert_by_cost_In (c x : string * Q) (l : list (string * Q)) :
  In x (insert_by_cost c l) ↔ x = c ∨ In x l.
Proof.
  induction l as [|d l IH]; cbn; [naive_solver|].
  destruct (Qle_bool c.2 d.2); cbn; [naive_solver|].
  rewrite IH. naive_solver.
Qed.

Lemma sort_by_cost_In (x : string * Q) (l : list (string * Q)) :
  In x (sort_by_cost l) ↔ In x l.
Proof.
  induction l as [|c l IH]; [done|].
  cbn [sort_by_cost fold_right]. rewrite insert_by_cost_In.
  fold (sort_by_cost l). rewrite IH. cbn. naive_solver.
Qed.

(** The head of a sorted list costs at most as much as every element. *)
Lemma insert_by_cost_head (c : string * Q) (l : list (string * Q)) :
  (∀ h rest, l = h :: rest → Forall (cost_le h) l) →
  ∀ h rest, insert_by_cost c l = h :: rest →
    Forall (cost_le h) (insert_by_cost c l).
Proof.
  intros Hl h rest. destruct l as [|d l]; cbn.
  - intros [= <- <-]. constructor; [apply Qle_refl | constructor].
  - specialize (Hl d l eq_refl).
    destruct (Qle_bool c.2 d.2) eqn:E.
    + intros [= <- <-]. apply Qle_bool_iff in E.
      constructor; [apply Qle_refl|].
      eapply Forall_impl; [exact Hl|].
      intros x Hx. unfold cost_le in *. lra.
    + intros [= <- <-]. apply Qle_bool_false in E.
      apply Forall_cons in Hl as [Hd Hl].
      constructor; [done|].
      apply Forall_forall. intros x Hx. apply list_elem_of_In in Hx.
      apply insert_by_cost_In in Hx as [->|Hx].
      * unfold cost_le. lra.
      * rewrite Forall_forall in Hl. apply Hl. by apply list_elem_of_In.
Qed.

Lemma sort_by_cost_head (l : list (string * Q)) :
  ∀ h rest, sort_by_cost l = h :: rest → Forall (cost_le h) (sort_by_cost l).
Proof.
  induction l as [|c l IH]; [done|].
  cbn [sort_by_cost fold_right]. fold (sort_by_cost l).
  by apply insert_by_cost_head.
Qed.

Lemma candidates_In (prov : string) (t maxCost : Q) (m : string) (k : Q) :
  In (m, k) (candidates prov t maxCost)
  ↔ ∃ p, pricing_of m = Some p ∧ pricing_provider p = prov
         ∧ k = estimatedCost p t ∧ k <= maxCost.
Proof.
  unfold candidates. rewrite filter_In, in_map_iff. cbn [snd]. split.
  - intros [([m' p] & [= <- <-] & Hin) Hk].
    apply filter_In in Hin as [Hin Hp]. cbn in Hp.
    exists p. split; [by apply pricing_of_In|].
    split; [by apply String.eqb_eq|]. split; [done|by apply Qle_bool_iff].
  - intros (p & Hp & Hprov & -> & Hk). split; [|by apply Qle_bool_iff].
    exists (m, p). split; [done|]. apply filter_In.
    split; [by apply pricing_of_In|]. cbn. by apply String.eqb_eq.
Qed.

(** X20. When [suggestModel] names a model, that model is in the pricing
    table under the requested provider, its estimate is within [maxCost],
    and no model of that provider within [maxCost] has a lower estimate;
    it answers [null] exactly when no model of the provider is within
    [maxCost]. *)
Theorem suggestModel_cheapest (prov : string) (t maxCost : Q) :
  (∀ m, suggestModel prov t maxCost = Some m →
     ∃ p, pricing_of m = Some p
          ∧ pricing_provider p = prov
          ∧ estimatedCost p t <= maxCost
          ∧ ∀ m' p', pricing_of m' = Some p' →
              pricing_provider p' = prov →
              estimatedCost p' t <= maxCost →
              estimatedCost p t <= estimatedCost p' t)
  ∧ (suggestModel prov t maxCost = None
     ↔ ∀ m' p', pricing_of m' = Some p' → pricing_provider p' = prov →
         ¬ estimatedCost p' t <= maxCost).
Proof.
  unfold suggestModel.
  destruct (sort_by_cost (candidates prov t maxCost)) as [|[m k] rest] eqn:E.
  - split; [done|]. split; [|done]. intros _ m' p' Hp Hprov Hk.
    assert (Hin : In (m', estimatedCost p' t) (sort_by_cost (candidates prov t maxCost))).
    { apply sort_by_cost_In, candidates_In. by exists p'. }
    by rewrite E in Hin.
  - pose proof (sort_by_cost_head _ _ _ E) as Hmin.
    assert (Hin : In (m, k) (candidates prov t maxCost)).
    { apply sort_by_cost_In. rewrite E. by left. }
    apply candidates_In in Hin as (p & Hp & Hprov & -> & Hk).
    split.
    + intros m0 [= <-]. exists p. repeat split; try done.
      intros m' p' Hp' Hprov' Hk'.
      assert (Hin' : In (m', estimatedCost p' t)
                       (sort_by_cost (candidates prov t maxCost))).
      { apply sort_by_cost_In, candidates_In. by exists p'. }
      rewrite Forall_forall in Hmin.
      apply list_elem_of_In, Hmin in Hin'. exact Hin'.
    + split; [done|]. intros Hnone. exfalso. by apply (Hnone m p).
Qed.

Lemma suggestModel_cheapest_witness :
  suggestModel "openai" 1000000 5 = Some "gpt-4o-mini"
  ∧ ∃ p, pricing_of "gpt-4o-mini" = Some p
         ∧ pricing_provider p = "openai"
         ∧ estimatedCost p 1000000 <= 5.
Proof.
  assert (H : suggestModel "openai" 1000000 5 = Some "gpt-4o-mini")
    by (vm_compute; reflexivity).
  split; [exact H|].
  destruct (proj1 (suggestModel_cheapest "openai" 1000000 5) _ H)
    as (p & Hp & Hprov & Hk & _).
  exists p. by repeat split.
Defined.

(** ** Orchestrator: configuration errors and the scheduling loop *)

Lemma set_has_In (d : Z) (s : list Z) : set_has d s = true ↔ d ∈ s.
Proof.
  unfold set_has. rewrite existsb_exists. split.
  - intros (x & Hx & Heq). apply Z.eqb_eq in Heq as <-.
    by apply list_elem_of_In.
  - intros H. exists d. split; [by apply list_elem_of_In | apply Z.eqb_refl].
Qed.

Lemma set_add_In (d i : Z) (s : list Z) : d ∈ set_add i s ↔ d = i ∨ d ∈ s.
Proof.
  unfold set_add. destruct (set_has i s) eqn:E.
  - apply set_has_In in E. naive_solver.
  - rewrite elem_of_app, list_elem_of_singleton. naive_solver.
Qed.

Section SchedulingFacts.
Context {W : Type}.
Variable uuid : W → string * W.
Variable abort_requested : W → bool.
Variable createToolRegistry : string → W → (@ToolRegistry.t W + string) * W.
Variable extractPlan : string → option (list SubTask.t).
Variable defaultModel : string.
Variable workspaceDir : string.

(** X21. Without a configured backend for the model, [runTask] (once it
    has its tool registry) returns a [TaskResult] with status [error]
    whose output names the missing provider and the variable to set; no
    agent has been started, no result collected, nothing spent, and the
    world is as the tool registry left it. *)
Theorem runTask_without_provider (o o' : Orchestrator) (config : TaskConfig.t)
    (w w1 w2 : W) (taskId : string) (reg : @ToolRegistry.t W) :
  let m := default defaultModel (TaskConfig.model config) in
  uuid w = (taskId, w1) →
  getToolRegistry createToolRegistry workspaceDir o w1 = (inl reg, o', w2) →
  providers o' !! getProvider m = None →
  let outcome :=
    runTask uuid abort_requested createToolRegistry extractPlan
      defaultModel workspaceDir o config w in
  ∃ r, outcome.1 = Returned r
       ∧ TaskResult.status r = TaskResult.error
       ∧ TaskResult.output r
         = "Error: " +:+ "No " +:+ getProvider m +:+ " provider configured. Set "
           +:+ (if String.eqb (getProvider m) "anthropic"
                then "ANTHROPIC_API_KEY" else "OPENAI_API_KEY")
       ∧ TaskResult.agentResults r = []
       ∧ TaskResult.totalCost r = 0%Q
       ∧ started outcome.2 = []
       ∧ world outcome.2 = w2.
Proof.
  intros m Hid Hreg Hnone. cbn zeta. unfold runTask. rewrite Hid, Hreg. fold m.
  unfold try_body, bind, plan_phase, bind, allocateM. cbn.
  unfold planTask. destruct (Qle_bool _ 0).
  - unfold ret, simple_path, bind, get_state, allocateM. cbn.
    unfold runAgent, bind, lookup_provider. rewrite Hnone. unfold throw.
    eexists. cbn. by repeat split.
  - unfold bind, lookup_provider. rewrite Hnone. unfold throw.
    eexists. cbn. by repeat split.
Qed.

(** What the scheduling loop has done when it ends, as a list [ran] of
    the subtasks whose agent ran. *)
Lemma schedule_trace (o : Orchestrator) (config : TaskConfig.t)
    (taskId m : string) (reg : @ToolRegistry.t W) (todo : list SubTask.t) :
  ∀ st : OState,
    ∃ ran : list SubTask.t,
      sublist ran todo
      ∧ started_subtask <$>
          started (schedule uuid abort_requested o config taskId m reg todo st).2
        = (started_subtask <$> started st) ++ (SubTask.description <$> ran)
      ∧ started_preset <$>
          started (schedule uuid abort_requested o config taskId m reg todo st).2
        = (started_preset <$> started st) ++ (SubTask.agentType <$> ran)
      ∧ completedIds
          (schedule uuid abort_requested o config taskId m reg todo st).2
        = mark_all ran (completedIds st)
      ∧ length (agentResults
          (schedule uuid abort_requested o config taskId m reg todo st).2)
        = (length (agentResults st) + length ran)%nat
      ∧ (∀ l1 t l2, ran = l1 ++ t :: l2 →
           ∀ d, d ∈ SubTask.dependsOn t →
             d ∈ completedIds st ∨ d ∈ SubTask.id <$> l1).
Proof.
  induction todo as [|t rest IH]; intros st.
  { exists []. cbn. rewrite !app_nil_r. repeat split; try done; try lia.
    intros [|? ?] ? ? [=]. }
  rewrite schedule_step.
  assert (Hstop : ∀ st0 : @OState W,
    started st0 = started st → completedIds st0 = completedIds st →
    agentResults st0 = agentResults st →
    ∃ ran : list SubTask.t,
      sublist ran (t :: rest)
      ∧ started_subtask <$> started st0
        = (started_subtask <$> started st) ++ (SubTask.description <$> ran)
      ∧ started_preset <$> started st0
        = (started_preset <$> started st) ++ (SubTask.agentType <$> ran)
      ∧ completedIds st0 = mark_all ran (completedIds st)
      ∧ length (agentResults st0) = (length (agentResults st) + length ran)%nat
      ∧ (∀ l1 t0 l2, ran = l1 ++ t0 :: l2 →
           ∀ d, d ∈ SubTask.dependsOn t0 →
             d ∈ completedIds st ∨ d ∈ SubTask.id <$> l1)).
  { intros st0 H1 H2 H3. exists []. cbn. rewrite !app_nil_r, H1, H2, H3.
    repeat split; try done; try lia; [apply sublist_nil_l|].
    intros [|? ?] ? ? [=]. }
  destruct (Qle_bool (Budget.remaining (mgr st)) 0); [by apply Hstop|].
  destruct (forallb _ (SubTask.dependsOn t)) eqn:Eready; cbn [negb].
  2: { destruct (IH st) as (ran & Hsub & H1 & H2 & H3 & H4 & H5).
       exists ran. repeat split; try done. by apply sublist_cons. }
  cbn zeta. destruct (Qle_bool _ 0); [by apply Hstop|].
  match goal with
  | |- context [runAgent ?u ?a ?o ?ti ?p ?tk ?m ?r ?b ?s] =>
      destruct (runAgent_outcome u a o ti p tk m r b s)
        as [(e & -> & _)|(r1 & st2 & pc & -> & _ & _ & Hr2 & Hc2 & Hs2 & _)]
  end.
  { by apply Hstop. }
  cbn [agentResults completedIds started] in Hr2, Hc2, Hs2.
  match goal with
  | |- context [schedule _ _ _ _ _ _ _ rest ?s] =>
      destruct (IH s) as (ran & Hsub & H1 & H2 & H3 & H4 & H5)
  end.
  cbn [agentResults completedIds started] in H1, H2, H3, H4, H5.
  exists (t :: ran). split; [by apply sublist_skip|].
  split; [rewrite H1, Hs2, fmap_app, <- app_assoc; done|].
  split; [rewrite H2, Hs2, fmap_app, <- app_assoc; done|].
  split; [rewrite H3, Hc2; done|].
  split; [rewrite H4, Hr2, length_app; cbn; lia|].
  intros [|t' l1] t0 l2; cbn.
  - intros [= <- <-] d Hd. left.
    rewrite forallb_forall in Eready. apply set_has_In, Eready.
    by apply list_elem_of_In.
  - intros [= <- ->] d Hd.
    destruct (H5 l1 t0 l2 eq_refl d Hd) as [Hin|Hin].
    + rewrite Hc2 in Hin. apply set_add_In in Hin as [->|Hin];
        [right; left | by left].
    + right. by right.
Qed.

(** X22. The scheduling loop runs subtasks in the order of its list, each
    at most once: the [agent_started] events it adds, the results it
    collects and the ids it marks completed are those of one sublist
    [ran] of the list, in order, whatever the agents' final statuses and
    wherever the loop stops (an unknown preset or a missing backend
    included). *)
Theorem schedule_runs_sublist (o : Orchestrator) (config : TaskConfig.t)
    (taskId m : string) (reg : @ToolRegistry.t W) (todo : list SubTask.t)
    (st : OState) :
  let st' := (schedule uuid abort_requested o config taskId m reg todo st).2 in
  ∃ ran : list SubTask.t,
    sublist ran todo
    ∧ started_subtask <$> started st'
      = (started_subtask <$> started st) ++ (SubTask.description <$> ran)
    ∧ started_preset <$> started st'
      = (started_preset <$> started st) ++ (SubTask.agentType <$> ran)
    ∧ completedIds st' = mark_all ran (completedIds st)
    ∧ length (agentResults st')
      = (length (agentResults st) + length ran)%nat.
Proof.
  destruct (schedule_trace o config taskId m reg todo st)
    as (ran & H0 & H1 & H2 & H3 & H4 & _).
  by exists ran.
Qed.

(** X23. A subtask runs only when every id in its [dependsOn] is already
    completed: each of them was completed before the loop or is the id of
    a subtask that ran earlier in the loop.  So a subtask that names an
    id which no subtask of the list has (and which was not completed
    before) never runs. *)
Theorem schedule_waits_for_dependencies (o : Orchestrator)
    (config : TaskConfig.t) (taskId m : string) (reg : @ToolRegistry.t W)
    (todo : list SubTask.t) (st : OState) :
  let st' := (schedule uuid abort_requested o config taskId m reg todo st).2 in
  ∃ ran : list SubTask.t,
    sublist ran todo
    ∧ started_subtask <$> started st'
      = (started_subtask <$> started st) ++ (SubTask.description <$> ran)
    ∧ (∀ l1 t l2, ran = l1 ++ t :: l2 →
         ∀ d, d ∈ SubTask.dependsOn t →
           d ∈ completedIds st ∨ d ∈ SubTask.id <$> l1)
    ∧ (∀ t d, t ∈ ran → d ∈ SubTask.dependsOn t →
         d ∈ completedIds st ∨ d ∈ SubTask.id <$> todo).
Proof.
  destruct (schedule_trace o config taskId m reg todo st)
    as (ran & H0 & H1 & _ & _ & _ & H5).
  exists ran. repeat split; try done.
  intros t d Ht Hd. apply list_elem_of_split in Ht as (l1 & l2 & ->).
  destruct (H5 l1 t l2 eq_refl d Hd) as [Hin|Hin]; [by left|right].
  apply list_elem_of_fmap in Hin as (t' & -> & Ht').
  apply list_elem_of_fmap_2. eapply elem_of_sublist; [|exact H0].
  apply elem_of_app. by left.
Qed.

End SchedulingFacts.

(** X24. For every list of subtasks, with or without repeated ids,
    [topologicalSort] returns subtasks of the list with pairwise distinct
    ids, and every id of the list is the id of one of them: of several
    subtasks with one id, only one is kept. *)
Theorem topologicalSort_ids (subtasks : list SubTask.t) :
  NoDup (SubTask.id <$> topologicalSort subtasks)
  ∧ (∀ t, t ∈ topologicalSort subtasks → t ∈ subtasks)
  ∧ (∀ i, i ∈ SubTask.id <$> subtasks
          ↔ i ∈ SubTask.id <$> topologicalSort subtasks)
  ∧ (length (topologicalSort subtasks) ≤ length subtasks)%nat.
Proof.
  destruct (topologicalSort_returns subtasks)
    as (acc & E & (added & Hs & Hv & Hin & Hnd) & Hall).
  unfold topologicalSort, topologicalSort_fuel. rewrite E. cbn.
  cbn in Hs, Hv. rewrite Hs.
  assert (Hsub : ∀ t, t ∈ added → t ∈ subtasks) by (intros t Ht; by apply Hin).
  split; [done|]. split; [done|]. split.
  - intros i. split.
    + intros (t & -> & Ht)%list_elem_of_fmap.
      pose proof (Hall t Ht) as Hid. rewrite Hv in Hid.
      apply elem_of_union in Hid as [Hid|Hid]; [set_solver|].
      apply elem_of_ids_of in Hid as (y & Hy & <-).
      by apply list_elem_of_fmap_2.
    + intros (t & -> & Ht)%list_elem_of_fmap.
      by apply list_elem_of_fmap_2, Hsub.
  - rewrite <- (length_fmap SubTask.id added).
    rewrite <- (length_fmap SubTask.id subtasks).
    apply submseteq_length, NoDup_submseteq; [done|].
    intros i (t & -> & Ht)%list_elem_of_fmap.
    by apply list_elem_of_fmap_2, Hsub.
Qed.

Lemma runTask_without_provider_witness :
  ∃ r, unconfigured_scenario.1 = Returned r
       ∧ TaskResult.status r = TaskResult.error
       ∧ TaskResult.agentResults r = []
       ∧ TaskResult.totalCost r = 0%Q
       ∧ started unconfigured_scenario.2 = [].
Proof.
  destruct (runTask_without_provider test_uuid test_abort
              test_createToolRegistry (scripted_extractPlan []) test_model
              "./workspace" unconfigured_orchestrator
              {| providers := ∅; toolRegistry := Some [] |}
              (test_config 5) 0%nat 1%nat 1%nat
              "00000000-0000-4000-8000-000000000000" []
              eq_refl eq_refl eq_refl)
    as (r & H1 & H2 & _ & H4 & H5 & H6 & _).
  exists r. split; [exact H1|]. split; [exact H2|]. split; [exact H4|].
  split; [exact H5 | exact H6].
Defined.

(** The configuration error as the caller sees it. *)
Example unconfigured_output :
  ∃ r, unconfigured_scenario.1 = Returned r
       ∧ TaskResult.output r
         = "Error: No anthropic provider configured. Set ANTHROPIC_API_KEY".
Proof. eexists. split; [vm_compute; reflexivity | reflexivity]. Qed.

(** A plan with a subtask that waits for an absent id, one that waits for
    itself and a repeated id: only the first subtask runs, and the task
    still ends [completed]. *)
Example stuck_plan_runs_one :
  SubTask.description <$> topologicalSort stuck_plan = ["build"; "review"; "loop"]
  ∧ started_subtask <$> started stuck_scenario.2 = ["build"]
  ∧ completedIds stuck_scenario.2 = [1%Z]
  ∧ ∃ r, stuck_scenario.1 = Returned r
         ∧ TaskResult.status r = TaskResult.completed.
Proof.
  split; [vm_compute; reflexivity|]. split; [vm_compute; reflexivity|].
  split; [vm_compute; reflexivity|].
  eexists. split; [vm_compute; reflexivity | reflexivity].
Qed.

(** ** Orchestrator: accounting *)

Lemma agents_cost_app (rs rs' : list AgentResult) :
  agents_cost (rs ++ rs') == agents_cost rs + agents_cost rs'.
Proof.
  unfold agents_cost. induction rs as [|r0 rs IH].
  - change (Qsum (res_totalCost <$> rs') == 0 + Qsum (res_totalCost <$> rs')).
    lra.
  - change (res_totalCost r0 + Qsum (res_totalCost <$> rs ++ rs')
            == res_totalCost r0 + Qsum (res_totalCost <$> rs)
               + Qsum (res_totalCost <$> rs')).
    rewrite IH. lra.
Qed.

(** What a run with the orchestrator's listener leaves in the manager. *)
Lemma run_recorded_spend {W : Type} (abort_requested : W → bool)
    (id aid : string) (cfg : AgentConfig W)
    (task : string) (imgs : option (list ImageAttachment))
    (w : W) (b : BudgetManager) r st' w' b' :
  (∀ ms defs m sys w response w',
     provider cfg ms defs m sys w = (ChatReturns response, w') →
     0 <= cost (usage response)) →
  run abort_requested id cfg (agent_listener aid) task imgs initial_state w b
  = (r, st', w', b') →
  totalSpent b + res_totalCost r <= totalSpent b' ∧ 0 <= res_totalCost r.
Proof.
  intros Hc E. unfold run in E.
  pose proof (loop_counters _ _ _ _ _ _ _ _ _ _ _ _ E) as (_ & H2 & _).
  apply (loop_recorded_spend _ _ _ _ Hc) in E; [|cbn; lra].
  cbn in E. destruct E as [E1 E2]. rewrite H2. split; lra.
Qed.

Lemma accounted_refl {W : Type} (st : @OState W) : accounted st st.
Proof.
  exists []. rewrite app_nil_r. split; [done|]. unfold agents_cost. cbn. lra.
Qed.

Lemma accounted_trans {W : Type} (a b c : @OState W) :
  accounted a b → accounted b c → accounted a c.
Proof.
  intros (r1 & E1 & H1) (r2 & E2 & H2). exists (r1 ++ r2).
  split; [by rewrite E2, E1, app_assoc|].
  rewrite agents_cost_app. lra.
Qed.

Section AccountingFacts.
Context {W : Type}.
Variable uuid : W → string * W.
Variable abort_requested : W → bool.
Variable createToolRegistry : string → W → (@ToolRegistry.t W + string) * W.
Variable extractPlan : string → option (list SubTask.t).
Variable defaultModel : string.
Variable workspaceDir : string.
Variable o : @Orchestrator W.
Hypothesis Hcosts : nonneg_costs o.

Lemma planTask_accounted (task m : string) (reg : @ToolRegistry.t W) (b : Q)
    (st : OState) :
  accounted st
    (planTask uuid abort_requested extractPlan o task m reg b st).2.
Proof.
  unfold planTask. destruct (Qle_bool b 0); [apply accounted_refl|].
  unfold bind, lookup_provider.
  destruct (providers o !! getProvider m) as [p|] eqn:Ep; unfold ret, throw;
    [|apply accounted_refl].
  unfold new_agent_id. cbn [cfg_id].
  destruct (uuid (world st)) as [aid w1].
  match goal with
  | |- context [run ?a ?i ?c ?f ?t ?im ?s ?w ?l] =>
      destruct (run a i c f t im s w l) as [[[result st1] w2] b'] eqn:E
  end.
  apply (run_recorded_spend _ _ "planner") in E; [|exact (Hcosts _ _ Ep)].
  assert (Hacc : accounted st
    {| world := w2; mgr := b'; agentResults := agentResults st;
       completedIds := completedIds st; started := started st |}).
  { exists []. cbn. rewrite app_nil_r. split; [done|].
    unfold agents_cost. cbn. lra. }
  by destruct (extractPlan (output result)) as [[|t rest]|].
Qed.

Lemma runAgent_accounted (taskId preset task m : string)
    (reg : @ToolRegistry.t W) (b : Q) (st : OState) :
  match runAgent uuid abort_requested o taskId preset task m reg b st with
  | (inl r, st') =>
      agentResults st' = agentResults st
      ∧ totalSpent (mgr st) + res_totalCost r <= totalSpent (mgr st')
  | (inr _, st') => st' = st
  end.
Proof.
  unfold runAgent, bind, lookup_provider.
  destruct (providers o !! getProvider m) as [p|] eqn:Ep; unfold ret, throw;
    [|done].
  destruct (preset_of preset) as [pc|]; [|done].
  unfold new_agent_id. cbn [cfg_id].
  destruct (uuid (world st)) as [aid w1].
  match goal with
  | |- context [run ?a ?i ?c ?f ?t ?im ?s ?w ?l] =>
      destruct (run a i c f t im s w l) as [[[result st1] w2] b'] eqn:E
  end.
  apply (run_recorded_spend _ _ aid) in E; [|exact (Hcosts _ _ Ep)].
  pose proof (release_totals aid b') as (_ & Rs & _).
  destruct (Budget.release aid b') as [unspent b'']. cbn in Rs. cbn.
  split; [done|]. rewrite Rs. lra.
Qed.

Lemma schedule_accounted (config : TaskConfig.t) (taskId m : string)
    (reg : @ToolRegistry.t W) (todo : list SubTask.t) :
  ∀ st : @OState W,
    accounted st
      (schedule uuid abort_requested o config taskId m reg todo st).2.
Proof.
  induction todo as [|t rest IH]; intros st; [apply accounted_refl|].
  rewrite schedule_step.
  destruct (Qle_bool (Budget.remaining (mgr st)) 0); [apply accounted_refl|].
  destruct (negb _); [apply IH|]. cbn zeta.
  assert (Halloc : ∀ id r, accounted st
    {| world := world st; mgr := (Budget.allocate id r (mgr st)).2;
       agentResults := agentResults st; completedIds := completedIds st;
       started := started st |}).
  { intros id r. exists []. cbn. rewrite app_nil_r. split; [done|].
    unfold agents_cost. cbn. lra. }
  destruct (Qle_bool _ 0); [apply Halloc|].
  match goal with
  | |- context [runAgent ?u ?a ?o' ?ti ?p ?tk ?m' ?r ?b ?s] =>
      pose proof (runAgent_accounted ti p tk m' r b s) as Hrun;
      assert (Hs0 : accounted st s) by apply Halloc;
      destruct (runAgent u a o' ti p tk m' r b s) as [[r1|e] st2]
  end.
  2: { by subst st2. }
  destruct Hrun as [Hr Hs].
  eapply accounted_trans; [|apply IH].
  eapply accounted_trans; [exact Hs0|].
  exists [r1]. cbn in *. rewrite Hr. split; [done|].
  unfold agents_cost. cbn. lra.
Qed.

Lemma try_body_accounted (config : TaskConfig.t) (taskId m : string)
    (reg : @ToolRegistry.t W) (st : @OState W) :
  accounted st
    (try_body uuid abort_requested extractPlan o config taskId m reg st).2.
Proof.
  unfold try_body, bind at 1. unfold plan_phase, bind at 1.
  unfold allocateM at 1. cbn [Budget.allocate fst snd].
  match goal with
  | |- context [planTask ?u ?a ?e ?o' ?tk ?m' ?r ?b ?s] =>
      pose proof (planTask_accounted tk m' r b s) as Hplan;
      destruct (planTask u a e o' tk m' r b s) as [[plan|e0] st1]
  end; cbn [snd] in Hplan.
  2: { eapply accounted_trans; [|exact Hplan].
       exists []. cbn. rewrite app_nil_r. split; [done|].
       unfold agents_cost. cbn. lra. }
  eapply accounted_trans.
  { eapply accounted_trans; [|exact Hplan].
    exists []. cbn. rewrite app_nil_r. split; [done|].
    unfold agents_cost. cbn. lra. }
  destruct plan as [|t rest].
  - unfold simple_path, bind at 1. unfold get_state, bind at 1.
    unfold allocateM at 1. cbn [Budget.allocate fst snd]. unfold bind at 1.
    match goal with
    | |- context [runAgent ?u ?a ?o' ?ti ?p ?tk ?m' ?r ?b ?s] =>
        pose proof (runAgent_accounted ti p tk m' r b s) as Hrun;
        destruct (runAgent u a o' ti p tk m' r b s) as [[r1|e] st2]
    end.
    + destruct Hrun as [Hr Hs]. unfold push_result. cbn in *.
      exists [r1]. cbn. rewrite Hr. split; [done|].
      unfold agents_cost. cbn. lra.
    + subst st2. exists []. cbn. rewrite app_nil_r. split; [done|].
      unfold agents_cost. cbn. lra.
  - unfold complex_path. apply schedule_accounted.
Qed.

(** X25. If no configured backend reports a negative cost, the
    [totalCost] of the [TaskResult] that [runTask] returns, whether the
    task ended normally or in the [catch], is at least the sum of the
    [totalCost] of the agents in its [agentResults]. *)
Theorem runTask_cost_covers_agents (o0 : Orchestrator) (config : TaskConfig.t)
    (w w1 w2 : W) (taskId : string) (reg : @ToolRegistry.t W) :
  uuid w = (taskId, w1) →
  getToolRegistry createToolRegistry workspaceDir o0 w1 = (inl reg, o, w2) →
  ∃ r,
    (runTask uuid abort_requested createToolRegistry extractPlan
       defaultModel workspaceDir o0 config w).1 = Returned r
    ∧ agents_cost (TaskResult.agentResults r) <= TaskResult.totalCost r.
Proof.
  intros Hid Hreg. unfold runTask. rewrite Hid, Hreg.
  pose proof (try_body_accounted config taskId
                (default defaultModel (TaskConfig.model config)) reg
                (start_state config w2)) as (rs & Hr & Hs).
  destruct (try_body _ _ _ _ _ _ _ _ _) as [[[]|e] st];
    eexists; (split; [reflexivity|]);
    cbn [TaskResult.agentResults TaskResult.totalCost aggregate error_result];
    cbn in Hr, Hs; rewrite Hr; lra.
Qed.

End AccountingFacts.

Lemma scripted_costs_nonneg :
  nonneg_costs
    {| providers := providers (test_orchestrator "PLAN" (1 # 10) (2 # 10));
       toolRegistry := Some [] |}.
Proof.
  intros n p Hp ms defs m sys w response w' H. cbn in Hp.
  apply lookup_singleton_Some in Hp as [_ <-].
  unfold scripted_provider in H.
  destruct (bool_decide _); injection H as <- _; cbn; discriminate.
Qed.

Lemma runTask_cost_covers_agents_witness :
  ∃ r, single_scenario.1 = Returned r
       ∧ agents_cost (TaskResult.agentResults r) <= TaskResult.totalCost r.
Proof.
  exact (runTask_cost_covers_agents test_uuid test_abort
           test_createToolRegistry (scripted_extractPlan single_plan)
           test_model "./workspace" _ scripted_costs_nonneg
           (test_orchestrator "PLAN" (1 # 10) (2 # 10)) (test_config 10)
           0%nat 1%nat 1%nat "00000000-0000-4000-8000-000000000000" []
           eq_refl eq_refl).
Defined.

(** ** Orchestrator: cancellation *)

Lemma find_task_None (taskId : string) (a : Active) :
  find_task taskId a = None ↔ taskId ∉ getActiveTaskIds a.
Proof.
  unfold find_task, getActiveTaskIds.
  induction (activeTasks a) as [|[k v] l IH]; cbn.
  - split; [intros _ H; by apply elem_of_nil in H | done].
  - destruct (String.eqb_spec k taskId) as [->|Hne]; cbn.
    + split; [done|]. intros H. exfalso. apply H. by left.
    + rewrite IH. rewrite not_elem_of_cons. naive_solver.
Qed.

Lemma find_task_filter (taskId other : string) (l : list (string * ActiveTask)) :
  List.find (λ e, String.eqb e.1 other)
    (List.filter (λ e, negb (String.eqb e.1 taskId)) l)
  = if String.eqb taskId other then None
    else List.find (λ e, String.eqb e.1 other) l.
Proof.
  induction l as [|[k v] l IH]; cbn.
  - by destruct (String.eqb taskId other).
  - destruct (String.eqb_spec k taskId) as [->|Hne]; cbn.
    + rewrite IH. by destruct (String.eqb taskId other).
    + destruct (String.eqb_spec k other) as [->|Hne']; [|exact IH].
      destruct (String.eqb_spec taskId other) as [->|]; [done|done].
Qed.

(** X26. [cancelTask] of an id that is not active returns [false] and
    changes nothing.  For an active id it returns [true], the id is no
    longer active while the other active ids stay, in their order, and
    keep their budgets; every running agent, of whichever task, has its
    abort flag set; and a second [cancelTask] of that id returns
    [false]. *)
Theorem cancelTask_spec (taskId : string) (a : Active) :
  let '(ok, a') := cancelTask taskId a in
  (if decide (taskId ∈ getActiveTaskIds a)
   then ok = true
        ∧ Forall (λ e, aborted e.2 = true) (activeAgents a')
        ∧ (activeAgents a').*1 = (activeAgents a).*1
   else ok = false ∧ a' = a)
  ∧ getActiveTaskIds a'
    = List.filter (λ k, negb (String.eqb k taskId)) (getActiveTaskIds a)
  ∧ (taskId ∉ getActiveTaskIds a')
  ∧ getTaskBudget taskId a' = None
  ∧ (∀ other, other ≠ taskId →
       getTaskBudget other a' = getTaskBudget other a)
  ∧ (cancelTask taskId a').1 = false.
Proof.
  assert (Hfilter : ∀ l : list (string * ActiveTask),
    map fst (List.filter (λ e, negb (String.eqb e.1 taskId)) l)
    = List.filter (λ k, negb (String.eqb k taskId)) (map fst l)).
  { induction l as [|[k v] l IH]; [done|]. cbn.
    destruct (String.eqb k taskId); cbn; by rewrite IH. }
  assert (Hgone : ∀ l : list string,
    taskId ∉ List.filter (λ k, negb (String.eqb k taskId)) l).
  { intros l H. apply list_elem_of_In, filter_In in H as [_ H].
    by rewrite String.eqb_refl in H. }
  unfold cancelTask. destruct (find_task taskId a) as [t|] eqn:E.
  - assert (Hin : taskId ∈ getActiveTaskIds a).
    { destruct (decide (taskId ∈ getActiveTaskIds a)) as [|Hn]; [done|].
      apply find_task_None in Hn. congruence. }
    rewrite decide_True by done.
    set (a' := {| activeAgents := map (λ e, (e.1, abort e.2)) (activeAgents a);
                  activeTasks :=
                    List.filter (λ e, negb (String.eqb e.1 taskId))
                      (activeTasks a) |}).
    assert (Hnone : find_task taskId a' = None).
    { apply find_task_None. unfold getActiveTaskIds, a'. cbn.
      rewrite Hfilter. apply Hgone. }
    split; [|split; [|split; [|split; [|split]]]].
    + split; [done|]. unfold a'. cbn [activeAgents]. split.
      * apply Forall_forall. intros e He. apply list_elem_of_In in He.
        apply in_map_iff in He as (e0 & <- & _). done.
      * induction (activeAgents a) as [|e l IH]; [done|].
        cbn [map fmap list_fmap fst] in *. by rewrite IH.
    + unfold getActiveTaskIds, a'. cbn [activeTasks]. apply Hfilter.
    + unfold getActiveTaskIds, a'. cbn [activeTasks]. rewrite Hfilter.
      apply Hgone.
    + unfold getTaskBudget. by rewrite Hnone.
    + intros other Hne. unfold getTaskBudget, find_task, a'.
      cbn [activeTasks]. rewrite find_task_filter.
      destruct (String.eqb_spec taskId other); [congruence|done].
    + unfold cancelTask. by rewrite Hnone.
  - pose proof E as Hn. apply find_task_None in Hn.
    rewrite decide_False by done. split; [done|].
    split; [|split; [done|split; [|split; [done|]]]].
    + unfold getActiveTaskIds in *. clear E.
      induction (activeTasks a) as [|[k v] l IH]; [done|]. cbn in *.
      apply not_elem_of_cons in Hn as [Hk Hn].
      destruct (String.eqb_spec k taskId); [congruence|]. cbn.
      by rewrite <- IH.
    + unfold getTaskBudget. by rewrite E.
    + cbn. by rewrite E.
Qed.

(** ** Orchestrator: planning *)

Section PlanningFacts.
Context {W : Type}.
Variable uuid : W → string * W.
Variable abort_requested : W → bool.
Variable extractPlan : string → option (list SubTask.t).

(** X27. [planTask] with a budget of 0 or less returns no subtask and
    touches nothing: no backend is looked up or called.  With a positive
    budget and no configured backend it throws and touches nothing.  With
    a configured backend it never throws, whatever the planner wrote: it
    returns either no subtask or the non-empty list that the parse of
    some text gave. *)
Theorem planTask_degrades (o : Orchestrator) (task m : string)
    (reg : @ToolRegistry.t W) (b : Q) (st : @OState W) :
  (b <= 0 →
     planTask uuid abort_requested extractPlan o task m reg b st
     = (inl [], st))
  ∧ (0 < b → providers o !! getProvider m = None →
     ∃ e, planTask uuid abort_requested extractPlan o task m reg b st
          = (inr e, st))
  ∧ (is_Some (providers o !! getProvider m) →
     ∃ l st',
       planTask uuid abort_requested extractPlan o task m reg b st
       = (inl l, st')
       ∧ (l = [] ∨ (l ≠ [] ∧ ∃ text, extractPlan text = Some l))).
Proof.
  unfold planTask. split; [|split].
  - intros Hb. apply Qle_bool_iff in Hb. by rewrite Hb.
  - intros Hb Hnone. apply Qle_bool_false in Hb. rewrite Hb.
    unfold bind, lookup_provider. rewrite Hnone. by eexists.
  - intros [p Hp]. destruct (Qle_bool b 0).
    { eexists _, _. split; [done | by left]. }
    unfold bind, lookup_provider. rewrite Hp. unfold ret.
    unfold new_agent_id. cbn [cfg_id].
    destruct (uuid (world st)) as [aid w1].
    match goal with
    | |- context [run ?a ?i ?c ?f ?t ?im ?s ?w ?l] =>
        destruct (run a i c f t im s w l) as [[[result st1] w2] b']
    end.
    destruct (extractPlan (output result)) as [[|t rest]|] eqn:E;
      eexists _, _; (split; [done|]); [by left | | by left].
    right. split; [done | by eexists].
Qed.

End PlanningFacts.

Lemma planTask_degrades_witness :
  (0 <= 0)%Q
  ∧ planTask test_uuid test_abort (scripted_extractPlan [])
      unconfigured_orchestrator "build it" test_model [] 0
      (start_state (test_config 0) 1%nat)
    = (inl [], start_state (test_config 0) 1%nat).
Proof.
  assert (H : (0 <= 0)%Q) by discriminate.
  split; [exact H|].
  exact (proj1 (planTask_degrades test_uuid test_abort (scripted_extractPlan [])
                  unconfigured_orchestrator "build it" test_model [] 0
                  (start_state (test_config 0) 1%nat)) H).
Defined.

(** ** Agent types that are no preset *)

(** [AGENT_PRESETS[key]] is defined for the four presets and for the
    names inherited from [Object.prototype], and for nothing else. *)
Lemma preset_of_defined (key : string) :
  is_Some (preset_of key)
  ↔ is_Some (own_preset key) ∨ inherited_key key = true.
Proof.
  unfold preset_of. destruct (own_preset key) as [pc|].
  { split; [by left | by eexists]. }
  destruct (String.eqb key "__proto__") eqn:E1.
  { apply String.eqb_eq in E1 as ->. split; [by right | by eexists]. }
  destruct (String.eqb key "constructor") eqn:E2.
  { apply String.eqb_eq in E2 as ->. split; [by right | by eexists]. }
  destruct (inherited_key key).
  { split; [by right | by eexists]. }
  split; [by intros [? [=]] | by intros [[? [=]]|[=]]].
Qed.

(** Only a preset of the table brings a system prompt. *)
Lemma preset_of_systemPrompt (key : string) (pc : PresetValue) :
  preset_of key = Some pc →
  value_systemPrompt pc = preset_systemPrompt <$> own_preset key.
Proof.
  unfold preset_of. destruct (own_preset key) as [p|]; [by intros [= <-]|].
  destruct (String.eqb key "__proto__"); [by intros [= <-]|].
  destruct (String.eqb key "constructor"); [by intros [= <-]|].
  destruct (inherited_key key); [by intros [= <-] | done].
Qed.

Example preset_of_examples :
  preset_of "coder"
  = Some {| value_name := Some "Coder";
            value_systemPrompt :=
              Some "You are an autonomous coding agent with full system access." |}
  ∧ preset_of "constructor"
    = Some {| value_name := Some "Object"; value_systemPrompt := None |}
  ∧ preset_of "toString"
    = Some {| value_name := Some "toString"; value_systemPrompt := None |}
  ∧ preset_of "__proto__"
    = Some {| value_name := None; value_systemPrompt := None |}
  ∧ preset_of "designer" = None.
Proof. vm_compute. by repeat split. Qed.

(** A subtask whose agent type is ["constructor"] does not end in the
    TypeError of an unknown type: an agent named ["Object"] is run on
    it, without a system prompt. *)
Example inherited_scenario_runs :
  ∃ r, inherited_scenario.1 = Returned r
       ∧ TaskResult.status r = TaskResult.completed
       ∧ TaskResult.output r = "[Object] completed: done"
       ∧ res_name <$> TaskResult.agentResults r = [Some "Object"]
       ∧ started_preset <$> started inherited_scenario.2 = ["constructor"].
Proof. vm_compute. eexists. by repeat split. Qed.
